(** * NDK relay connectivity and NIP-46 signer: a shallow embedding

    The development follows two source files of the repository:

    - [ndk/src/relay/connectivity.ts], class [NDKRelayConnectivity]: the
      per-relay WebSocket state machine (connect, disconnect, reconnect
      scheduling, flapping detection, message dispatch, publish).
    - [ndk/src/signers/nip46/index.ts], class [NDKNip46Signer]: the remote
      signing session (constructor, [blockUntilReady]).

    Mutable object state is threaded explicitly; exceptions are the [Throw]
    branch of a result type; [setTimeout] callbacks are first-order data kept
    in a timer queue with the instant they were set at and their delay. *)

From Stdlib Require Import ZArith QArith Qreals Reals Lra Lia List Ascii String.
From Stdlib Require Import SpecFloat.
From stdpp Require Import base option list strings pretty gmap.

Local Open Scope Z_scope.
Set Warnings "-register-all".

(** ** JavaScript numbers, as far as [isFlapping] needs them

    A JavaScript number is an IEEE 754 binary64 value.  The operations are
    those of the standard library's specification of binary floating point
    ([SpecFloat]) at precision 53 and maximal exponent 1024: every result is
    the exact one rounded to the nearest representable value, ties to even,
    with the infinities and [NaN]. *)

Module JsNum.

Definition prec : Z := 53.
Definition emax : Z := 1024.

Definition num : Type := spec_float.

(** The number with the value of an integer, rounded when it has more than
    53 significant bits. *)
Definition of_Z (z : Z) : num := binary_normalize prec emax z 0 false.

(** [a + b], [a - b], [a / b]. *)
Definition add (a b : num) : num := SFadd prec emax a b.

Definition sub (a b : num) : num := SFsub prec emax a b.

Definition div (a b : num) : num := SFdiv prec emax a b.

(** [Math.pow(a, 2)]: the rounded product [a * a], as V8 computes it (the
    language leaves the precision of [Math.pow] to the implementation). *)
Definition pow2 (a : num) : num := SFmul prec emax a a.

(** [Math.sqrt(a)], correctly rounded; [NaN] on a negative argument. *)
Definition sqrt (a : num) : num := SFsqrt prec emax a.

(** [a < c] for an integer literal [c]; any comparison with [NaN] is false. *)
Definition ltb_Z (a : num) (c : Z) : bool := SFltb a (of_Z c).

End JsNum.

(** ** Flap detector: [NDKRelayConnectivity.isFlapping] *)

(** [durations.reduce((a, b) => a + b, 0)] over numbers. *)
Definition reduce_add (l : list JsNum.num) : JsNum.num :=
  fold_left JsNum.add l (JsNum.of_Z 0).

Definition isFlapping (durations : list Z) : bool :=
  let len := Z.of_nat (length durations) in
  if negb (len mod 3 =? 0) then false
  else
    let sum := reduce_add (map JsNum.of_Z durations) in
    let avg := JsNum.div sum (JsNum.of_Z len) in
    let variance :=
      JsNum.div
        (reduce_add
           (map (fun x => JsNum.pow2 (JsNum.sub (JsNum.of_Z x) avg)) durations))
        (JsNum.of_Z len) in
    let stdDev := JsNum.sqrt variance in
    JsNum.ltb_Z stdDev 1000.

(** ** JavaScript values and exceptions *)

(** What [JSON.parse] yields, plus [undefined] (the value of a missing index
    or property). *)
Inductive Value : Type :=
| VUndefined
| VNull
| VBool (b : bool)
| VNum (z : Z)
| VStr (s : string)
| VArr (elems : list Value)
| VObj (fields : list (string * Value)).

(** Thrown values.  [Error v] is [new Error(v)]: its message is [String(v)],
    which for a string [v] is [v] itself; the embedding keeps [v]. *)
Inductive Exn : Type :=
| TypeError (msg : string)
| SyntaxError (msg : string)
| Error (reason : Value).

Inductive Result (A : Type) : Type :=
| Ok (a : A)
| Throw (e : Exn).
Arguments Ok {A} a.
Arguments Throw {A} e.

(** Truthiness, as [if (v)] and [v ? a : b] test it. *)
Definition truthy (v : Value) : bool :=
  match v with
  | VUndefined | VNull => false
  | VBool b => b
  | VNum z => negb (z =? 0)
  | VStr s => negb (String.eqb s "")
  | VArr _ | VObj _ => true
  end.

(** Truthiness of an optional number ([number | undefined]). *)
Definition truthy_num (o : option Z) : bool :=
  match o with
  | Some z => negb (z =? 0)
  | None => false
  end.

(** Truthiness of an optional string ([string | undefined]). *)
Definition truthy_str (o : option string) : bool :=
  match o with
  | Some s => negb (String.eqb s "")
  | None => false
  end.

Fixpoint assoc (k : string) (fs : list (string * Value)) : Value :=
  match fs with
  | [] => VUndefined
  | (k', v) :: rest => if String.eqb k k' then v else assoc k rest
  end.

(** The property key of an array index. *)
Definition index_key (i : nat) : string := pretty i.

(** [v[i]] for a literal index [i]. *)
Definition get_index (v : Value) (i : nat) : Result Value :=
  match v with
  | VUndefined | VNull => Throw (TypeError "Cannot read properties of undefined")
  | VArr l => Ok (default VUndefined (l !! i))
  | VStr s =>
      Ok (match String.get i s with
          | Some c => VStr (String c EmptyString)
          | None => VUndefined
          end)
  | VObj fs => Ok (assoc (index_key i) fs)
  | VBool _ | VNum _ => Ok VUndefined
  end.

(** [v.name] for a property that is not a method of the built-in prototypes. *)
Definition get_field (v : Value) (name : string) : Result Value :=
  match v with
  | VUndefined | VNull => Throw (TypeError "Cannot read properties of undefined")
  | VObj fs => Ok (assoc name fs)
  | _ => Ok VUndefined
  end.

Definition Value_eqb (a b : Value) : bool :=
  match a, b with
  | VUndefined, VUndefined | VNull, VNull => true
  | VBool x, VBool y => Bool.eqb x y
  | VNum x, VNum y => x =? y
  | VStr x, VStr y => String.eqb x y
  | _, _ => false (* arrays and objects are compared by identity *)
  end.

(** [String.prototype.includes]: [needle] occurs in [hay]. *)
Fixpoint String_includes (needle hay : string) : bool :=
  String.prefix needle hay ||
  match hay with
  | EmptyString => false
  | String _ rest => String_includes needle rest
  end.

(** [v.includes(needle)] on a value of unknown type: strings search for a
    substring, arrays for an element, anything else has no such method. *)
Definition includes (v : Value) (needle : string) : Result bool :=
  match v with
  | VStr s => Ok (String_includes needle s)
  | VArr l => Ok (existsb (Value_eqb (VStr needle)) l)
  | _ => Throw (TypeError "includes is not a function")
  end.

(** ** Connection state: the fields of [NDKRelayConnectivity] *)

Inductive NDKRelayStatus : Type :=
| CONNECTING
| CONNECTED
| DISCONNECTING
| DISCONNECTED
| RECONNECTING
| FLAPPING
| AUTHENTICATING
| AUTHENTICATED.

#[global] Instance NDKRelayStatus_eq_dec : EqDecision NDKRelayStatus.
Proof. solve_decision. Defined.

(** [WebSocket.readyState]. *)
Inductive ReadyState : Type := WS_CONNECTING | WS_OPEN | WS_CLOSING | WS_CLOSED.

#[global] Instance ReadyState_eq_dec : EqDecision ReadyState.
Proof. solve_decision. Defined.

Record WebSocket : Type := mkWebSocket { readyState : ReadyState }.

(** [NDKRelayConnectionStats]. *)
Module Stats.
Record t : Type := mk {
  attempts : Z;
  success : Z;
  durations : list Z;
  connectedAt : option Z;
  nextReconnectAt : option Z
}.
Definition initial : t :=
  {| attempts := 0; success := 0; durations := [];
     connectedAt := None; nextReconnectAt := None |}.
End Stats.

(** An open subscription ([NDKRelaySubscription], a class outside these
    files): the fields the connection reads or writes. *)
Record NDKRelaySubscription : Type := mkSub {
  sub_id : string;
  filters : list Value;
  closed : bool
}.

Definition TimerId := positive.
Definition PromiseId := nat.

(** The relay object and the NDK instance, as far as the connection reads
    them: the URL, and whether an auth policy and a signer are configured. *)
Record NDKRelay : Type := mkRelay {
  url : string;
  authPolicy : bool
}.

Record NDK : Type := mkNDK {
  relayAuthDefaultPolicy : bool;
  signer : bool
}.

Record Conn : Type := mkConn {
  ndkRelay : NDKRelay;
  ws : option WebSocket;
  _status : NDKRelayStatus;
  timeoutMs : option Z;
  connectedAt : option Z;
  _connectionStats : Stats.t;
  connectTimeout : option TimerId;
  reconnectTimeout : option TimerId;
  ndk : option NDK;
  openSubs : gmap string NDKRelaySubscription;
  openCountRequests : gmap string PromiseId;
  openEventPublishes : gmap string PromiseId;
  serial : Z;
  baseEoseTimeout : Z
}.

(** [constructor(ndkRelay, ndk)] with the field initialisers. *)
Definition new_connectivity (relay : NDKRelay) (ndk0 : option NDK) : Conn :=
  {| ndkRelay := relay; ws := None; _status := DISCONNECTED;
     timeoutMs := None; connectedAt := None;
     _connectionStats := Stats.initial;
     connectTimeout := None; reconnectTimeout := None; ndk := ndk0;
     openSubs := ∅; openCountRequests := ∅; openEventPublishes := ∅;
     serial := 0; baseEoseTimeout := 4400 |}.

(** ** The host: timers, promises, emitted events *)

(** The bodies handed to [setTimeout], as data. *)
Inductive Callback : Type :=
| CbConnectTimeout (reconnect : bool) (* connect: () => this.onConnectionError(reconnect) *)
| CbReconnect (attempt : Z)           (* handleReconnection: the delayed reconnect *)
| CbRetry (attempt : Z)               (* () => this.handleReconnection(attempt + 1) *)
| CbNoticeConnect.                    (* onNotice: () => this.connect() *)

Record Timer : Type := mkTimer {
  tid : TimerId;
  setAt : Z;             (* Date.now() when setTimeout was called *)
  delay : option Z;      (* the delay argument, possibly undefined *)
  callback : Callback
}.

(** When a timer fires, as the HTML standard arms timers: a missing delay
    counts as 0, a negative one too.  Hosts differ outside the range from 1
    to [2^31 - 1] ms (Node arms such a delay as 1 ms). *)
Definition fireAt (t : Timer) : Z := setAt t + Z.max 0 (default 0 (delay t)).

(** Events emitted on the relay object. *)
Inductive RelayEvent : Type :=
| EvConnect
| EvReady
| EvDisconnect
| EvNotice (text : Value)
| EvAuth (challenge : Value)
| EvAuthed
| EvFlapping (stats : Stats.t)
| EvDelayedConnect (delayMs : Z).

(** What the connection does to the outside, in order. *)
Inductive Effect : Type :=
| Emit (ev : RelayEvent)
| WsSend (message : string)
| WsClose
| Resolve (p : PromiseId) (v : Value)
| Reject (p : PromiseId) (e : Exn)
| SubOnEvent (id : string) (event : Value)
| SubReceivedEose (id : string)
| SubClose (id : string) (reason : Value)
| AuthPolicyCall (challenge : Value)
| UnhandledRejection (e : Exn).

Record World : Type := mkWorld {
  conn : Conn;
  now : Z;                  (* Date.now() *)
  timers : list Timer;      (* pending timeouts, oldest first *)
  nextTimer : TimerId;
  nextPromise : PromiseId;
  trace : list Effect;      (* oldest first *)
  log : list (Z * string)   (* this.debug lines with the instant they are
                               written at, oldest first *)
}.

Definition fresh_world (relay : NDKRelay) (ndk0 : option NDK) (t0 : Z) : World :=
  {| conn := new_connectivity relay ndk0; now := t0; timers := [];
     nextTimer := 1%positive; nextPromise := 0%nat; trace := []; log := [] |}.

(** Built-ins and collaborators that are not part of these files.  The
    methods of [NDKRelaySubscription] are named by the subscription's id;
    [close], which the subscription may use to take itself out of the
    registry of the connection it belongs to, is handed [openSubs] and
    returns it as it leaves it. *)
Record Host : Type := mkHost {
  JSON_parse : string -> Result Value;
  new_WebSocket : string -> Result WebSocket;
  WebSocket_close : WebSocket -> Result WebSocket;
  matchFilters : list Value -> Value -> Result bool;
  sub_onevent : string -> Value -> Result unit;
  sub_receivedEose : string -> Result unit;
  sub_close : string -> Value -> gmap string NDKRelaySubscription ->
              Result unit * gmap string NDKRelaySubscription
}.

(** *** Field updates *)

Definition with_conn (f : Conn -> Conn) (w : World) : World :=
  {| conn := f (conn w); now := now w; timers := timers w;
     nextTimer := nextTimer w; nextPromise := nextPromise w;
     trace := trace w; log := log w |}.

Definition set_ws (x : option WebSocket) (c : Conn) : Conn :=
  {| ndkRelay := ndkRelay c; ws := x; _status := _status c;
     timeoutMs := timeoutMs c; connectedAt := connectedAt c;
     _connectionStats := _connectionStats c;
     connectTimeout := connectTimeout c; reconnectTimeout := reconnectTimeout c;
     ndk := ndk c; openSubs := openSubs c;
     openCountRequests := openCountRequests c;
     openEventPublishes := openEventPublishes c;
     serial := serial c; baseEoseTimeout := baseEoseTimeout c |}.

Definition set_status (x : NDKRelayStatus) (c : Conn) : Conn :=
  {| ndkRelay := ndkRelay c; ws := ws c; _status := x;
     timeoutMs := timeoutMs c; connectedAt := connectedAt c;
     _connectionStats := _connectionStats c;
     connectTimeout := connectTimeout c; reconnectTimeout := reconnectTimeout c;
     ndk := ndk c; openSubs := openSubs c;
     openCountRequests := openCountRequests c;
     openEventPublishes := openEventPublishes c;
     serial := serial c; baseEoseTimeout := baseEoseTimeout c |}.

Definition set_timeoutMs (x : option Z) (c : Conn) : Conn :=
  {| ndkRelay := ndkRelay c; ws := ws c; _status := _status c;
     timeoutMs := x; connectedAt := connectedAt c;
     _connectionStats := _connectionStats c;
     connectTimeout := connectTimeout c; reconnectTimeout := reconnectTimeout c;
     ndk := ndk c; openSubs := openSubs c;
     openCountRequests := openCountRequests c;
     openEventPublishes := openEventPublishes c;
     serial := serial c; baseEoseTimeout := baseEoseTimeout c |}.

Definition set_stats (x : Stats.t) (c : Conn) : Conn :=
  {| ndkRelay := ndkRelay c; ws := ws c; _status := _status c;
     timeoutMs := timeoutMs c; connectedAt := connectedAt c;
     _connectionStats := x;
     connectTimeout := connectTimeout c; reconnectTimeout := reconnectTimeout c;
     ndk := ndk c; openSubs := openSubs c;
     openCountRequests := openCountRequests c;
     openEventPublishes := openEventPublishes c;
     serial := serial c; baseEoseTimeout := baseEoseTimeout c |}.

Definition set_connectTimeout (x : option TimerId) (c : Conn) : Conn :=
  {| ndkRelay := ndkRelay c; ws := ws c; _status := _status c;
     timeoutMs := timeoutMs c; connectedAt := connectedAt c;
     _connectionStats := _connectionStats c;
     connectTimeout := x; reconnectTimeout := reconnectTimeout c;
     ndk := ndk c; openSubs := openSubs c;
     openCountRequests := openCountRequests c;
     openEventPublishes := openEventPublishes c;
     serial := serial c; baseEoseTimeout := baseEoseTimeout c |}.

Definition set_reconnectTimeout (x : option TimerId) (c : Conn) : Conn :=
  {| ndkRelay := ndkRelay c; ws := ws c; _status := _status c;
     timeoutMs := timeoutMs c; connectedAt := connectedAt c;
     _connectionStats := _connectionStats c;
     connectTimeout := connectTimeout c; reconnectTimeout := x;
     ndk := ndk c; openSubs := openSubs c;
     openCountRequests := openCountRequests c;
     openEventPublishes := openEventPublishes c;
     serial := serial c; baseEoseTimeout := baseEoseTimeout c |}.

Definition set_openSubs (x : gmap string NDKRelaySubscription) (c : Conn) : Conn :=
  {| ndkRelay := ndkRelay c; ws := ws c; _status := _status c;
     timeoutMs := timeoutMs c; connectedAt := connectedAt c;
     _connectionStats := _connectionStats c;
     connectTimeout := connectTimeout c; reconnectTimeout := reconnectTimeout c;
     ndk := ndk c; openSubs := x;
     openCountRequests := openCountRequests c;
     openEventPublishes := openEventPublishes c;
     serial := serial c; baseEoseTimeout := baseEoseTimeout c |}.

Definition set_openCountRequests (x : gmap string PromiseId) (c : Conn) : Conn :=
  {| ndkRelay := ndkRelay c; ws := ws c; _status := _status c;
     timeoutMs := timeoutMs c; connectedAt := connectedAt c;
     _connectionStats := _connectionStats c;
     connectTimeout := connectTimeout c; reconnectTimeout := reconnectTimeout c;
     ndk := ndk c; openSubs := openSubs c;
     openCountRequests := x;
     openEventPublishes := openEventPublishes c;
     serial := serial c; baseEoseTimeout := baseEoseTimeout c |}.

Definition set_openEventPublishes (x : gmap string PromiseId) (c : Conn) : Conn :=
  {| ndkRelay := ndkRelay c; ws := ws c; _status := _status c;
     timeoutMs := timeoutMs c; connectedAt := connectedAt c;
     _connectionStats := _connectionStats c;
     connectTimeout := connectTimeout c; reconnectTimeout := reconnectTimeout c;
     ndk := ndk c; openSubs := openSubs c;
     openCountRequests := openCountRequests c;
     openEventPublishes := x;
     serial := serial c; baseEoseTimeout := baseEoseTimeout c |}.

Definition set_serial (x : Z) (c : Conn) : Conn :=
  {| ndkRelay := ndkRelay c; ws := ws c; _status := _status c;
     timeoutMs := timeoutMs c; connectedAt := connectedAt c;
     _connectionStats := _connectionStats c;
     connectTimeout := connectTimeout c; reconnectTimeout := reconnectTimeout c;
     ndk := ndk c; openSubs := openSubs c;
     openCountRequests := openCountRequests c;
     openEventPublishes := openEventPublishes c;
     serial := x; baseEoseTimeout := baseEoseTimeout c |}.

(** [this.debug(line)]. *)
Definition debug (line : string) (w : World) : World :=
  {| conn := conn w; now := now w; timers := timers w;
     nextTimer := nextTimer w; nextPromise := nextPromise w;
     trace := trace w; log := log w ++ [(now w, line)] |}.

Definition effect (e : Effect) (w : World) : World :=
  {| conn := conn w; now := now w; timers := timers w;
     nextTimer := nextTimer w; nextPromise := nextPromise w;
     trace := trace w ++ [e]; log := log w |}.

(** [this.ndkRelay.emit(...)]. *)
Definition emit (ev : RelayEvent) (w : World) : World := effect (Emit ev) w.

(** [setTimeout(cb, delay)]. *)
Definition setTimeout (cb : Callback) (delay0 : option Z) (w : World)
  : TimerId * World :=
  let id := nextTimer w in
  (id,
   {| conn := conn w; now := now w;
      timers := timers w ++
        [{| tid := id; setAt := now w; delay := delay0; callback := cb |}];
      nextTimer := Pos.succ id; nextPromise := nextPromise w;
      trace := trace w; log := log w |}).

Definition clearTimeout (id : TimerId) (w : World) : World :=
  {| conn := conn w; now := now w;
     timers := filter (fun t => tid t ≠ id) (timers w);
     nextTimer := nextTimer w; nextPromise := nextPromise w;
     trace := trace w; log := log w |}.

(** [new Promise(...)]: the handle of the promise's [resolve]/[reject] pair. *)
Definition new_Promise (w : World) : PromiseId * World :=
  let p := nextPromise w in
  (p,
   {| conn := conn w; now := now w; timers := timers w;
      nextTimer := nextTimer w; nextPromise := S p;
      trace := trace w; log := log w |}).

(** ** Operations of [NDKRelayConnectivity] *)

Definition MAX_RECONNECT_ATTEMPTS : Z := 5.

(** [updateConnectionStats.connected]. *)
Definition stats_connected (w : World) : World :=
  with_conn (fun c =>
    let s := _connectionStats c in
    set_stats {| Stats.attempts := Stats.attempts s;
                 Stats.success := Stats.success s + 1;
                 Stats.durations := Stats.durations s;
                 Stats.connectedAt := Some (now w);
                 Stats.nextReconnectAt := Stats.nextReconnectAt s |} c) w.

(** [durations.push(d)], then [durations.shift()] when longer than 100. *)
Definition push_duration (d : Z) (ds : list Z) : list Z :=
  let ds' := ds ++ [d] in
  if (100 <? Z.of_nat (length ds')) then tail ds' else ds'.

(** [updateConnectionStats.disconnected]. *)
Definition stats_disconnected (w : World) : World :=
  with_conn (fun c =>
    let s := _connectionStats c in
    set_stats {| Stats.attempts := Stats.attempts s;
                 Stats.success := Stats.success s;
                 Stats.durations :=
                   match Stats.connectedAt s with
                   | Some t =>
                       if truthy_num (Some t)
                       then push_duration (now w - t) (Stats.durations s)
                       else Stats.durations s
                   | None => Stats.durations s
                   end;
                 Stats.connectedAt := None;
                 Stats.nextReconnectAt := Stats.nextReconnectAt s |} c) w.

(** [updateConnectionStats.attempt]. *)
Definition stats_attempt (w : World) : World :=
  with_conn (fun c =>
    let s := _connectionStats c in
    set_stats {| Stats.attempts := Stats.attempts s + 1;
                 Stats.success := Stats.success s;
                 Stats.durations := Stats.durations s;
                 Stats.connectedAt := Stats.connectedAt s;
                 Stats.nextReconnectAt := Stats.nextReconnectAt s |} c) w.

Definition set_nextReconnectAt (x : option Z) (w : World) : World :=
  with_conn (fun c =>
    let s := _connectionStats c in
    set_stats {| Stats.attempts := Stats.attempts s;
                 Stats.success := Stats.success s;
                 Stats.durations := Stats.durations s;
                 Stats.connectedAt := Stats.connectedAt s;
                 Stats.nextReconnectAt := x |} c) w.

(** The delay [handleReconnection] computes:
    [this.connectedAt ? Math.max(0, 60000 - (Date.now() - this.connectedAt))
                      : 5000 * (this._connectionStats.attempts + 1)]. *)
Definition reconnectDelay (w : World) : Z :=
  if truthy_num (connectedAt (conn w))
  then Z.max 0 (60000 - (now w - default 0 (connectedAt (conn w))))
  else 5000 * (Stats.attempts (_connectionStats (conn w)) + 1).

(** [handleReconnection(attempt = 0)]. *)
Definition handleReconnection (attempt : Z) (w : World) : World :=
  match reconnectTimeout (conn w) with
  | Some _ => w
  | None =>
      let w := debug "Attempting to reconnect" w in
      if isFlapping (Stats.durations (_connectionStats (conn w))) then
        let w := emit (EvFlapping (_connectionStats (conn w))) w in
        with_conn (set_status FLAPPING) w
      else
        let d := reconnectDelay w in
        let '(id, w) := setTimeout (CbReconnect attempt) (Some d) w in
        let w := with_conn (set_reconnectTimeout (Some id)) w in
        let w := emit (EvDelayedConnect d) w in
        let w := debug "Reconnecting in" w in
        set_nextReconnectAt (Some (now w + d)) w
  end.

(** [connect(timeoutMs?, reconnect = true)].  The body has no [await]: it
    runs to its end, or to the [throw] of its [catch], in one go; the result
    is how the returned promise settles. *)
Definition connect (h : Host) (timeoutMs_arg : option Z) (reconnect : bool)
    (w : World) : Result unit * World :=
  let w := match reconnectTimeout (conn w) with
           | Some id => with_conn (set_reconnectTimeout None) (clearTimeout id w)
           | None => w
           end in
  let w := match connectTimeout (conn w) with
           | Some id => with_conn (set_connectTimeout None) (clearTimeout id w)
           | None => w
           end in
  (* timeoutMs ??= this.timeoutMs *)
  let timeoutMs_arg := match timeoutMs_arg with
                       | Some t => Some t
                       | None => timeoutMs (conn w)
                       end in
  let w := if negb (truthy_num (timeoutMs (conn w))) && truthy_num timeoutMs_arg
           then with_conn (set_timeoutMs timeoutMs_arg) w
           else w in
  let '(id, w) := setTimeout (CbConnectTimeout reconnect) (timeoutMs (conn w)) w in
  let w := with_conn (set_connectTimeout (Some id)) w in
  (* try *)
  let w := stats_attempt w in
  let w := if decide (_status (conn w) = DISCONNECTED)
           then with_conn (set_status CONNECTING) w
           else with_conn (set_status RECONNECTING) w in
  let w := debug "Connecting to" w in
  match new_WebSocket h (url (ndkRelay (conn w))) with
  | Ok sock => (Ok tt, with_conn (set_ws (Some sock)) w)
  | Throw e =>
      (* catch (e) *)
      let w := debug "Failed to connect to" w in
      let w := with_conn (set_status DISCONNECTED) w in
      let w := if reconnect then handleReconnection 0 w
               else emit (EvDelayedConnect (2 * 24 * 60 * 60 * 1000)) w in
      (Throw e, w)
  end.

(** [disconnect()]. *)
Definition disconnect (h : Host) (w : World) : World :=
  let w := with_conn (set_status DISCONNECTING) w in
  match ws (conn w) with
  | None => w (* this.ws?.close() on no socket *)
  | Some sock =>
      match WebSocket_close h sock with
      | Ok sock' => with_conn (set_ws (Some sock')) (effect WsClose w)
      | Throw _ =>
          let w := debug "Failed to disconnect" w in
          with_conn (set_status DISCONNECTED) w
      end
  end.

(** [onConnectionError(reconnect)]. *)
Definition onConnectionError (reconnect : bool) (w : World) : World :=
  let w := debug "Error connecting to" w in
  if reconnect then handleReconnection 0 w else w.

(** [onConnect()], the socket's [onopen]. *)
Definition onConnect (w : World) : World :=
  let w := match reconnectTimeout (conn w) with
           | Some id => with_conn (set_reconnectTimeout None) (clearTimeout id w)
           | None => w
           end in
  let w := match connectTimeout (conn w) with
           | Some id => with_conn (set_connectTimeout None) (clearTimeout id w)
           | None => w
           end in
  let w := stats_connected w in
  let w := with_conn (set_status CONNECTED) w in
  let w := debug "Connected to" w in
  let w := emit EvConnect w in
  emit EvReady w.

(** [onDisconnect()], the socket's [onclose]. *)
Definition onDisconnect (w : World) : World :=
  let w := stats_disconnected w in
  let w := if decide (_status (conn w) = CONNECTED)
           then handleReconnection 0 (with_conn (set_status DISCONNECTED) w)
           else w in
  let w := debug "Disconnected from" w in
  emit EvDisconnect w.

(** [onNotice(notice)].  An [async] function without [await]: the result is
    how its promise settles. *)
Definition onNotice (h : Host) (notice : Value) (w : World)
  : Result unit * World :=
  let complaining :=
    match includes notice "oo many" with
    | Ok true => Ok true
    | Ok false => includes notice "aximum"
    | Throw e => Throw e
    end in
  match complaining with
  | Throw e => (Throw e, w)
  | Ok c =>
      let w := if c then
                 let w := disconnect h w in
                 let w := snd (setTimeout CbNoticeConnect (Some 2000) w) in
                 debug "Relay complaining?" w
               else w in
      (Ok tt, emit (EvNotice notice) w)
  end.

(** [onAuthRequested(challenge)] up to its first [await]: what runs inside
    the message handler.  The rest runs once the policy's promise settles. *)
Definition onAuthRequested (challenge : Value) (w : World) : World :=
  let havePolicy :=
    authPolicy (ndkRelay (conn w)) ||
    match ndk (conn w) with
    | Some n => relayAuthDefaultPolicy n
    | None => false
    end in
  let w := debug "Relay requested authentication" w in
  if havePolicy then
    if decide (_status (conn w) ≠ AUTHENTICATING) then
      let w := with_conn (set_status AUTHENTICATING) w in
      effect (AuthPolicyCall challenge) w
    else w
  else emit (EvAuth challenge) w.

(** [send(message)]; the result is how its promise settles. *)
Definition send (message : string) (w : World) : Result unit * World :=
  if bool_decide (_status (conn w) = CONNECTED) &&
     bool_decide (readyState <$> ws (conn w) = Some WS_OPEN)
  then (Ok tt, effect (WsSend message) w)
  else
    let w := debug "Not connected, not sending message" w in
    (Throw (Error (VStr "Attempting to send on a closed relay connection")), w).

(** A call of an [async] function whose promise nobody holds. *)
Definition detached (r : Result unit * World) : World :=
  match r with
  | (Ok _, w) => w
  | (Throw e, w) => effect (UnhandledRejection e) w
  end.

(** [NostrEvent]. *)
Record NostrEvent : Type := mkEvent {
  id : string;
  pubkey : string;
  created_at : Z;
  kind : Z;
  tags : list (list string);
  content : string;
  sig : string
}.

Definition dq : string := String "034"%char EmptyString.

(** [publish(event)], with [JSON.stringify] taken as a parameter.  Returns
    the promise [ret]. *)
Definition publish (stringify : NostrEvent -> string) (event : NostrEvent)
    (w : World) : PromiseId * World :=
  let '(p, w) := new_Promise w in
  let w := with_conn (fun c =>
             set_openEventPublishes (<[id event := p]> (openEventPublishes c)) c) w in
  let w := detached (send ("[" +:+ dq +:+ "EVENT" +:+ dq +:+ "," +:+
                           stringify event +:+ "]") w) in
  (p, w).

(** [prepareSubscription(filters, params)]. *)
Definition prepareSubscription (fs : list Value) (params_id : option string)
    (w : World) : NDKRelaySubscription * World :=
  let w := with_conn (fun c => set_serial (serial c + 1) c) w in
  let sid := if truthy_str params_id then default "" params_id
             else "sub:" +:+ pretty (serial (conn w)) in
  let subscription := {| sub_id := sid; filters := fs; closed := false |} in
  (subscription,
   with_conn (fun c => set_openSubs (<[sid := subscription]> (openSubs c)) c) w).

(** ** The message handler: [onMessage] *)

Record MessageEvent : Type := mkMessage { data : string }.

Inductive Verb : Type :=
| V_EVENT | V_COUNT | V_EOSE | V_OK | V_CLOSED | V_NOTICE | V_AUTH.

(** Which [case] of [switch (data[0])] a value selects (strict equality with
    a string literal), if any. *)
Definition verb_of (v : Value) : option Verb :=
  match v with
  | VStr s =>
      if String.eqb s "EVENT" then Some V_EVENT
      else if String.eqb s "COUNT" then Some V_COUNT
      else if String.eqb s "EOSE" then Some V_EOSE
      else if String.eqb s "OK" then Some V_OK
      else if String.eqb s "CLOSED" then Some V_CLOSED
      else if String.eqb s "NOTICE" then Some V_NOTICE
      else if String.eqb s "AUTH" then Some V_AUTH
      else None
  | _ => None
  end.

(** [map.get(k)] on a map with string keys, for a key of unknown type. *)
Definition registry_get {A} (m : gmap string A) (k : Value) : option A :=
  match k with
  | VStr s => m !! s
  | _ => None
  end.

(** [map.delete(k)], likewise. *)
Definition registry_delete {A} (m : gmap string A) (k : Value) : gmap string A :=
  match k with
  | VStr s => delete s m
  | _ => m
  end.

(** The entry under [k] replaced by [f] of it: a field assignment on the
    object the map holds. *)
Definition registry_alter {A} (f : A -> A) (m : gmap string A) (k : Value)
  : gmap string A :=
  match k with
  | VStr s => alter f s m
  | _ => m
  end.

(** [so.closed = true]. *)
Definition set_closed (so : NDKRelaySubscription) : NDKRelaySubscription :=
  {| sub_id := sub_id so; filters := filters so; closed := true |}.

(** Computations of the [try] block: state that survives a [throw]. *)
Definition M (A : Type) : Type := World -> Result A * World.

Definition mret {A} (a : A) : M A := fun w => (Ok a, w).

Definition mbind {A B} (m : M A) (k : A -> M B) : M B :=
  fun w =>
    match m w with
    | (Ok a, w') => k a w'
    | (Throw e, w') => (Throw e, w')
    end.

Definition lift {A} (r : Result A) : M A := fun w => (r, w).

Definition act (f : World -> World) : M unit := fun w => (Ok tt, f w).

Definition read {A} (f : World -> A) : M A := fun w => (Ok (f w), w).

Notation "'let*' x ':=' m 'in' k" := (mbind m (fun x => k))
  (at level 10, x name, m at level 100, k at level 200).
Notation "'do*' m 'in' k" := (mbind m (fun _ => k))
  (at level 10, m at level 100, k at level 200).

(** Reading a property of a registry entry that may be [undefined]. *)
Definition deref {A} (o : option A) : M A :=
  match o with
  | Some a => mret a
  | None => lift (Throw (TypeError "Cannot read properties of undefined"))
  end.

(** The [switch] of [onMessage], on the parsed [data]. *)
Definition dispatch (h : Host) (d : Value) : M unit :=
  let* d0 := lift (get_index d 0) in
  match verb_of d0 with
  | Some V_EVENT =>
      let* d1 := lift (get_index d 1) in
      let* so := read (fun w => registry_get (openSubs (conn w)) d1) in
      let* event := lift (get_index d 2) in
      let* so := deref so in
      let* b := lift (matchFilters h (filters so) event) in
      if b then
        do* act (effect (SubOnEvent (sub_id so) event)) in
        lift (sub_onevent h (sub_id so) event)
      else mret tt
  | Some V_COUNT =>
      let* i := lift (get_index d 1) in
      let* payload := lift (get_index d 2) in
      let* cr := read (fun w => registry_get (openCountRequests (conn w)) i) in
      match cr with
      | Some p =>
          let* n := lift (get_field payload "count") in
          do* act (effect (Resolve p n)) in
          act (with_conn (fun c =>
                 set_openCountRequests (registry_delete (openCountRequests c) i) c))
      | None => mret tt
      end
  | Some V_EOSE =>
      let* d1 := lift (get_index d 1) in
      let* so := read (fun w => registry_get (openSubs (conn w)) d1) in
      match so with
      | None => mret tt
      | Some so =>
          do* act (effect (SubReceivedEose (sub_id so))) in
          lift (sub_receivedEose h (sub_id so))
      end
  | Some V_OK =>
      let* i := lift (get_index d 1) in
      let* ok := lift (get_index d 2) in
      let* reason := lift (get_index d 3) in
      let* ep := read (fun w => registry_get (openEventPublishes (conn w)) i) in
      let* p := deref ep in
      do* act (effect (if truthy ok then Resolve p reason
                       else Reject p (Error reason))) in
      act (with_conn (fun c =>
             set_openEventPublishes (registry_delete (openEventPublishes c) i) c))
  | Some V_CLOSED =>
      let* i := lift (get_index d 1) in
      let* so := read (fun w => registry_get (openSubs (conn w)) i) in
      match so with
      | None => mret tt
      | Some so =>
          (* so.closed = true: the object in the map is the one mutated *)
          do* act (with_conn (fun c =>
                 set_openSubs (registry_alter set_closed (openSubs c) i) c)) in
          let* reason := lift (get_index d 2) in
          do* act (effect (SubClose (sub_id so) reason)) in
          fun w =>
            let '(r, subs) := sub_close h (sub_id so) reason (openSubs (conn w)) in
            (r, with_conn (set_openSubs subs) w)
      end
  | Some V_NOTICE =>
      let* d1 := lift (get_index d 1) in
      act (fun w => detached (onNotice h d1 w))
  | Some V_AUTH =>
      let* d1 := lift (get_index d 1) in
      act (onAuthRequested d1)
  | None => mret tt
  end.

(** [onMessage(event)]: the [try] block and its [catch]. *)
Definition onMessage (h : Host) (event : MessageEvent) (w : World)
  : Result unit * World :=
  let w := debug "Message received" w in
  let body :=
    let* d := lift (JSON_parse h (data event)) in
    do* act (debug "Parsed message") in
    dispatch h d in
  match body w with
  | (Ok _, w') => (Ok tt, w')
  | (Throw _, w') => (Ok tt, debug "Error parsing message" w')
  end.

(** ** Timers and socket events *)

(** The body of the timeout set by [handleReconnection(attempt)]. *)
Definition reconnect_fire (h : Host) (attempt : Z) (w : World) : World :=
  let w := with_conn (set_reconnectTimeout None) w in
  let w := with_conn (set_status RECONNECTING) w in
  match connect h None true w with
  | (Ok _, w) => debug "Reconnected" w
  | (Throw _, w) =>
      if attempt <? MAX_RECONNECT_ATTEMPTS then
        snd (setTimeout (CbRetry attempt)
               (Some (Z.lxor (1000 * (attempt + 1)) 4)) w)
      else debug "Reconnect failed" w
  end.

Definition run_callback (h : Host) (cb : Callback) (w : World) : World :=
  match cb with
  | CbConnectTimeout reconnect => onConnectionError reconnect w
  | CbReconnect attempt => reconnect_fire h attempt w
  | CbRetry attempt => handleReconnection (attempt + 1) w
  | CbNoticeConnect => detached (connect h None true w)
  end.

(** The pending timer that fires next: the earliest, and among equals the
    one set first. *)
Fixpoint next_timer (ts : list Timer) : option Timer :=
  match ts with
  | [] => None
  | t :: rest =>
      match next_timer rest with
      | Some u => if fireAt u <? fireAt t then Some u else Some t
      | None => Some t
      end
  end.

(** One turn of the timer loop: the clock advances to the next timer, which
    is removed and run.  [None] when no timer is pending. *)
Definition fire (h : Host) (w : World) : option World :=
  match next_timer (timers w) with
  | None => None
  | Some t =>
      Some (run_callback h (callback t)
              {| conn := conn w; now := Z.max (now w) (fireAt t);
                 timers := filter (fun u => tid u ≠ tid t) (timers w);
                 nextTimer := nextTimer w; nextPromise := nextPromise w;
                 trace := trace w; log := log w |})
  end.

(** [n] turns of the timer loop, stopping early when nothing is pending. *)
Fixpoint run (h : Host) (n : nat) (w : World) : World :=
  match n with
  | O => w
  | S n' =>
      match fire h w with
      | Some w' => run h n' w'
      | None => w
      end
  end.

(** The socket reports that it is open. *)
Definition socket_open (w : World) : World :=
  onConnect (with_conn (set_ws (Some {| readyState := WS_OPEN |})) w).

(** The socket reports that it is closed. *)
Definition socket_close (w : World) : World :=
  onDisconnect (with_conn (set_ws (Some {| readyState := WS_CLOSED |})) w).

(** Frames arriving one after another. *)
Definition onMessages (h : Host) (events : list MessageEvent) (w : World) : World :=
  fold_left (fun w e => snd (onMessage h e w)) events w.

(** ** The remote signing session: [NDKNip46Signer] *)

Module Nip46.

(** [NDKUser], as far as the signer reads it: [pubkey] may be undefined. *)
Record NDKUser : Type := mkUser { pubkey : option string }.

(** [NDKRpcResponse]. *)
Record NDKRpcResponse : Type := mkResponse {
  id : string;
  result : string;
  error : option string
}.

Record NDKNip46Signer : Type := mkSigner {
  remoteUser : NDKUser;
  remotePubkey : option string;
  token : option string;
  localSigner : NDKUser;   (* the local signer, by the user it signs as *)
  nip05 : option string
}.

(** [s.split(sep)] for a one-character separator. *)
Fixpoint split (sep : ascii) (s : string) : list string :=
  match s with
  | EmptyString => [EmptyString]
  | String c rest =>
      if Ascii.eqb c sep then EmptyString :: split sep rest
      else
        match split sep rest with
        | p :: ps => String c p :: ps
        | [] => [String c EmptyString]
        end
  end.

(** The constructor.  [npub_decode] stands for [new NDKUser({ npub }).pubkey]
    (bech32 decoding, which throws on a string that is no valid npub),
    [generated] for [NDKPrivateKeySigner.generate()].  The constructor throws
    what the decoding throws. *)
Definition new_NDKNip46Signer (npub_decode : string -> Result string)
    (generated : NDKUser) (tokenOrRemoteUser : string)
    (localSigner0 : option NDKUser) : Result NDKNip46Signer :=
  let parsed : Result (option string * option string * option string) :=
    if String_includes "#" tokenOrRemoteUser then
      let parts := split "#"%char tokenOrRemoteUser in
      match npub_decode (default EmptyString (parts !! 0%nat)) with
      | Ok pk => Ok (Some pk, parts !! 1%nat, None)
      | Throw e => Throw e
      end
    else if String.prefix "npub" tokenOrRemoteUser then
      match npub_decode tokenOrRemoteUser with
      | Ok pk => Ok (Some pk, None, None)
      | Throw e => Throw e
      end
    else if String_includes "." tokenOrRemoteUser then
      Ok (None, None, Some tokenOrRemoteUser)
    else Ok (Some tokenOrRemoteUser, None, None) in
  match parsed with
  | Ok (remotePubkey0, token0, nip05_0) =>
      Ok {| remotePubkey := if truthy_str remotePubkey0 then remotePubkey0
                            else None;
            token := token0;
            remoteUser := {| pubkey := remotePubkey0 |};
            localSigner := default generated localSigner0;
            nip05 := nip05_0 |}
  | Throw e => Throw e
  end.

(** Calls into the RPC layer and the identifier lookup, both outside these
    files, and timers; each with the instant it happens at. *)
Inductive Effect : Type :=
| Nip05Lookup (nip05 : string)
| RpcSubscribe (kinds : list Z) (p : list (option string))
| RpcSendRequest (remote : option string) (method : string)
    (params : list (option string)) (kind : Z).

(** How the promise returned by [blockUntilReady] settles. *)
Inductive Settlement : Type :=
| Resolved (user : NDKUser)
| Rejected (error : option string)
| RejectedWith (e : Exn).

Record Session : Type := mkSession {
  signer : NDKNip46Signer;
  clock : Z;
  connectTimer : option Z;        (* when the pending 100 ms timeout fires *)
  calls : list (Z * Effect)       (* oldest first *)
}.

Definition call (e : Effect) (s : Session) : Session :=
  {| signer := signer s; clock := clock s; connectTimer := connectTimer s;
     calls := calls s ++ [(clock s, e)] |}.

(** [blockUntilReady], from the local user (the first [await]) up to the
    [await] of [rpc.subscribe]: either the function throws, or the
    subscription has been requested and [remoteUser] is what the function
    goes on with. *)
Definition blockUntilReady (s : Session) : Result NDKUser * Session :=
  let remoteUser0 := {| pubkey := remotePubkey (signer s) |} in
  let s := if truthy_str (nip05 (signer s)) && negb (truthy_str (remotePubkey (signer s)))
           then (* the lookup is started and not awaited *)
             call (Nip05Lookup (default EmptyString (nip05 (signer s)))) s
           else s in
  if negb (truthy_str (remotePubkey (signer s))) then
    (Throw (Error (VStr "Remote pubkey not set")), s)
  else
    (Ok remoteUser0,
     call (RpcSubscribe [24133] [pubkey (localSigner (signer s))]) s).

(** The [then] callback of the lookup, run when the lookup settles. *)
Definition fromNip05_then (user : option NDKUser) (s : Session) : Session :=
  match user with
  | Some u =>
      {| signer := {| remoteUser := u; remotePubkey := pubkey u;
                      token := token (signer s);
                      localSigner := localSigner (signer s);
                      nip05 := nip05 (signer s) |};
         clock := clock s; connectTimer := connectTimer s; calls := calls s |}
  | None => s
  end.

(** Once the subscription is in place: the promise's executor sets the
    100 ms timeout. *)
Definition subscribed (s : Session) : Session :=
  {| signer := signer s; clock := clock s;
     connectTimer := Some (clock s + 100); calls := calls s |}.

(** [dt] milliseconds pass. *)
Definition elapse (dt : nat) (s : Session) : Session :=
  {| signer := signer s; clock := clock s + Z.of_nat dt;
     connectTimer := connectTimer s; calls := calls s |}.

(** The body of the timeout: the [connect] request. *)
Definition connect_request (s : Session) : Session :=
  let connectParams := [pubkey (localSigner (signer s))] in
  let connectParams := if truthy_str (token (signer s))
                       then connectParams ++ [token (signer s)]
                       else connectParams in
  call (RpcSendRequest (remotePubkey (signer s)) "connect" connectParams 24133) s.

(** The timeout fires, if one is pending. *)
Definition fire_connectTimer (s : Session) : Session :=
  match connectTimer s with
  | Some t =>
      connect_request
        {| signer := signer s; clock := Z.max (clock s) t;
           connectTimer := None; calls := calls s |}
  | None => s
  end.

(** The callback handed to [rpc.sendRequest]. *)
Definition connect_response (remoteUser0 : NDKUser) (response : NDKRpcResponse)
  : Settlement :=
  if String.eqb (result response) "ack" then Resolved remoteUser0
  else Rejected (error response).

(** A whole run: the handshake of a session whose subscription is in place
    after [dt] milliseconds and whose remote answers [response]. *)
Definition handshake (s : Session) (dt : nat) (response : NDKRpcResponse)
  : Settlement * Session :=
  match blockUntilReady s with
  | (Throw e, s') => (RejectedWith e, s')
  | (Ok remoteUser0, s') =>
      let s' := fire_connectTimer (subscribed (elapse dt s')) in
      (connect_response remoteUser0 response, s')
  end.

Definition new_session (g : NDKNip46Signer) (t0 : Z) : Session :=
  {| signer := g; clock := t0; connectTimer := None; calls := [] |}.

End Nip46.

(** * Vocabulary of the properties *)

(** ** Standard deviation over the reals *)

Section FlappingVocabulary.

Local Open Scope R_scope.

Definition sum_R (l : list R) : R := fold_right Rplus 0 l.

Definition mean (ds : list Z) : R :=
  sum_R (map IZR ds) / INR (length ds).

(** The mean squared distance from the mean. *)
Definition population_variance (ds : list Z) : R :=
  sum_R (map (fun d => (IZR d - mean ds) * (IZR d - mean ds)) ds)
  / INR (length ds).

(** The population standard deviation of a list of durations. *)
Definition population_stddev (ds : list Z) : R :=
  R_sqrt.sqrt (population_variance ds).




End FlappingVocabulary.

(** The same two notions computed in binary64, every operation rounded:
    the sum is accumulated from the left, starting from 0. *)
Module Binary64.

Fixpoint sum_from (acc : JsNum.num) (l : list JsNum.num) : JsNum.num :=
  match l with
  | [] => acc
  | x :: rest => sum_from (JsNum.add acc x) rest
  end.

Definition sum (l : list JsNum.num) : JsNum.num := sum_from (JsNum.of_Z 0) l.

Definition mean (l : list JsNum.num) : JsNum.num :=
  JsNum.div (sum l) (JsNum.of_Z (Z.of_nat (length l))).

(** The square root of the mean squared distance from the mean. *)
Definition population_stddev (ds : list Z) : JsNum.num :=
  let xs := map JsNum.of_Z ds in
  JsNum.sqrt (mean (map (fun x => JsNum.pow2 (JsNum.sub x (mean xs))) xs)).


End Binary64.



(** ** Predicates on worlds, frames and traces *)

(** The connection is usable for sending: status [CONNECTED] and a socket
    whose [readyState] is [OPEN]. *)
Definition connected_open (w : World) : Prop :=
  _status (conn w) = CONNECTED /\
  exists sock, ws (conn w) = Some sock /\ readyState sock = WS_OPEN.

(** The test of [onNotice] on a text. *)
Definition complaining (text : string) : bool :=
  String_includes "oo many" text || String_includes "aximum" text.

(** The test of [onNotice] on a value of unknown type:
    [notice.includes("oo many") || notice.includes("aximum")]. *)
Definition complains (notice : Value) : Result bool :=
  match includes notice "oo many" with
  | Ok true => Ok true
  | Ok false => includes notice "aximum"
  | Throw e => Throw e
  end.

(** Two worlds that differ in the debug log at most. *)
Definition same_but_log (w w' : World) : Prop :=
  conn w' = conn w /\ now w' = now w /\ timers w' = timers w /\
  nextTimer w' = nextTimer w /\ nextPromise w' = nextPromise w /\
  trace w' = trace w.



(** [e] invokes the [resolve] or [reject] of promise [p]. *)
Definition settles (p : PromiseId) (e : Effect) : bool :=
  match e with
  | Resolve q _ | Reject q _ => Nat.eqb p q
  | _ => false
  end.

(** The invocations of [p]'s resolver pair in a trace, in order. *)
Definition settlements (p : PromiseId) (tr : list Effect) : list Effect :=
  List.filter (settles p) tr.

(** The parsed message is an [OK] frame for the id [k]. *)
Definition ok_data_for (d : Value) (k : string) : bool :=
  match get_index d 0, get_index d 1 with
  | Ok v, Ok i =>
      match verb_of v with
      | Some V_OK => Value_eqb i (VStr k)
      | _ => false
      end
  | _, _ => false
  end.

(** The message is an [OK] frame for the id [k]. *)
Definition ok_frame_for (h : Host) (k : string) (e : MessageEvent) : bool :=
  match JSON_parse h (data e) with
  | Ok d => ok_data_for d k
  | Throw _ => false
  end.

(** Promise [p] is held by neither registry of resolvers. *)
Definition unregistered (p : PromiseId) (w : World) : Prop :=
  (forall k, openEventPublishes (conn w) !! k <> Some p) /\
  (forall k, openCountRequests (conn w) !! k <> Some p).

(** The next promise handle is not in use yet. *)
Definition promises_fresh (w : World) : Prop :=
  unregistered (nextPromise w) w /\ settlements (nextPromise w) (trace w) = [].

(** Promise [p] is pending under the event id [k], and nowhere else. *)
Definition pending (p : PromiseId) (k : string) (w : World) : Prop :=
  openEventPublishes (conn w) !! k = Some p /\
  (forall k', k' <> k -> openEventPublishes (conn w) !! k' <> Some p) /\
  (forall k', openCountRequests (conn w) !! k' <> Some p).

(** A step that touches neither registry of resolvers and invokes none. *)
Definition quiet (w w' : World) : Prop :=
  openEventPublishes (conn w') = openEventPublishes (conn w) /\
  openCountRequests (conn w') = openCountRequests (conn w) /\
  forall p, settlements p (trace w') = settlements p (trace w).

(** What a step can do to the registries of resolvers: nothing; or resolve
    and remove one pending count; or settle and remove one pending publish,
    on an [OK] frame for its id. *)
Definition step_cases (ok_for : string -> bool) (w w' : World) : Prop :=
  quiet w w' \/
  (exists i p v,
      openCountRequests (conn w) !! i = Some p /\
      openCountRequests (conn w') = delete i (openCountRequests (conn w)) /\
      openEventPublishes (conn w') = openEventPublishes (conn w) /\
      trace w' = trace w ++ [Resolve p v]) \/
  (exists i p ok reason,
      ok_for i = true /\
      openEventPublishes (conn w) !! i = Some p /\
      openEventPublishes (conn w') = delete i (openEventPublishes (conn w)) /\
      openCountRequests (conn w') = openCountRequests (conn w) /\
      trace w' = trace w ++
        [if truthy ok then Resolve p reason else Reject p (Error reason)]).

(** Every promise in a registry or settled in the trace is older than the
    next handle. *)
Definition promises_below (w : World) : Prop :=
  (forall k p, openEventPublishes (conn w) !! k = Some p -> (p < nextPromise w)%nat) /\
  (forall k p, openCountRequests (conn w) !! k = Some p -> (p < nextPromise w)%nat) /\
  (forall p, settlements p (trace w) <> [] -> (p < nextPromise w)%nat).

(** A step that is quiet and creates no promise. *)
Definition calm (w w' : World) : Prop :=
  quiet w w' /\ nextPromise w' = nextPromise w.

(** The instants at which a given debug line was written. *)
Definition times_of (line : string) (l : list (Z * string)) : list Z :=
  map fst (List.filter (fun e => String.eqb (snd e) line) l).

(** The instants of the calls of [connect] and of their failures. *)
Definition attempt_times (w : World) : list Z := times_of "Connecting to" (log w).

Definition failure_times (w : World) : list Z := times_of "Failed to connect to" (log w).

(** The differences between neighbours. *)
Fixpoint gaps (l : list Z) : list Z :=
  match l with
  | a :: (b :: _) as rest => (b - a) :: gaps rest
  | _ => []
  end.

(** A new connection, and the first call of [connect]. *)
Definition cold_start (h : Host) (relay : NDKRelay) (ndk0 : option NDK)
    (T : option Z) (t0 : Z) : World :=
  snd (connect h T true (fresh_world relay ndk0 t0)).

(** The timer that will run the next reconnect. *)
Definition reconnect_timer (rid : TimerId) (t k : Z) : Timer :=
  {| tid := rid; setAt := t; delay := Some (5000 * (k + 1));
     callback := CbReconnect 0 |}.

(** Callbacks that only call [handleReconnection]. *)
Definition inert (cb : Callback) : bool :=
  match cb with
  | CbConnectTimeout _ | CbRetry _ => true
  | _ => false
  end.

(** The state between the [k]-th failed call of [connect], at instant [t],
    and the next call: the reconnect timer is pending with delay
    [5000 * (k + 1)], every other pending timer is inert, and [ts] are the
    instants of the calls so far. *)
Record waiting (k t : Z) (ts : list Z) (w : World) : Prop := mkWaiting {
  wt_k : 0 <= k;
  wt_timer : exists rid,
      reconnectTimeout (conn w) = Some rid /\
      In (reconnect_timer rid t k) (timers w) /\
      forall u, In u (timers w) ->
                u = reconnect_timer rid t k \/
                (tid u <> rid /\ inert (callback u) = true);
  wt_ids : forall u, In u (timers w) -> (tid u < nextTimer w)%positive;
  wt_attempts : Stats.attempts (_connectionStats (conn w)) = k;
  wt_connectedAt : connectedAt (conn w) = None;
  wt_durations : Stats.durations (_connectionStats (conn w)) = [];
  wt_now : now w <= t + 5000 * (k + 1);
  wt_attempt_times : attempt_times w = ts;
  wt_failure_times : failure_times w = ts
}.

(** The instants of the calls of [connect]: the first at [t0], call [j + 1]
    following call [j] by [5000 * (j + 1)] ms. *)
Fixpoint schedule (t0 : Z) (j : nat) : list Z :=
  match j with
  | O => [t0]
  | S j' => schedule t0 j' ++ [List.last (schedule t0 j') t0 + 5000 * (Z.of_nat j' + 2)]
  end.

(** The worlds a new connection can get into: calls of its methods, socket
    events, inbound messages, timers, and the passing of time. *)
Inductive reachable (h : Host) : World -> Prop :=
| reach_new relay ndk0 t0 : reachable h (fresh_world relay ndk0 t0)
| reach_connect w T r : reachable h w -> reachable h (snd (connect h T r w))
| reach_disconnect w : reachable h w -> reachable h (disconnect h w)
| reach_open w : reachable h w -> reachable h (socket_open w)
| reach_close w : reachable h w -> reachable h (socket_close w)
| reach_message w e : reachable h w -> reachable h (snd (onMessage h e w))
| reach_publish w s ev : reachable h w -> reachable h (snd (publish s ev w))
| reach_subscribe w fs i :
    reachable h w -> reachable h (snd (prepareSubscription fs i w))
| reach_fire w w' : reachable h w -> fire h w = Some w' -> reachable h w'
| reach_wait w dt :
    reachable h w ->
    reachable h {| conn := conn w; now := now w + Z.of_nat dt; timers := timers w;
                   nextTimer := nextTimer w; nextPromise := nextPromise w;
                   trace := trace w; log := log w |}.

(** ** Sample hosts, connections and sessions *)

Definition sample_relay : NDKRelay :=
  {| url := "wss://relay.example"; authPolicy := false |}.

(** A host whose sockets open and close without error. *)
Definition sample_host : Host :=
  {| JSON_parse := fun _ => Throw (SyntaxError "Unexpected token");
     new_WebSocket := fun _ => Ok {| readyState := WS_CONNECTING |};
     WebSocket_close := fun _ => Ok {| readyState := WS_CLOSING |};
     matchFilters := fun _ _ => Ok true;
     sub_onevent := fun _ _ => Ok tt;
     sub_receivedEose := fun _ => Ok tt;
     sub_close := fun i _ subs => (Ok tt, delete i subs) |}.

(** A connection that is up: [connect()], then the socket opens. *)
Definition connected_world : World :=
  socket_open (snd (connect sample_host None true (fresh_world sample_relay None 0))).

Definition notice_host : Host :=
  {| JSON_parse := fun _ => Ok (VArr [VStr "NOTICE"; VStr "Too many concurrent subs"]);
     new_WebSocket := fun _ => Ok {| readyState := WS_CONNECTING |};
     WebSocket_close := fun _ => Ok {| readyState := WS_CLOSING |};
     matchFilters := fun _ _ => Ok true;
     sub_onevent := fun _ _ => Ok tt;
     sub_receivedEose := fun _ => Ok tt;
     sub_close := fun i _ subs => (Ok tt, delete i subs) |}.

(** Worlds and frames for the scenario of a publish and its reply. *)
Definition ok_host : Host :=
  {| JSON_parse := fun s =>
       if String.eqb s "ok" then
         Ok (VArr [VStr "OK"; VStr "E"; VBool true; VStr "stored"])
       else if String.eqb s "eose" then Ok (VArr [VStr "EOSE"; VStr "s1"])
       else Throw (SyntaxError "Unexpected token");
     new_WebSocket := fun _ => Ok {| readyState := WS_CONNECTING |};
     WebSocket_close := fun _ => Ok {| readyState := WS_CLOSING |};
     matchFilters := fun _ _ => Ok true;
     sub_onevent := fun _ _ => Ok tt;
     sub_receivedEose := fun _ => Ok tt;
     sub_close := fun i _ subs => (Ok tt, delete i subs) |}.

Definition event_E : NostrEvent :=
  {| id := "E"; pubkey := "ab"; created_at := 0; kind := 1; tags := [];
     content := "hello"; sig := "cd" |}.

(** An npub and the key it encodes (the example of NIP-19), and a decoder
    that knows this one npub. *)
Definition sample_npub : string :=
  "npub180cvv07tjdrrgpa0j7j7tmnyl2yr6yr7l8j4s3evf6u64th6gkwsyjh6w6".

Definition sample_pubkey : string :=
  "3bf0c63fcb93463407af97a5e5ee64fa883d107ef9e558472c4eb9aaaefa459d".

Definition sample_decode (npub : string) : Result string :=
  if String.eqb npub sample_npub then Ok sample_pubkey
  else Throw (Error (VStr "invalid npub")).

(** The signer a call of the constructor returned; where the call threw
    there is none, and a signer with every field unset stands in. *)
Definition constructed (r : Result Nip46.NDKNip46Signer) : Nip46.NDKNip46Signer :=
  match r with
  | Ok g => g
  | Throw _ =>
      {| Nip46.remoteUser := {| Nip46.pubkey := None |};
         Nip46.remotePubkey := None; Nip46.token := None;
         Nip46.localSigner := {| Nip46.pubkey := None |};
         Nip46.nip05 := None |}
  end.

(** The session of the scenario: the token is the sample npub, ['#'] and
    the secret [otp42]. *)
Definition otp_session : Nip46.Session :=
  Nip46.new_session
    (constructed
       (Nip46.new_NDKNip46Signer sample_decode {| Nip46.pubkey := Some "10ca1" |}
          (sample_npub +:+ "#otp42") None)) 0.

(** A session constructed from a human-readable identifier. *)
Definition nip05_session : Nip46.Session :=
  Nip46.new_session
    (constructed
       (Nip46.new_NDKNip46Signer sample_decode {| Nip46.pubkey := Some "10ca1" |}
          "bob@example.com" None)) 0.

Definition failing_host : Host :=
  {| JSON_parse := fun _ => Throw (SyntaxError "Unexpected token");
     new_WebSocket := fun _ => Throw (Error (VStr "socket factory failed"));
     WebSocket_close := fun _ => Ok {| readyState := WS_CLOSING |};
     matchFilters := fun _ _ => Ok true;
     sub_onevent := fun _ _ => Ok tt;
     sub_receivedEose := fun _ => Ok tt;
     sub_close := fun i _ subs => (Ok tt, delete i subs) |}.

(** * Further operations *)

(** ** Availability, authentication and counting *)

(** [isAvailable()]. *)
Definition isAvailable (w : World) : bool :=
  bool_decide (_status (conn w) = CONNECTED).

(** [onError(error)], the socket's [onerror]. *)
Definition onError (w : World) : World := debug "WebSocket error on" w.

(** [auth(event)], with [JSON.stringify] taken as a parameter.  Returns the
    promise [ret]; the promise of [send] is held by nobody. *)
Definition auth (stringify : NostrEvent -> string) (event : NostrEvent)
    (w : World) : PromiseId * World :=
  let '(p, w) := new_Promise w in
  let w := with_conn (fun c =>
             set_openEventPublishes (<[id event := p]> (openEventPublishes c)) c) w in
  let w := detached (send ("[" +:+ dq +:+ "AUTH" +:+ dq +:+ "," +:+
                           stringify event +:+ "]") w) in
  (p, w).

(** What the auth policy's promise resolves to: an [NDKEvent], [true], or
    anything else. *)
Inductive PolicyResult : Type :=
| PolicyEvent (event : NostrEvent)
| PolicyTrue
| PolicyOther.

(** Where [onAuthRequested] stands after one of its [await]s. *)
Inductive AuthStage : Type :=
| AuthReturned                          (* the function has returned *)
| AuthThrew (e : Exn)                   (* its promise is rejected *)
| AwaitSign (kind0 : Z) (tags0 : list (list Value))
                                        (* at [await event.sign()] *)
| AwaitAuth (p : PromiseId).            (* at [await this.auth(...)] *)

(** The end of [onAuthRequested]:
    [this._status = CONNECTED; this.ndkRelay.emit("authed")]. *)
Definition authed (w : World) : World :=
  emit EvAuthed (with_conn (set_status CONNECTED) w).

(** [onAuthRequested] from the moment the policy's promise resolves with
    [res] up to the next [await].  [ClientAuth] stands for
    [NDKKind.ClientAuth]. *)
Definition policy_returned (stringify : NostrEvent -> string) (ClientAuth : Z)
    (challenge : Value) (res : PolicyResult) (w : World) : AuthStage * World :=
  let w := debug "Authentication policy returned" w in
  match res with
  | PolicyEvent event =>
      let '(p, w) := auth stringify event w in (AwaitAuth p, w)
  | PolicyTrue =>
      if negb (match ndk (conn w) with
               | Some n => signer n
               | None => false
               end)
      then (AuthThrew (Error (VStr "No signer available for authentication")), w)
      else if decide (_status (conn w) = AUTHENTICATING) then
        let w := debug "Authentication policy finished" w in
        (AwaitSign ClientAuth
           [[VStr "relay"; VStr (url (ndkRelay (conn w)))];
            [VStr "challenge"; challenge]], w)
      else (AuthReturned, authed w)
  | PolicyOther => (AuthReturned, w)
  end.

(** After [await event.sign()]: the signed event goes to [auth], or the
    rejection of [sign] is rethrown. *)
Definition signed (stringify : NostrEvent -> string) (r : Result NostrEvent)
    (w : World) : AuthStage * World :=
  match r with
  | Ok event => let '(p, w) := auth stringify event w in (AwaitAuth p, w)
  | Throw e => (AuthThrew e, w)
  end.

(** After [await this.auth(...)]: how the awaited promise settled. *)
Definition auth_settled (r : Result Value) (w : World) : AuthStage * World :=
  match r with
  | Ok _ => (AuthReturned, authed w)
  | Throw e => (AuthThrew e, w)
  end.

(** [s.substring(1)]. *)
Definition substring1 (s : string) : string :=
  match s with
  | EmptyString => EmptyString
  | String _ rest => rest
  end.

(** [count(filters, params)], with [JSON.stringify] taken as a parameter;
    [params_id] is [params?.id].  Returns the promise [ret]. *)
Definition count (stringify : list Value -> string) (fs : list Value)
    (params_id : option string) (w : World) : PromiseId * World :=
  let w := with_conn (fun c => set_serial (serial c + 1) c) w in
  let cid := if truthy_str params_id then default "" params_id
             else "count:" +:+ pretty (serial (conn w)) in
  let '(p, w) := new_Promise w in
  let w := with_conn (fun c =>
             set_openCountRequests (<[cid := p]> (openCountRequests c)) c) w in
  let w := detached (send ("[" +:+ dq +:+ "COUNT" +:+ dq +:+ "," +:+
                           dq +:+ cid +:+ dq +:+ "," +:+
                           substring1 (stringify fs)) w) in
  (p, w).

(** The world after [setTimeout(cb, delay)], and after [new Promise(...)]. *)
Definition timer_set (cb : Callback) (delay0 : option Z) (w : World) : World :=
  snd (setTimeout cb delay0 w).

Definition promise_made (w : World) : World := snd (new_Promise w).

(** ** Scripts of operations *)

(** What can happen to a connection, one step at a time: calls of its
    methods, socket events, inbound messages, the continuations of
    [onAuthRequested], timers, and the passing of time. *)
Inductive Op : Type :=
| OpConnect (timeoutMs_arg : option Z) (reconnect : bool)
| OpDisconnect
| OpOpen
| OpClose
| OpError
| OpMessage (event : MessageEvent)
| OpPublish (stringify : NostrEvent -> string) (event : NostrEvent)
| OpSubscribe (fs : list Value) (params_id : option string)
| OpCount (stringify : list Value -> string) (fs : list Value)
    (params_id : option string)
| OpPolicy (stringify : NostrEvent -> string) (ClientAuth : Z)
    (challenge : Value) (res : PolicyResult)
| OpSigned (stringify : NostrEvent -> string) (r : Result NostrEvent)
| OpAuthSettled (r : Result Value)
| OpFire
| OpWait (dt : nat).

Definition wait (dt : nat) (w : World) : World :=
  {| conn := conn w; now := now w + Z.of_nat dt; timers := timers w;
     nextTimer := nextTimer w; nextPromise := nextPromise w;
     trace := trace w; log := log w |}.

Definition apply_op (h : Host) (o : Op) (w : World) : World :=
  match o with
  | OpConnect T r => snd (connect h T r w)
  | OpDisconnect => disconnect h w
  | OpOpen => socket_open w
  | OpClose => socket_close w
  | OpError => onError w
  | OpMessage e => snd (onMessage h e w)
  | OpPublish s ev => snd (publish s ev w)
  | OpSubscribe fs i => snd (prepareSubscription fs i w)
  | OpCount s fs i => snd (count s fs i w)
  | OpPolicy s k c res => snd (policy_returned s k c res w)
  | OpSigned s r => snd (signed s r w)
  | OpAuthSettled r => snd (auth_settled r w)
  | OpFire => default w (fire h w)
  | OpWait dt => wait dt w
  end.

Definition run_ops (h : Host) (ops : list Op) (w : World) : World :=
  fold_left (fun w o => apply_op h o w) ops w.

(** The steps that can make the status [CONNECTED]: the socket's [open]
    event and the continuations of [onAuthRequested]. *)
Definition connecting_op (o : Op) : bool :=
  match o with
  | OpOpen | OpPolicy _ _ _ _ | OpAuthSettled _ => true
  | _ => false
  end.

(** The socket events. *)
Definition socket_op (o : Op) : bool :=
  match o with
  | OpOpen | OpClose => true
  | _ => false
  end.

(** The steps that are neither, and mint no identifier. *)
Definition plain_op (o : Op) : bool :=
  match o with
  | OpConnect _ _ | OpDisconnect | OpError | OpMessage _ | OpPublish _ _
  | OpSigned _ _ | OpFire | OpWait _ => true
  | _ => false
  end.

(** The session statistics a [close] event works on. *)
Definition durations_of (w : World) : list Z :=
  Stats.durations (_connectionStats (conn w)).

(** The instant of the last [open] event, while the session lasts. *)
Definition opened_at (w : World) : option Z :=
  Stats.connectedAt (_connectionStats (conn w)).

(** A script without socket events. *)
Definition no_socket_event (ops : list Op) : bool :=
  forallb (fun o => negb (socket_op o)) ops.

(** A script without the steps that can make the status [CONNECTED]. *)
Definition never_connecting (ops : list Op) : bool :=
  forallb (fun o => negb (connecting_op o)) ops.

(** A world with 100 recorded sessions. *)
Definition hundred_sessions : World :=
  with_conn (set_stats {| Stats.attempts := 100; Stats.success := 100;
                          Stats.durations := repeat 500 100;
                          Stats.connectedAt := None;
                          Stats.nextReconnectAt := None |})
    (fresh_world sample_relay None 0).

(** [e] hands a message to the socket. *)
Definition is_send (e : Effect) : bool :=
  match e with
  | WsSend _ => true
  | _ => false
  end.

Definition sent (tr : list Effect) : list Effect := List.filter is_send tr.

(** The status is not [CONNECTED] and the messages handed to the socket are
    those of [l]. *)
Definition silent (l : list Effect) (w : World) : Prop :=
  _status (conn w) <> CONNECTED /\ sent (trace w) = l.

(** [!!authPolicy] in [onAuthRequested]: a policy is configured on the relay
    or as the default of the NDK instance. *)
Definition havePolicy (w : World) : bool :=
  authPolicy (ndkRelay (conn w)) ||
  match ndk (conn w) with
  | Some n => relayAuthDefaultPolicy n
  | None => false
  end.

(** [!!this.ndk?.signer]. *)
Definition haveSigner (w : World) : bool :=
  match ndk (conn w) with
  | Some n => signer n
  | None => false
  end.

(** The error [send] throws. *)
Definition closed_relay : Exn :=
  Error (VStr "Attempting to send on a closed relay connection").

(** A relay with an auth policy, and a connection to it that is up, with a
    signer at hand. *)
Definition policy_relay : NDKRelay :=
  {| url := "wss://auth.example"; authPolicy := true |}.

Definition policy_world : World :=
  socket_open
    (snd (connect sample_host None true
            (fresh_world policy_relay
               (Some {| relayAuthDefaultPolicy := false; signer := true |}) 0))).

(** The policy has been called on a challenge and is still deciding. *)
Definition challenged_world : World :=
  onAuthRequested (VStr "c7") policy_world.

Definition auth_event : NostrEvent :=
  {| id := "A"; pubkey := "ab"; created_at := 0; kind := 22242;
     tags := [["relay"; "wss://auth.example"]; ["challenge"; "c7"]];
     content := ""; sig := "ef" |}.

(** The whole of [onAuthRequested] after the policy was called, when nothing
    else happens in between other than the scripts [ops1] and [ops2]: the
    policy resolves with [res], and where the function gets to
    [event.sign()], that settles as [r]. *)
Definition auth_flow (h : Host) (stringify : NostrEvent -> string)
    (ClientAuth : Z) (challenge : Value) (res : PolicyResult)
    (r : Result NostrEvent) (ops1 ops2 : list Op) (w : World)
  : AuthStage * World :=
  match policy_returned stringify ClientAuth challenge res (run_ops h ops1 w) with
  | (AwaitSign _ _, w') => signed stringify r (run_ops h ops2 w')
  | (st, w') => (st, w')
  end.

(** The key [count] registers its resolver under:
    [params?.id || "count:" + this.serial], after [this.serial++]. *)
Definition count_id (params_id : option string) (w : World) : string :=
  if truthy_str params_id then default "" params_id
  else "count:" +:+ pretty (serial (conn w) + 1).

(** The parsed message is a [COUNT] frame for the id [k]. *)
Definition count_data_for (d : Value) (k : string) : bool :=
  match get_index d 0, get_index d 1 with
  | Ok v, Ok i =>
      match verb_of v with
      | Some V_COUNT => Value_eqb i (VStr k)
      | _ => false
      end
  | _, _ => false
  end.

Definition count_frame_for (h : Host) (k : string) (e : MessageEvent) : bool :=
  match JSON_parse h (data e) with
  | Ok d => count_data_for d k
  | Throw _ => false
  end.

(** Promise [p] is pending under the count id [k], and nowhere else. *)
Definition pending_count (p : PromiseId) (k : string) (w : World) : Prop :=
  openCountRequests (conn w) !! k = Some p /\
  (forall k', k' <> k -> openCountRequests (conn w) !! k' <> Some p) /\
  (forall k', openEventPublishes (conn w) !! k' <> Some p).

(** A host that parses the reply to the first count, with and without its
    payload, and an [EOSE] frame. *)
Definition count_host : Host :=
  {| JSON_parse := fun s =>
       if String.eqb s "count" then
         Ok (VArr [VStr "COUNT"; VStr "count:1"; VObj [("count", VNum 42)]])
       else if String.eqb s "bare" then
         Ok (VArr [VStr "COUNT"; VStr "count:1"])
       else if String.eqb s "eose" then Ok (VArr [VStr "EOSE"; VStr "s1"])
       else Throw (SyntaxError "Unexpected token");
     new_WebSocket := fun _ => Ok {| readyState := WS_CONNECTING |};
     WebSocket_close := fun _ => Ok {| readyState := WS_CLOSING |};
     matchFilters := fun _ _ => Ok true;
     sub_onevent := fun _ _ => Ok tt;
     sub_receivedEose := fun _ => Ok tt;
     sub_close := fun i _ subs => (Ok tt, delete i subs) |}.

(** The verbs whose handler looks the id up and does nothing when it finds
    no entry. *)
Definition lenient_verb (v : string) : bool :=
  String.eqb v "EOSE" || String.eqb v "CLOSED" || String.eqb v "COUNT".

(** Nothing is registered under the id [i] in the registry the verb [v]
    looks into: count requests for [COUNT], publishes for [OK],
    subscriptions for the rest. *)
Definition orphan (v : string) (i : Value) (w : World) : Prop :=
  if String.eqb v "COUNT"
  then registry_get (openCountRequests (conn w)) i = None
  else if String.eqb v "OK"
  then registry_get (openEventPublishes (conn w)) i = None
  else registry_get (openSubs (conn w)) i = None.

(** A host that parses an [EOSE] frame and an [OK] frame. *)
Definition orphan_host : Host :=
  {| JSON_parse := fun s =>
       if String.eqb s "eose" then Ok (VArr [VStr "EOSE"; VStr "s9"])
       else Ok (VArr [VStr "OK"; VStr "E9"; VBool true; VStr ""]);
     new_WebSocket := fun _ => Ok {| readyState := WS_CONNECTING |};
     WebSocket_close := fun _ => Ok {| readyState := WS_CLOSING |};
     matchFilters := fun _ _ => Ok true;
     sub_onevent := fun _ _ => Ok tt;
     sub_receivedEose := fun _ => Ok tt;
     sub_close := fun i _ subs => (Ok tt, delete i subs) |}.

(** The delay [connect(timeoutMs)] arms its timeout with: [this.timeoutMs]
    after [timeoutMs ??= this.timeoutMs;
    if (!this.timeoutMs && timeoutMs) this.timeoutMs = timeoutMs]. *)
Definition connect_delay (timeoutMs_arg : option Z) (w : World) : option Z :=
  if truthy_num (timeoutMs (conn w)) then timeoutMs (conn w)
  else if truthy_num timeoutMs_arg then timeoutMs_arg
  else timeoutMs (conn w).

(** The timeout [connect] arms in the world [w]. *)
Definition connect_timer (reconnect : bool) (d : option Z) (w : World) : Timer :=
  {| tid := nextTimer w; setAt := now w; delay := d;
     callback := CbConnectTimeout reconnect |}.

(** A connection that is up for 550 ms, after sessions of 500 and 600 ms. *)
Definition third_session : World :=
  run_ops sample_host [OpConnect None true; OpOpen; OpWait 550]
    (with_conn (set_stats {| Stats.attempts := 2; Stats.success := 2;
                             Stats.durations := [500; 600];
                             Stats.connectedAt := None;
                             Stats.nextReconnectAt := None |})
       (fresh_world sample_relay None 7)).

(** Every pending connect timeout is the one [this.connectTimeout] names,
    and every pending reconnect the one [this.reconnectTimeout] names. *)
Definition tidy (w : World) : Prop :=
  forall t, In t (timers w) ->
    match callback t with
    | CbConnectTimeout _ => connectTimeout (conn w) = Some (tid t)
    | CbReconnect _ => reconnectTimeout (conn w) = Some (tid t)
    | _ => True
    end.

(** The timers the connection keeps a handle of: the connect timeout (in
    [this.connectTimeout]) and the scheduled reconnect (in
    [this.reconnectTimeout]).  Of a retry and of the [connect()] that a
    notice schedules it keeps none. *)
Definition has_handle (cb : Callback) : bool :=
  match cb with
  | CbConnectTimeout _ | CbReconnect _ => true
  | CbRetry _ | CbNoticeConnect => false
  end.

(** A relay complains, and the client connects again before the 2000 ms are
    over: [connect()] and the socket opens; the notice makes the connection
    close the socket and schedule a [connect()]; the socket closes; the
    client calls [connect()] itself. *)
Definition stale_script : list Op :=
  [OpConnect None true; OpOpen; OpMessage {| data := "frame" |}; OpClose;
   OpConnect None true].

(** The [connect()] that the notice of [stale_script] scheduled. *)
Definition stale_timer : Timer :=
  {| tid := 2%positive; setAt := 0; delay := Some 2000;
     callback := CbNoticeConnect |}.

(** ** Tokens of the remote signer *)

(** [!s.includes("#")]. *)
Definition hashfree (s : string) : bool := negb (String_includes "#" s).

(** A human-readable identifier, as the constructor tells it: no ['#'], no
    [npub] prefix, a ['.']. *)
Definition identifier (tok : string) : bool :=
  hashfree tok && negb (String.prefix "npub" tok) && String_includes "." tok.

(** ** A session, and frames out of the ordinary *)

(** A connection whose socket opened at the instant 1000 and is still open
    at 21000. *)
Definition up_since_1000 : World :=
  run_ops sample_host [OpConnect None true; OpWait (Z.to_nat 1000); OpOpen;
     OpWait (Z.to_nat 20000)]
    (fresh_world sample_relay None 0).

(** A host whose parser knows two texts: ["bare"] stands for [["NOTICE"]],
    a notice without text, and ["object"] for
    [{"0": "NOTICE", "1": "too many"}], an object that is no array. *)
Definition odd_host : Host :=
  {| JSON_parse := fun s =>
       if String.eqb s "bare" then Ok (VArr [VStr "NOTICE"])
       else if String.eqb s "object" then
         Ok (VObj [("0", VStr "NOTICE"); ("1", VStr "too many")])
       else Throw (SyntaxError "Unexpected token");
     new_WebSocket := fun _ => Ok {| readyState := WS_CONNECTING |};
     WebSocket_close := fun _ => Ok {| readyState := WS_CLOSING |};
     matchFilters := fun _ _ => Ok true;
     sub_onevent := fun _ _ => Ok tt;
     sub_receivedEose := fun _ => Ok tt;
     sub_close := fun i _ subs => (Ok tt, delete i subs) |}.
(** * Properties *)

(** ** The flap detector *)

Section Flapping.

Local Open Scope R_scope.

















End Flapping.

(** ** Sending *)

Lemma connected_open_test (w : World) :
  bool_decide (_status (conn w) = CONNECTED) &&
  bool_decide (readyState <$> ws (conn w) = Some WS_OPEN) = true
  <-> connected_open w.
Proof.
  unfold connected_open. rewrite andb_true_iff, !bool_decide_eq_true.
  split; intros [Hs Hw]; split; try assumption.
  - destruct (ws (conn w)) as [sock|]; simpl in Hw; [|discriminate].
    exists sock. split; [reflexivity | congruence].
  - destruct Hw as (sock & -> & <-). reflexivity.
Qed.

(** C2.  [send(message)] hands the message to the socket exactly when the
    status is [CONNECTED] and the socket is open, and then does nothing
    else; in every other state it throws, and the only thing that changes is
    the debug log: nothing is sent and nothing is kept for later. *)
Theorem send_contract (message : string) (w : World) :
  (connected_open w ->
     send message w = (Ok tt, effect (WsSend message) w)) /\
  (~ connected_open w ->
     send message w =
       (Throw (Error (VStr "Attempting to send on a closed relay connection")),
        debug "Not connected, not sending message" w)) /\
  (In (WsSend message) (drop (length (trace w)) (trace (snd (send message w))))
     <-> connected_open w).
Proof.
  unfold send. pose proof (connected_open_test w) as Ht.
  destruct (_ && _) eqn:E.
  - assert (Hc : connected_open w) by (apply Ht; reflexivity).
    split; [reflexivity|]. split; [intros Hn; contradiction|].
    simpl. rewrite drop_app_length. simpl. tauto.
  - assert (Hc : ~ connected_open w) by (intros Hc; apply Ht in Hc; discriminate).
    split; [intros; contradiction|]. split; [reflexivity|].
    simpl. rewrite drop_all. simpl. tauto.
Qed.

Lemma connected_world_open : connected_open connected_world.
Proof. split; [reflexivity|]. eexists. split; reflexivity. Qed.

Lemma send_contract_witness :
  send "[]" connected_world = (Ok tt, effect (WsSend "[]") connected_world).
Proof.
  exact (proj1 (send_contract "[]" connected_world) connected_world_open).
Defined.

(** ** The reconnect scheduler *)

(** What [handleReconnection] does when it schedules (no reconnect timer
    pending, not flapping): the delay is [max(0, 60000 - (now - connectedAt))]
    if [this.connectedAt] holds a clock reading and [5000 * (attempts + 1)]
    if it holds none; the timeout is set with this delay, [delayed-connect]
    is emitted with it, and [nextReconnectAt] becomes [now] plus it. *)
Lemma handleReconnection_delay (attempt : Z) (w : World)
    (Hidle : reconnectTimeout (conn w) = None)
    (Hstable : isFlapping (Stats.durations (_connectionStats (conn w))) = false)
    (Hclock : connectedAt (conn w) <> Some 0) :
  let d :=
    match connectedAt (conn w) with
    | Some t => Z.max 0 (60000 - (now w - t))
    | None => 5000 * (Stats.attempts (_connectionStats (conn w)) + 1)
    end in
  let w' := handleReconnection attempt w in
  timers w' = timers w ++
    [{| tid := nextTimer w; setAt := now w; delay := Some d;
        callback := CbReconnect attempt |}] /\
  reconnectTimeout (conn w') = Some (nextTimer w) /\
  trace w' = trace w ++ [Emit (EvDelayedConnect d)] /\
  Stats.nextReconnectAt (_connectionStats (conn w')) = Some (now w + d).
Proof.
  intros d w'. subst w'. unfold handleReconnection.
  rewrite Hidle. cbn -[isFlapping reconnectDelay]. rewrite Hstable.
  assert (Hd : reconnectDelay (debug "Attempting to reconnect" w) = d).
  { unfold reconnectDelay, d. simpl.
    destruct (connectedAt (conn w)) as [t|]; simpl; [|reflexivity].
    destruct (Z.eqb_spec t 0) as [->|_]; [congruence | reflexivity]. }
  cbn -[isFlapping reconnectDelay]. rewrite Hd. repeat split; reflexivity.
Qed.

(** C4, on the code.  A connection is made at the instant 0, its socket
    opens at 1000 and closes at 21000.  The open event records the instant
    in [_connectionStats.connectedAt]; the field [this.connectedAt], which
    the delay is computed from, is assigned by no method and still holds
    nothing.  So the close event schedules the reconnect after
    [5000 * (attempts + 1) = 10000] ms, emits [delayed-connect] with 10000
    and sets [nextReconnectAt] to 31000, where 20 s of uptime call for
    [max(0, 60000 - 20000) = 40000]. *)
Theorem reconnect_delay_ignores_uptime :
  let w := up_since_1000 in
  let w' := socket_close w in
  _status (conn w) = CONNECTED /\
  now w = 21000 /\
  Stats.connectedAt (_connectionStats (conn w)) = Some 1000 /\
  connectedAt (conn w) = None /\
  Stats.attempts (_connectionStats (conn w)) = 1 /\
  Z.max 0 (60000 - (now w - 1000)) = 40000 /\
  timers w' = [{| tid := 2%positive; setAt := 21000; delay := Some 10000;
                  callback := CbReconnect 0 |}] /\
  In (Emit (EvDelayedConnect 10000)) (trace w') /\
  Stats.nextReconnectAt (_connectionStats (conn w')) = Some 31000.
Proof.
  cbv zeta. assert (Hin : forall tr, tr = trace (socket_close up_since_1000) ->
            In (Emit (EvDelayedConnect 10000)) tr).
  { intros tr ->. vm_compute. tauto. }
  repeat split; try (vm_compute; reflexivity). apply Hin. reflexivity.
Qed.

(** ** Disconnecting *)

Lemma onDisconnect_not_connected (w : World) :
  _status (conn w) <> CONNECTED ->
  _status (conn (onDisconnect w)) = _status (conn w) /\
  timers (onDisconnect w) = timers w /\
  reconnectTimeout (conn (onDisconnect w)) = reconnectTimeout (conn w).
Proof.
  intros Hs. unfold onDisconnect. cbn.
  destruct (decide (_status (conn w) = CONNECTED)); [contradiction|].
  repeat split; reflexivity.
Qed.

(** After [disconnect()], whatever the state before, the close event of the
    socket changes neither the status nor the timers: no reconnect is
    scheduled, and the status stays what [disconnect()] left. *)
Lemma disconnect_then_close (h : Host) (w : World) :
  _status (conn (socket_close (disconnect h w))) = _status (conn (disconnect h w)) /\
  timers (socket_close (disconnect h w)) = timers w /\
  reconnectTimeout (conn (socket_close (disconnect h w))) = reconnectTimeout (conn w).
Proof.
  assert (Hd : _status (conn (disconnect h w)) <> CONNECTED /\
               timers (disconnect h w) = timers w /\
               reconnectTimeout (conn (disconnect h w)) = reconnectTimeout (conn w)).
  { unfold disconnect. cbn. destruct (ws (conn w)) as [sock|]; cbn.
    - destruct (WebSocket_close h sock); cbn; repeat split; congruence.
    - repeat split; congruence. }
  destruct Hd as (Hs & Ht & Hr). unfold socket_close.
  pose proof (onDisconnect_not_connected
                (with_conn (set_ws (Some {| readyState := WS_CLOSED |}))
                   (disconnect h w)) Hs) as (H1 & H2 & H3).
  cbn in *. rewrite H1, H2, H3. auto.
Qed.

(** C6, on the code: a connection that is up calls [disconnect()]; the
    status is [DISCONNECTING]; the socket's close event arrives; no timer is
    set, and the status is still [DISCONNECTING], not [DISCONNECTED]. *)
Theorem disconnect_close_stays_disconnecting :
  _status (conn connected_world) = CONNECTED /\
  _status (conn (disconnect sample_host connected_world)) = DISCONNECTING /\
  _status (conn (socket_close (disconnect sample_host connected_world)))
    = DISCONNECTING /\
  timers (socket_close (disconnect sample_host connected_world)) = [] /\
  reconnectTimeout (conn (socket_close (disconnect sample_host connected_world)))
    = None.
Proof. repeat split; reflexivity. Qed.

(** ** Notices *)

Lemma disconnect_debug (h : Host) (line : string) (w : World) :
  conn (disconnect h (debug line w)) = conn (disconnect h w) /\
  trace (disconnect h (debug line w)) = trace (disconnect h w) /\
  timers (disconnect h (debug line w)) = timers w /\
  nextTimer (disconnect h (debug line w)) = nextTimer w /\
  now (disconnect h (debug line w)) = now w.
Proof.
  unfold disconnect. cbn. destruct (ws (conn w)) as [sock|]; cbn;
    [destruct (WebSocket_close h sock)|]; cbn; auto.
Qed.

Lemma complains_text (text : string) :
  complains (VStr text) = Ok (complaining text).
Proof.
  unfold complains, complaining. cbn.
  destruct (String_includes "oo many" text); reflexivity.
Qed.

Lemma onNotice_complains (h : Host) (v : Value) (w : World) :
  onNotice h v w =
  match complains v with
  | Throw err => (Throw err, w)
  | Ok c =>
      (Ok tt,
       emit (EvNotice v)
         (if c
          then debug "Relay complaining?"
                 (snd (setTimeout CbNoticeConnect (Some 2000) (disconnect h w)))
          else w))
  end.
Proof.
  unfold onNotice, complains.
  destruct (includes v "oo many") as [[|]|]; [reflexivity| |reflexivity].
  destruct (includes v "aximum") as [[|]|]; reflexivity.
Qed.

Lemma onMessage_NOTICE (h : Host) (e : MessageEvent) (d v0 v : Value)
    (w : World) :
  JSON_parse h (data e) = Ok d ->
  get_index d 0 = Ok v0 -> verb_of v0 = Some V_NOTICE ->
  get_index d 1 = Ok v ->
  onMessage h e w =
  (Ok tt,
   detached (onNotice h v (debug "Parsed message" (debug "Message received" w)))).
Proof.
  intros Hp H0 Hv H1. unfold onMessage, mbind, lift, act. rewrite Hp.
  unfold dispatch, mbind, lift, act. rewrite H0, Hv, H1. reflexivity.
Qed.

Lemma disconnect_effects (h : Host) (w : World) :
  let w' := disconnect h w in
  timers w' = timers w /\ now w' = now w /\ nextTimer w' = nextTimer w /\
  set_ws (ws (conn w)) (set_status (_status (conn w)) (conn w')) = conn w /\
  match ws (conn w) with
  | Some sock =>
      match WebSocket_close h sock with
      | Ok sock' =>
          _status (conn w') = DISCONNECTING /\ ws (conn w') = Some sock' /\
          trace w' = trace w ++ [WsClose]
      | Throw _ =>
          _status (conn w') = DISCONNECTED /\ ws (conn w') = Some sock /\
          trace w' = trace w
      end
  | None =>
      _status (conn w') = DISCONNECTING /\ ws (conn w') = None /\
      trace w' = trace w
  end.
Proof.
  destruct w as [c n ts nt np tr lg].
  destruct c as [rel sk st tm ca cs ct rt nd os oc oe se be].
  unfold disconnect. cbn.
  destruct sk as [sock|]; cbn; [destruct (WebSocket_close h sock); cbn|];
    repeat split; reflexivity.
Qed.

Lemma filter_tid_fresh (i : TimerId) (ts : list Timer) :
  (forall u, In u ts -> tid u <> i) ->
  filter (fun t => tid t ≠ i) ts = ts.
Proof.
  induction ts as [|t ts IH]; intros H; [reflexivity|].
  rewrite filter_cons. destruct (decide (tid t ≠ i)) as [_|Hn].
  - f_equal. apply IH. intros u Hu. apply H. right. exact Hu.
  - exfalso. apply Hn, H. left. reflexivity.
Qed.

Lemma next_timer_last (ts : list Timer) (t : Timer) :
  (forall u, In u ts -> fireAt t < fireAt u) ->
  next_timer (ts ++ [t]) = Some t.
Proof.
  induction ts as [|u ts IH]; intros H; [reflexivity|].
  cbn [app next_timer]. rewrite IH by (intros v Hv; apply H; right; exact Hv).
  pose proof (H u (or_introl eq_refl)) as Hu.
  destruct (Z.ltb_spec (fireAt t) (fireAt u)); [reflexivity|lia].
Qed.

Lemma connect_ok (h : Host) (T : option Z) (r : bool) (w : World)
    (sock : WebSocket) :
  new_WebSocket h (url (ndkRelay (conn w))) = Ok sock ->
  let w' := snd (connect h T r w) in
  fst (connect h T r w) = Ok tt /\
  now w' = now w /\
  ws (conn w') = Some sock /\
  Stats.attempts (_connectionStats (conn w'))
    = Stats.attempts (_connectionStats (conn w)) + 1 /\
  _status (conn w')
    = (if decide (_status (conn w) = DISCONNECTED) then CONNECTING
       else RECONNECTING) /\
  trace w' = trace w.
Proof.
  intros H. unfold connect.
  pose (F := fun u : World =>
    ndkRelay (conn u) = ndkRelay (conn w) /\
    _status (conn u) = _status (conn w) /\
    _connectionStats (conn u) = _connectionStats (conn w) /\
    now u = now w /\ trace u = trace w).
  set (w1 := match reconnectTimeout (conn w) with Some i => _ | None => w end).
  assert (H1 : F w1).
  { subst w1. destruct (reconnectTimeout (conn w)); repeat split. }
  clearbody w1.
  set (w2 := match connectTimeout (conn w1) with Some i => _ | None => w1 end).
  assert (H2 : F w2).
  { subst w2. destruct (connectTimeout (conn w1)); exact H1. }
  clearbody w2. clear H1.
  set (T' := match T with Some t => Some t | None => timeoutMs (conn w2) end).
  clearbody T'.
  set (w3 := if _ && _ then _ else w2).
  assert (H3 : F w3).
  { subst w3. destruct (_ && _); exact H2. }
  clearbody w3. clear H2. destruct H3 as (Hr & Hs & Hst & Hn & Ht).
  cbn. rewrite Hs.
  destruct (decide (_status (conn w) = DISCONNECTED)); cbn;
    rewrite Hr, H; cbn; rewrite ?Hs, ?Hst, ?Hn, ?Ht; repeat split; reflexivity.
Qed.

(** C7, as the code has it.  An inbound frame whose first element is
    ["NOTICE"] hands its second element to [onNotice], whatever it is.
    When that is a string, the test of [onNotice] is whether it contains
    ["oo many"] or ["aximum"].  When the test fails to run (the value has no
    [includes]), nothing is emitted: the error rejects the promise of
    [onNotice], which nobody holds.  When the test says no, the [notice]
    event with the text is all that happens.  When it says yes, the
    connection calls [close()] on its socket and its status becomes
    [DISCONNECTING] ([DISCONNECTED] when [close()] throws), nothing else of
    the connection changes, a timeout of 2000 ms is set, and the [notice]
    event follows; that timeout, when it is the next to fire, calls
    [connect()] at [now + 2000]: a new socket is made and one more attempt
    is counted. *)
Theorem notice_frame (h : Host) (e : MessageEvent) (d v0 v : Value) (w : World)
    (Hparse : JSON_parse h (data e) = Ok d)
    (Hfirst : get_index d 0 = Ok v0)
    (Hverb : verb_of v0 = Some V_NOTICE)
    (Hsecond : get_index d 1 = Ok v) :
  let w' := snd (onMessage h e w) in
  (forall text, v = VStr text -> complains v = Ok (complaining text)) /\
  (forall err, complains v = Throw err ->
     conn w' = conn w /\ timers w' = timers w /\
     trace w' = trace w ++ [UnhandledRejection err]) /\
  (complains v = Ok false ->
     conn w' = conn w /\ timers w' = timers w /\
     trace w' = trace w ++ [Emit (EvNotice v)]) /\
  (complains v = Ok true ->
     (forall sock sock',
        ws (conn w) = Some sock -> WebSocket_close h sock = Ok sock' ->
        _status (conn w') = DISCONNECTING /\ ws (conn w') = Some sock' /\
        trace w' = trace w ++ [WsClose; Emit (EvNotice v)]) /\
     (forall sock err,
        ws (conn w) = Some sock -> WebSocket_close h sock = Throw err ->
        _status (conn w') = DISCONNECTED /\ ws (conn w') = Some sock /\
        trace w' = trace w ++ [Emit (EvNotice v)]) /\
     (ws (conn w) = None ->
        _status (conn w') = DISCONNECTING /\ ws (conn w') = None /\
        trace w' = trace w ++ [Emit (EvNotice v)]) /\
     set_ws (ws (conn w)) (set_status (_status (conn w)) (conn w')) = conn w /\
     timers w' = timers w ++
       [{| tid := nextTimer w; setAt := now w; delay := Some 2000;
           callback := CbNoticeConnect |}] /\
     ((forall t, In t (timers w) ->
         tid t <> nextTimer w /\ now w + 2000 < fireAt t) ->
      forall sock, new_WebSocket h (url (ndkRelay (conn w))) = Ok sock ->
      exists w2,
        fire h w' = Some w2 /\
        now w2 = now w + 2000 /\
        ws (conn w2) = Some sock /\
        Stats.attempts (_connectionStats (conn w2))
          = Stats.attempts (_connectionStats (conn w)) + 1 /\
        _status (conn w2)
          = (if decide (_status (conn w') = DISCONNECTED) then CONNECTING
             else RECONNECTING) /\
        trace w2 = trace w')).
Proof.
  intros w'. subst w'.
  rewrite (onMessage_NOTICE h e d v0 v w Hparse Hfirst Hverb Hsecond).
  cbn [snd]. rewrite onNotice_complains.
  set (W := debug "Parsed message" (debug "Message received" w)).
  pose proof (disconnect_debug h "Message received" w) as (Hc1 & Htr1 & _).
  pose proof (disconnect_debug h "Parsed message" (debug "Message received" w))
    as (Hc2 & Htr2 & Ht & Hn & Hnow).
  fold W in Hc2, Htr2, Ht, Hn, Hnow.
  pose proof (disconnect_effects h w) as (Dt & Dn & Dnt & Dc & Dm).
  cbv zeta in Dt, Dn, Dnt, Dc, Dm.
  split; [intros text ->; apply complains_text|].
  destruct (complains v) as [[|]|err0]; cbn [detached].
  - split; [discriminate|]. split; [discriminate|]. intros _.
    cbn -[disconnect fire fireAt].
    rewrite Hc2, Hc1, Htr2, Htr1, Ht, Hn, Hnow.
    cbn [debug timers nextTimer now].
    split.
    { intros sock sock' Hws Hcl. rewrite Hws, Hcl in Dm.
      destruct Dm as (D1 & D2 & D3). rewrite D3, <- app_assoc. auto. }
    split.
    { intros sock err Hws Hcl. rewrite Hws, Hcl in Dm.
      destruct Dm as (D1 & D2 & D3). rewrite D3. auto. }
    split.
    { intros Hws. rewrite Hws in Dm.
      destruct Dm as (D1 & D2 & D3). rewrite D3. auto. }
    split; [exact Dc|]. split; [reflexivity|].
    intros Hall sock Hsock.
    set (t := {| tid := nextTimer w; setAt := now w; delay := Some 2000;
                 callback := CbNoticeConnect |}).
    assert (Hfire : fireAt t = now w + 2000) by reflexivity.
    unfold fire. cbn [timers emit effect debug].
    rewrite (next_timer_last (timers w) t)
      by (intros u Hu; rewrite Hfire; apply Hall, Hu).
    rewrite filter_app, (filter_tid_fresh (tid t) (timers w))
      by (intros u Hu; apply Hall, Hu).
    rewrite filter_cons, decide_False, filter_nil, app_nil_r
      by (intros Hne; apply Hne; reflexivity).
    rewrite Hfire.
    cbn [callback t run_callback conn now nextTimer nextPromise trace log].
    match goal with
    | |- exists w2, Some (detached (connect h None true ?X)) = Some w2 /\ _ =>
        pose proof (connect_ok h None true X sock) as Hok
    end.
    cbv zeta in Hok. cbn -[disconnect connect] in Hok.
    assert (Hrel : ndkRelay (conn (disconnect h w)) = ndkRelay (conn w)).
    { apply (f_equal ndkRelay) in Dc. exact Dc. }
    assert (Hstats : _connectionStats (conn (disconnect h w))
                     = _connectionStats (conn w)).
    { apply (f_equal _connectionStats) in Dc. exact Dc. }
    rewrite Hrel, Hstats in Hok.
    destruct (Hok Hsock) as (K1 & K2 & K3 & K4 & K5 & K6). clear Hok.
    destruct (connect h None true _) as [r0 wc]. cbn [fst snd] in *.
    subst r0. cbn [detached]. exists wc. split; [reflexivity|].
    split; [rewrite K2; lia|]. auto.
  - split; [discriminate|]. split; [|discriminate]. intros _.
    repeat split; reflexivity.
  - split; [|split; discriminate]. intros err Herr. injection Herr as <-.
    repeat split; reflexivity.
Qed.

Lemma notice_frame_witness :
  let w' := snd (onMessage notice_host {| data := "frame" |} connected_world) in
  _status (conn w') = DISCONNECTING /\
  ws (conn w') = Some {| readyState := WS_CLOSING |} /\
  trace w' = trace connected_world ++
    [WsClose; Emit (EvNotice (VStr "Too many concurrent subs"))].
Proof.
  refine (proj1 (proj2 (proj2 (proj2
            (notice_frame notice_host {| data := "frame" |}
               (VArr [VStr "NOTICE"; VStr "Too many concurrent subs"])
               (VStr "NOTICE") (VStr "Too many concurrent subs")
               connected_world eq_refl eq_refl eq_refl eq_refl))) eq_refl)
            {| readyState := WS_OPEN |} {| readyState := WS_CLOSING |}
            eq_refl eq_refl).
Defined.

(** C7 as stated fails on a notice without text: for the frame
    [["NOTICE"]], on a connection that is up, no [notice] event is emitted;
    the test on the missing text throws, and the rejection stays with the
    promise of [onNotice]. *)
Lemma notice_frame_counterexample :
  let w' := snd (onMessage odd_host {| data := "bare" |} connected_world) in
  JSON_parse odd_host "bare" = Ok (VArr [VStr "NOTICE"]) /\
  trace w' = trace connected_world ++
    [UnhandledRejection (TypeError "includes is not a function")] /\
  (forall text, ~ In (Emit (EvNotice text)) (trace w')).
Proof.
  cbv zeta. split; [reflexivity|]. split; [reflexivity|].
  intros text Hin. vm_compute in Hin.
  repeat (destruct Hin as [Hin|Hin]; [discriminate Hin|]). exact Hin.
Qed.

(** ** Frames that are dropped *)










(** ** Publishing and the [OK] reply *)

Lemma quiet_refl (w : World) : quiet w w.
Proof. repeat split. Qed.

Lemma quiet_trans (w1 w2 w3 : World) : quiet w1 w2 -> quiet w2 w3 -> quiet w1 w3.
Proof.
  intros (A1 & B1 & C1) (A2 & B2 & C2).
  split; [congruence|]. split; [congruence|].
  intros p. rewrite C2. apply C1.
Qed.

Lemma settlements_snoc (p : PromiseId) (tr : list Effect) (e : Effect) :
  settlements p (tr ++ [e]) =
  settlements p tr ++ (if settles p e then [e] else []).
Proof. unfold settlements. rewrite List.filter_app. reflexivity. Qed.

Lemma quiet_disconnect (h : Host) (w : World) : quiet w (disconnect h w).
Proof.
  unfold disconnect, quiet. cbn -[settlements].
  destruct (ws (conn w)) as [sock|]; cbn -[settlements];
    [destruct (WebSocket_close h sock)|]; cbn -[settlements];
    (split; [reflexivity|]; split; [reflexivity|]); intros p;
    rewrite ?settlements_snoc, ?app_nil_r; reflexivity.
Qed.

Lemma quiet_onNotice (h : Host) (v : Value) (w : World) :
  quiet w (detached (onNotice h v w)).
Proof.
  unfold onNotice.
  destruct (match includes v "oo many" with
            | Ok true => Ok true
            | Ok false => includes v "aximum"
            | Throw e => Throw e
            end) as [c|err]; unfold quiet; cbn -[disconnect settlements].
  - destruct c; cbn -[disconnect settlements].
    + destruct (quiet_disconnect h w) as (A & B & C).
      split; [exact A|]. split; [exact B|].
      intros p. rewrite settlements_snoc, app_nil_r. apply C.
    + split; [reflexivity|]. split; [reflexivity|].
      intros p. rewrite settlements_snoc, app_nil_r. reflexivity.
  - split; [reflexivity|]. split; [reflexivity|].
    intros p. rewrite settlements_snoc, app_nil_r. reflexivity.
Qed.

Lemma quiet_onAuthRequested (v : Value) (w : World) :
  quiet w (onAuthRequested v w).
Proof.
  unfold onAuthRequested, quiet. cbn -[settlements].
  destruct (_ || _); [destruct (decide _)|]; cbn -[settlements];
    (split; [reflexivity|]; split; [reflexivity|]);
    intros p; rewrite ?settlements_snoc, ?app_nil_r; reflexivity.
Qed.

Ltac quiet_step :=
  left; unfold quiet; cbn -[settlements];
  (split; [reflexivity|]; split; [reflexivity|]); intros ?;
  rewrite ?settlements_snoc, ?app_nil_r; reflexivity.

Lemma dispatch_cases (h : Host) (d : Value) (w : World) :
  step_cases (ok_data_for d) w (snd (dispatch h d w)).
Proof.
  unfold dispatch, mbind, lift, read, act, deref, mret, ok_data_for.
  destruct (get_index d 0) as [v|err] eqn:H0; [|quiet_step].
  destruct (verb_of v) as [[]|] eqn:Hv; [| | | | | | |quiet_step].
  all: destruct (get_index d 1) as [d1|err1] eqn:H1; [|quiet_step].
  - (* EVENT *)
    destruct (get_index d 2) as [ev|err2]; [|quiet_step].
    destruct (registry_get (openSubs (conn w)) d1) as [so|]; [|quiet_step].
    cbn -[settlements].
    destruct (matchFilters h (filters so) ev) as [[|]|err3]; quiet_step.
  - (* COUNT *)
    destruct (get_index d 2) as [payload|err2]; [|quiet_step].
    destruct (registry_get (openCountRequests (conn w)) d1) as [p|] eqn:Hr;
      [|quiet_step].
    destruct (get_field payload "count") as [n|err3]; [|quiet_step].
    right; left. destruct d1; try discriminate Hr. cbn in Hr.
    exists s, p, n. cbn. auto.
  - (* EOSE *)
    destruct (registry_get (openSubs (conn w)) d1) as [so|]; quiet_step.
  - (* OK *)
    destruct (get_index d 2) as [ok|err2]; [|quiet_step].
    destruct (get_index d 3) as [reason|err3]; [|quiet_step].
    destruct (registry_get (openEventPublishes (conn w)) d1) as [p|] eqn:Hr;
      [|quiet_step].
    right; right. destruct d1; try discriminate Hr. cbn in Hr.
    exists s, p, ok, reason. cbn. rewrite String.eqb_refl. auto.
  - (* CLOSED *)
    destruct (registry_get (openSubs (conn w)) d1) as [so|]; [|quiet_step].
    cbn -[settlements].
    destruct (get_index d 2) as [reason|err2]; [|quiet_step].
    cbn -[settlements]. destruct (sub_close h _ _ _) as [r subs]. quiet_step.
  - (* NOTICE *) left. apply quiet_onNotice.
  - (* AUTH *) left. apply quiet_onAuthRequested.
Qed.

Lemma onMessage_cases (h : Host) (e : MessageEvent) (w : World) :
  step_cases (fun k => ok_frame_for h k e) w (snd (onMessage h e w)).
Proof.
  unfold onMessage, ok_frame_for, mbind at 1 2, lift at 1, act at 1.
  destruct (JSON_parse h (data e)) as [d|err]; [|quiet_step].
  pose proof (dispatch_cases h d (debug "Parsed message" (debug "Message received" w)))
    as Hd.
  destruct (dispatch h d _) as [[u|err] w']; exact Hd.
Qed.

Lemma settlements_other (p q : PromiseId) (tr : list Effect) (b : bool)
    (v : Value) (x : Exn) :
  p <> q ->
  settlements p (tr ++ [if b then Resolve q v else Reject q x]) = settlements p tr.
Proof.
  intros Hne. rewrite settlements_snoc.
  assert (Hs : settles p (if b then Resolve q v else Reject q x) = false).
  { destruct b; cbn; apply Nat.eqb_neq; exact Hne. }
  rewrite Hs, app_nil_r. reflexivity.
Qed.

(** A frame that is not an [OK] for [k] leaves the promise pending under
    [k] pending, and its resolver alone. *)
Lemma onMessage_pending (h : Host) (e : MessageEvent) (p : PromiseId)
    (k : string) (w : World) :
  pending p k w -> ok_frame_for h k e = false ->
  pending p k (snd (onMessage h e w)) /\
  settlements p (trace (snd (onMessage h e w))) = settlements p (trace w).
Proof.
  intros (Hk & Hother & Hcount) Hnot.
  destruct (onMessage_cases h e w) as
    [(A & B & C) | [(i & q & v & Hi & Hc & Hp & Ht)
                   | (i & q & ok & reason & Hok & Hi & Hp & Hc & Ht)]].
  - split; [|apply C]. unfold pending. rewrite A, B. auto.
  - assert (Hne : p <> q) by (intros ->; exact (Hcount i Hi)).
    split.
    + unfold pending. rewrite Hp, Hc.
      split; [exact Hk|]. split; [exact Hother|].
      intros k'. destruct (decide (k' = i)) as [->|Hki].
      * rewrite lookup_delete_eq. discriminate.
      * rewrite lookup_delete_ne by congruence. apply Hcount.
    + rewrite Ht. apply (settlements_other p q (trace w) true v (Error v) Hne).
  - assert (Hik : i <> k) by (intros ->; congruence).
    assert (Hne : p <> q) by (intros ->; exact (Hother i Hik Hi)).
    split.
    + unfold pending. rewrite Hp, Hc.
      split; [|split; [|exact Hcount]].
      * rewrite lookup_delete_ne by exact Hik. exact Hk.
      * intros k' Hk'. destruct (decide (k' = i)) as [->|Hki].
        -- rewrite lookup_delete_eq. discriminate.
        -- rewrite lookup_delete_ne by congruence. apply Hother. exact Hk'.
    + rewrite Ht. apply settlements_other. exact Hne.
Qed.

(** Once a promise is out of the registries, no frame invokes its resolver. *)
Lemma onMessage_unregistered (h : Host) (e : MessageEvent) (p : PromiseId)
    (w : World) :
  unregistered p w ->
  unregistered p (snd (onMessage h e w)) /\
  settlements p (trace (snd (onMessage h e w))) = settlements p (trace w).
Proof.
  intros (Hpub & Hcount).
  destruct (onMessage_cases h e w) as
    [(A & B & C) | [(i & q & v & Hi & Hc & Hp & Ht)
                   | (i & q & ok & reason & Hok & Hi & Hp & Hc & Ht)]].
  - split; [|apply C]. unfold unregistered. rewrite A, B. auto.
  - assert (Hne : p <> q) by (intros ->; exact (Hcount i Hi)).
    split.
    + unfold unregistered. rewrite Hp, Hc. split; [assumption|].
      intros k'. destruct (decide (k' = i)) as [->|Hki].
      * rewrite lookup_delete_eq. discriminate.
      * rewrite lookup_delete_ne by congruence. apply Hcount.
    + rewrite Ht. apply (settlements_other p q (trace w) true v (Error v) Hne).
  - assert (Hne : p <> q) by (intros ->; exact (Hpub i Hi)).
    split.
    + unfold unregistered. rewrite Hp, Hc. split; [|assumption].
      intros k'. destruct (decide (k' = i)) as [->|Hki].
      * rewrite lookup_delete_eq. discriminate.
      * rewrite lookup_delete_ne by congruence. apply Hpub.
    + rewrite Ht. apply settlements_other. exact Hne.
Qed.

Lemma onMessages_pending (h : Host) (es : list MessageEvent) (p : PromiseId)
    (k : string) (w : World) :
  pending p k w ->
  forallb (fun e => negb (ok_frame_for h k e)) es = true ->
  pending p k (onMessages h es w) /\
  settlements p (trace (onMessages h es w)) = settlements p (trace w).
Proof.
  revert w. induction es as [|e es IH]; intros w Hp Hes; [split; [exact Hp | reflexivity]|].
  cbn in Hes. apply andb_true_iff in Hes as [He Hes].
  apply negb_true_iff in He.
  destruct (onMessage_pending h e p k w Hp He) as [Hp' Hs'].
  destruct (IH _ Hp' Hes) as [Hp'' Hs''].
  unfold onMessages in *. cbn [fold_left]. split; [exact Hp''|]. congruence.
Qed.

Lemma onMessages_unregistered (h : Host) (es : list MessageEvent)
    (p : PromiseId) (w : World) :
  unregistered p w ->
  unregistered p (onMessages h es w) /\
  settlements p (trace (onMessages h es w)) = settlements p (trace w).
Proof.
  revert w. induction es as [|e es IH]; intros w Hu; [split; [exact Hu | reflexivity]|].
  destruct (onMessage_unregistered h e p w Hu) as [Hu' Hs'].
  destruct (IH _ Hu') as [Hu'' Hs''].
  unfold onMessages in *. cbn [fold_left]. split; [exact Hu''|]. congruence.
Qed.

(** [publish] registers a new promise under the event's id, and invokes no
    resolver. *)
Lemma publish_registers (stringify : NostrEvent -> string) (ev : NostrEvent)
    (w : World) :
  promises_fresh w ->
  fst (publish stringify ev w) = nextPromise w /\
  pending (nextPromise w) (id ev) (snd (publish stringify ev w)) /\
  settlements (nextPromise w) (trace (snd (publish stringify ev w))) = [].
Proof.
  intros ((Hpub & Hcount) & Htrace).
  unfold publish, new_Promise, send. cbn -[settlements String.append].
  destruct (_ && _); cbn -[settlements String.append].
  all: split; [reflexivity|]; split.
  all: try (rewrite settlements_snoc, Htrace; reflexivity).
  all: unfold pending; cbn -[String.append];
    (split; [apply lookup_insert_eq|]); (split; [|exact Hcount]);
    intros k' Hk'; rewrite lookup_insert_ne by congruence; apply Hpub.
Qed.

(** The [OK] frame for a pending publish settles it and removes it. *)
Lemma onMessage_OK_pending (h : Host) (e : MessageEvent) (p : PromiseId)
    (k : string) (ok reason : Value) (rest : list Value) (w : World) :
  pending p k w ->
  JSON_parse h (data e) = Ok (VArr (VStr "OK" :: VStr k :: ok :: reason :: rest)) ->
  trace (snd (onMessage h e w)) =
    trace w ++ [if truthy ok then Resolve p reason else Reject p (Error reason)] /\
  openEventPublishes (conn (snd (onMessage h e w))) !! k = None /\
  unregistered p (snd (onMessage h e w)).
Proof.
  intros (Hk & Hother & Hcount) Hparse.
  unfold onMessage, mbind at 1 2, lift at 1, act at 1. rewrite Hparse.
  unfold dispatch, mbind, lift, read, act, deref, mret. cbn [get_index].
  change (default VUndefined ((VStr "OK" :: VStr k :: ok :: reason :: rest) !! 0%nat))
    with (VStr "OK").
  change (verb_of (VStr "OK")) with (Some V_OK). cbn iota.
  change (default VUndefined ((VStr "OK" :: VStr k :: ok :: reason :: rest) !! 1%nat))
    with (VStr k).
  change (default VUndefined ((VStr "OK" :: VStr k :: ok :: reason :: rest) !! 2%nat))
    with ok.
  change (default VUndefined ((VStr "OK" :: VStr k :: ok :: reason :: rest) !! 3%nat))
    with reason.
  cbn [registry_get conn debug]. rewrite Hk.
  unfold unregistered. cbn -[settlements].
  split; [reflexivity|]. split; [apply lookup_delete_eq|].
  split; [|exact Hcount].
  intros k'. destruct (decide (k' = k)) as [->|Hne].
  - rewrite lookup_delete_eq. discriminate.
  - rewrite lookup_delete_ne by congruence. apply Hother. exact Hne.
Qed.

(** C1.  [publish(event)] registers a promise under the event's id.  Frames
    that are not an [OK] for that id leave it pending.  The first [OK] frame
    for the id invokes the promise's resolver once, [resolve(reason)] when
    the flag is [true] and [reject(new Error(reason))] when it is [false],
    and removes the entry; whatever frames follow, and so also a second [OK]
    for the same id, invoke it no more.  (The world it starts from has its
    next promise handle unused, as every reachable world has.) *)
Theorem publish_ok_settles_once (h : Host) (stringify : NostrEvent -> string)
    (ev : NostrEvent) (w : World) (before after : list MessageEvent)
    (e_ok : MessageEvent) (ok : bool) (reason : string) (rest : list Value)
    (Hfresh : promises_fresh w)
    (Hbefore : forallb (fun e => negb (ok_frame_for h (id ev) e)) before = true)
    (Hparse : JSON_parse h (data e_ok) =
              Ok (VArr (VStr "OK" :: VStr (id ev) :: VBool ok :: VStr reason :: rest))) :
  let p := fst (publish stringify ev w) in
  let w1 := snd (publish stringify ev w) in
  let w2 := onMessages h before w1 in
  let w3 := snd (onMessage h e_ok w2) in
  openEventPublishes (conn w1) !! id ev = Some p /\
  openEventPublishes (conn w2) !! id ev = Some p /\
  settlements p (trace w2) = [] /\
  settlements p (trace w3) =
    [if ok then Resolve p (VStr reason) else Reject p (Error (VStr reason))] /\
  openEventPublishes (conn w3) !! id ev = None /\
  settlements p (trace (onMessages h after w3)) = settlements p (trace w3).
Proof.
  intros p w1 w2 w3.
  destruct (publish_registers stringify ev w Hfresh) as (Hp & Hpend & Hnone).
  fold p in Hp. fold w1 in Hpend, Hnone. rewrite <- Hp in Hpend, Hnone.
  destruct (onMessages_pending h before p (id ev) w1 Hpend Hbefore) as [Hpend2 Hs2].
  fold w2 in Hpend2, Hs2.
  destruct (onMessage_OK_pending h e_ok p (id ev) (VBool ok) (VStr reason) rest
              w2 Hpend2 Hparse) as (Ht3 & Hgone & Hunreg).
  fold w3 in Ht3, Hgone, Hunreg.
  destruct (onMessages_unregistered h after p w3 Hunreg) as [_ Hafter].
  split; [apply Hpend|]. split; [apply Hpend2|].
  split; [congruence|]. split; [|split; [exact Hgone | exact Hafter]].
  rewrite Ht3, settlements_snoc, Hs2, Hnone. cbn [truthy app].
  destruct ok; cbn; rewrite Nat.eqb_refl; reflexivity.
Qed.

Lemma connected_world_fresh : promises_fresh connected_world.
Proof.
  split; [split|reflexivity]; intros k.
  - change (openEventPublishes (conn connected_world))
      with (∅ : gmap string PromiseId).
    rewrite lookup_empty. discriminate.
  - change (openCountRequests (conn connected_world))
      with (∅ : gmap string PromiseId).
    rewrite lookup_empty. discriminate.
Qed.

Lemma publish_ok_settles_once_witness :
  settlements 0%nat
    (trace (onMessages ok_host [{| data := "ok" |}]
       (snd (onMessage ok_host {| data := "ok" |}
          (onMessages ok_host [{| data := "eose" |}]
             (snd (publish (fun _ => "{}") event_E connected_world)))))))
  = [Resolve 0%nat (VStr "stored")].
Proof.
  pose proof (publish_ok_settles_once ok_host (fun _ => "{}") event_E
                connected_world [{| data := "eose" |}] [{| data := "ok" |}]
                {| data := "ok" |} true "stored" []
                connected_world_fresh eq_refl eq_refl) as H.
  cbv zeta in H. destruct H as (_ & _ & _ & H4 & _ & H6).
  exact (eq_trans H6 H4).
Defined.

(** ** The signer's handshake *)

(** C8.  With the remote pubkey known, [blockUntilReady] first asks for the
    subscription to kind 24133 addressed to the local pubkey; 100 ms after
    that subscription is in place it sends the [connect] request, whose
    params are the local pubkey followed by the token when the session holds
    a non-empty one; the promise resolves with the remote user when the
    response's result is ["ack"] and is rejected with the response's error
    when it is anything else. *)
Theorem blockUntilReady_handshake (s : Nip46.Session) (dt : nat)
    (response : Nip46.NDKRpcResponse)
    (Hremote : truthy_str (Nip46.remotePubkey (Nip46.signer s)) = true) :
  let g := Nip46.signer s in
  let localPubkey := Nip46.pubkey (Nip46.localSigner g) in
  let params := localPubkey ::
                  (if truthy_str (Nip46.token g) then [Nip46.token g] else []) in
  Nip46.calls (snd (Nip46.blockUntilReady s)) =
    Nip46.calls s ++ [(Nip46.clock s, Nip46.RpcSubscribe [24133] [localPubkey])] /\
  Nip46.calls (snd (Nip46.handshake s dt response)) =
    Nip46.calls s ++
      [(Nip46.clock s, Nip46.RpcSubscribe [24133] [localPubkey]);
       (Nip46.clock s + Z.of_nat dt + 100,
        Nip46.RpcSendRequest (Nip46.remotePubkey g) "connect" params 24133)] /\
  (Nip46.result response = "ack" ->
     fst (Nip46.handshake s dt response)
     = Nip46.Resolved {| Nip46.pubkey := Nip46.remotePubkey g |}) /\
  (Nip46.result response <> "ack" ->
     fst (Nip46.handshake s dt response)
     = Nip46.Rejected (Nip46.error response)).
Proof.
  intros g localPubkey params. subst g localPubkey params.
  unfold Nip46.handshake, Nip46.blockUntilReady.
  rewrite Hremote, andb_false_r. cbn [negb]. rewrite Hremote. cbn [negb].
  cbn -[truthy_str Z.of_nat Z.add String.eqb].
  split; [reflexivity|]. split.
  - rewrite <- app_assoc. cbn [app].
    replace (Z.max (Nip46.clock s + Z.of_nat dt) (Nip46.clock s + Z.of_nat dt + 100))
      with (Nip46.clock s + Z.of_nat dt + 100) by lia.
    destruct (truthy_str (Nip46.token (Nip46.signer s))); reflexivity.
  - unfold Nip46.connect_response. split; intros Hres.
    + rewrite Hres. reflexivity.
    + apply String.eqb_neq in Hres. rewrite Hres. reflexivity.
Qed.

Lemma blockUntilReady_handshake_witness :
  Nip46.calls
    (snd (Nip46.handshake otp_session 0
            {| Nip46.id := "1"; Nip46.result := "ack"; Nip46.error := None |}))
  = [(0, Nip46.RpcSubscribe [24133] [Some "10ca1"]);
     (100, Nip46.RpcSendRequest (Some sample_pubkey) "connect"
             [Some "10ca1"; Some "otp42"] 24133)].
Proof.
  exact (proj1 (proj2 (blockUntilReady_handshake otp_session 0
           {| Nip46.id := "1"; Nip46.result := "ack"; Nip46.error := None |}
           eq_refl))).
Defined.

(** C9, on the code: for a session constructed from ["bob@example.com"] the
    constructor keeps the identifier and no remote pubkey; [blockUntilReady]
    starts the lookup and, without waiting for it, throws "Remote pubkey not
    set"; no subscription is requested.  The lookup's callback, once it runs
    with the user found, does store the pubkey. *)
Theorem nip05_blockUntilReady_throws :
  Nip46.nip05 (Nip46.signer nip05_session) = Some "bob@example.com" /\
  Nip46.remotePubkey (Nip46.signer nip05_session) = None /\
  Nip46.blockUntilReady nip05_session =
    (Throw (Error (VStr "Remote pubkey not set")),
     Nip46.call (Nip46.Nip05Lookup "bob@example.com") nip05_session) /\
  Nip46.remotePubkey
    (Nip46.signer
       (Nip46.fromNip05_then (Some {| Nip46.pubkey := Some "5f2c" |})
          (snd (Nip46.blockUntilReady nip05_session))))
  = Some "5f2c".
Proof. repeat split; reflexivity. Qed.

(** Whatever the identifier and whatever the lookup would find: a session
    that holds an identifier and no remote pubkey throws. *)
Lemma blockUntilReady_without_pubkey (s : Nip46.Session) :
  truthy_str (Nip46.remotePubkey (Nip46.signer s)) = false ->
  fst (Nip46.blockUntilReady s) = Throw (Error (VStr "Remote pubkey not set")).
Proof.
  intros H. unfold Nip46.blockUntilReady. rewrite H.
  destruct (truthy_str (Nip46.nip05 (Nip46.signer s))); cbn; rewrite H; reflexivity.
Qed.

(** ** Reconnecting after a cold failure *)

Lemma next_timer_none (ts : list Timer) : next_timer ts = None -> ts = [].
Proof.
  destruct ts as [|t ts]; [reflexivity|]. cbn.
  destruct (next_timer ts) as [m|]; [destruct (_ <? _)|]; discriminate.
Qed.

Lemma next_timer_spec (ts : list Timer) (u : Timer) :
  next_timer ts = Some u ->
  In u ts /\ forall v, In v ts -> fireAt u <= fireAt v.
Proof.
  revert u. induction ts as [|t ts IH]; intros u H; [discriminate|].
  cbn in H. destruct (next_timer ts) as [m|] eqn:E.
  - destruct (IH m eq_refl) as [Hin Hmin].
    destruct (Z.ltb_spec (fireAt m) (fireAt t)); injection H as <-.
    + split; [right; exact Hin|]. intros v [<-|Hv]; [lia | apply Hmin, Hv].
    + split; [left; reflexivity|]. intros v [<-|Hv]; [lia|].
      specialize (Hmin v Hv). lia.
  - injection H as <-. split; [left; reflexivity|].
    rewrite (next_timer_none ts E). intros v [<-|[]]. lia.
Qed.

Lemma next_timer_some (ts : list Timer) :
  ts <> [] -> exists u, next_timer ts = Some u.
Proof.
  destruct ts as [|t ts]; [congruence|]. intros _. cbn.
  destruct (next_timer ts) as [m|]; [destruct (_ <? _)|]; eauto.
Qed.

Lemma handleReconnection_pending (a : Z) (w : World) (rid : TimerId) :
  reconnectTimeout (conn w) = Some rid -> handleReconnection a w = w.
Proof. intros H. unfold handleReconnection. rewrite H. reflexivity. Qed.

Section ColdFailure.

Variable h : Host.
Hypothesis Hthrow : forall u, exists e, new_WebSocket h u = Throw e.

Lemma isFlapping_nil : isFlapping [] = false.
Proof. reflexivity. Qed.

Lemma reconnect_fire_failing (w : World) :
  connectedAt (conn w) = None ->
  Stats.durations (_connectionStats (conn w)) = [] ->
  let w' := reconnect_fire h 0 w in
  let kept := match connectTimeout (conn w) with
              | Some cid => filter (fun t => tid t <> cid) (timers w)
              | None => timers w
              end in
  let a := Stats.attempts (_connectionStats (conn w)) + 1 in
  timers w' =
    kept ++
    [{| tid := nextTimer w; setAt := now w; delay := timeoutMs (conn w);
        callback := CbConnectTimeout true |};
     {| tid := Pos.succ (nextTimer w); setAt := now w;
        delay := Some (5000 * (a + 1)); callback := CbReconnect 0 |};
     {| tid := Pos.succ (Pos.succ (nextTimer w)); setAt := now w;
        delay := Some 1004; callback := CbRetry 0 |}] /\
  nextTimer w' = Pos.succ (Pos.succ (Pos.succ (nextTimer w))) /\
  reconnectTimeout (conn w') = Some (Pos.succ (nextTimer w)) /\
  Stats.attempts (_connectionStats (conn w')) = a /\
  connectedAt (conn w') = None /\
  Stats.durations (_connectionStats (conn w')) = [] /\
  now w' = now w /\
  log w' = log w ++
    [(now w, "Connecting to"); (now w, "Failed to connect to");
     (now w, "Attempting to reconnect"); (now w, "Reconnecting in")].
Proof.
  intros Hc Hd w' kept a. subst w' kept a.
  destruct w as [c nw tms nt np tr lg].
  destruct c as [relay sock st tm cat stats cto rto nd subs counts pubs ser eose].
  destruct stats as [att suc durs scat nra].
  cbn in Hc, Hd. subst cat durs.
  destruct (Hthrow (url relay)) as [e He].
  unfold reconnect_fire, connect.
  cbn -[handleReconnection Z.mul Z.add Z.lxor truthy_num].
  assert (Htm : negb (truthy_num tm) && truthy_num tm = false)
    by (destruct (truthy_num tm); reflexivity).
  destruct cto as [cid|]; cbn -[handleReconnection Z.mul Z.add Z.lxor truthy_num];
    rewrite Htm; cbn -[handleReconnection Z.mul Z.add Z.lxor truthy_num];
    (destruct (decide (RECONNECTING = DISCONNECTED)) as [Hx|_]; [discriminate Hx|]);
    cbn -[handleReconnection Z.mul Z.add Z.lxor truthy_num];
    rewrite He; unfold handleReconnection;
    cbn -[isFlapping reconnectDelay Z.mul Z.add Z.lxor truthy_num];
    rewrite isFlapping_nil; unfold reconnectDelay;
    cbn -[Z.mul Z.add Z.lxor];
    rewrite <- !app_assoc; repeat split; reflexivity.
Qed.

Lemma times_of_app (line : string) (l1 l2 : list (Z * string)) :
  times_of line (l1 ++ l2) = times_of line l1 ++ times_of line l2.
Proof. unfold times_of. rewrite List.filter_app, map_app. reflexivity. Qed.

(** An inert timer fires: nothing changes but the clock and the log. *)
Lemma inert_fires (cb : Callback) (w : World) (rid : TimerId) :
  inert cb = true -> reconnectTimeout (conn w) = Some rid ->
  conn (run_callback h cb w) = conn w /\
  timers (run_callback h cb w) = timers w /\
  nextTimer (run_callback h cb w) = nextTimer w /\
  now (run_callback h cb w) = now w /\
  attempt_times (run_callback h cb w) = attempt_times w /\
  failure_times (run_callback h cb w) = failure_times w.
Proof.
  intros Hi Hr. destruct cb as [b| | |]; try discriminate Hi; cbn [run_callback].
  - unfold onConnectionError.
    assert (E : (if b then handleReconnection 0 (debug "Error connecting to" w)
                 else debug "Error connecting to" w)
                = debug "Error connecting to" w).
    { destruct b; [|reflexivity]. apply (handleReconnection_pending _ _ rid). exact Hr. }
    rewrite E. unfold attempt_times, failure_times. cbn [log debug].
    rewrite !times_of_app. cbn. rewrite !app_nil_r. repeat split.
  - rewrite (handleReconnection_pending _ _ rid Hr). repeat split.
Qed.

Lemma in_filter_tid (u : Timer) (i : TimerId) (ts : list Timer) :
  In u (filter (fun t => tid t <> i) ts) <-> In u ts /\ tid u <> i.
Proof.
  rewrite <- !list_elem_of_In, list_elem_of_filter. tauto.
Qed.

Lemma filter_tid_length (i : TimerId) (ts : list Timer) (u : Timer) :
  In u ts -> tid u = i ->
  (length (filter (fun t => tid t <> i) ts) < length ts)%nat.
Proof.
  intros Hin Hi. induction ts as [|t ts IH]; [destruct Hin|].
  rewrite filter_cons. destruct Hin as [->|Hin].
  - destruct (decide (tid u <> i)) as [Hne|_]; [contradiction|].
    pose proof (length_filter (fun t => tid t <> i) ts). cbn. lia.
  - specialize (IH Hin). destruct (decide (tid t <> i)); cbn; lia.
Qed.

(** One turn of the timer loop while waiting: either an inert timer goes,
    or the reconnect timer fires and [connect] fails once more. *)
Lemma waiting_step (k t : Z) (ts : list Z) (w : World) :
  waiting k t ts w ->
  exists w', fire h w = Some w' /\
    ((waiting k t ts w' /\ (length (timers w') < length (timers w))%nat) \/
     (waiting (k + 1) (t + 5000 * (k + 1)) (ts ++ [t + 5000 * (k + 1)]) w' /\
      now w' = t + 5000 * (k + 1))).
Proof.
  intros [Hk (rid & Hrid & Hin & Hall) Hids Hatt Hcat Hdur Hnow Hats Hfts].
  destruct (next_timer_some (timers w)) as [u Hu].
  { intros E. rewrite E in Hin. destruct Hin. }
  destruct (next_timer_spec _ _ Hu) as [Huin Humin].
  unfold fire. rewrite Hu. eexists. split; [reflexivity|].
  set (w1 := {| conn := conn w; now := Z.max (now w) (fireAt u);
                timers := filter (fun v => tid v <> tid u) (timers w);
                nextTimer := nextTimer w; nextPromise := nextPromise w;
                trace := trace w; log := log w |}).
  assert (Hfire_rt : fireAt (reconnect_timer rid t k) = t + 5000 * (k + 1)).
  { unfold fireAt. cbn. lia. }
  destruct (Hall u Huin) as [-> | [Hne Hinert]].
  - (* the reconnect timer *)
    right.
    assert (Hnow1 : now w1 = t + 5000 * (k + 1)).
    { subst w1. cbn [now]. rewrite Hfire_rt. lia. }
    destruct (reconnect_fire_failing w1 Hcat Hdur)
      as (Ht & Hnt & Hr & Ha & Hc & Hd & Hn & Hl).
    cbn [run_callback callback reconnect_timer].
    set (w' := reconnect_fire h 0 w1) in *.
    change (Stats.attempts (_connectionStats (conn w1)))
      with (Stats.attempts (_connectionStats (conn w))) in Ht, Ha.
    change (nextTimer w1) with (nextTimer w) in Ht, Hnt, Hr.
    change (log w1) with (log w) in Hl.
    rewrite Hatt in Ht, Ha. rewrite Hnow1 in Ht, Hn, Hl.
    assert (Hkept : forall v,
              In v (match connectTimeout (conn w1) with
                    | Some cid => filter (fun x => tid x <> cid) (timers w1)
                    | None => timers w1
                    end) ->
              In v (timers w) /\ tid v <> rid).
    { intros v Hv.
      assert (Hv1 : In v (timers w1)).
      { destruct (connectTimeout (conn w1)); [apply in_filter_tid in Hv; tauto | exact Hv]. }
      subst w1. cbn [timers] in Hv1. apply in_filter_tid in Hv1. exact Hv1. }
    split; [|exact Hn].
    constructor.
    + lia.
    + exists (Pos.succ (nextTimer w)). split; [exact Hr|].
      rewrite Ht. unfold reconnect_timer. split.
      * apply in_or_app. right. right. left. reflexivity.
      * intros v Hv. apply in_app_or in Hv as [Hv | [<- | [<- | [<- | []]]]].
        -- right. destruct (Hkept v Hv) as [Hvin Hvne].
           destruct (Hall v Hvin) as [-> | [_ Hvi]]; [contradiction Hvne; reflexivity|].
           split; [|exact Hvi]. specialize (Hids v Hvin). lia.
        -- right. split; [cbn; lia | reflexivity].
        -- left. reflexivity.
        -- right. split; [cbn; lia | reflexivity].
    + intros v Hv. rewrite Hnt. rewrite Ht in Hv.
      apply in_app_or in Hv as [Hv | [<- | [<- | [<- | []]]]]; cbn [tid]; try lia.
      destruct (Hkept v Hv) as [Hvin _]. specialize (Hids v Hvin). lia.
    + exact Ha.
    + exact Hc.
    + exact Hd.
    + rewrite Hn. lia.
    + unfold attempt_times. rewrite Hl, times_of_app.
      fold (attempt_times w). rewrite Hats. reflexivity.
    + unfold failure_times. rewrite Hl, times_of_app.
      fold (failure_times w). rewrite Hfts. reflexivity.
  - (* an inert timer *)
    left.
    destruct (inert_fires (callback u) w1 rid Hinert Hrid)
      as (Hc & Ht & Hnt & Hn & Ha & Hf).
    set (w' := run_callback h (callback u) w1) in *.
    split.
    + constructor.
      * exact Hk.
      * exists rid. rewrite Hc, Ht. split; [exact Hrid|]. split.
        -- subst w1. cbn [timers]. apply in_filter_tid. split; [exact Hin|].
           cbn. congruence.
        -- intros v Hv. subst w1. cbn [timers] in Hv.
           apply in_filter_tid in Hv as [Hv _]. apply Hall, Hv.
      * intros v Hv. rewrite Hnt. rewrite Ht in Hv. subst w1.
        cbn [timers] in Hv. apply in_filter_tid in Hv as [Hv _].
        apply Hids, Hv.
      * rewrite Hc. exact Hatt.
      * rewrite Hc. exact Hcat.
      * rewrite Hc. exact Hdur.
      * rewrite Hn. subst w1. cbn [now].
        specialize (Humin _ Hin). rewrite Hfire_rt in Humin. lia.
      * rewrite Ha. exact Hats.
      * rewrite Hf. exact Hfts.
    + rewrite Ht. subst w1. cbn [timers].
      apply (filter_tid_length (tid u) (timers w) u Huin eq_refl).
Qed.

Lemma run_S (n : nat) (w w' : World) :
  fire h w = Some w' -> run h (S n) w = run h n w'.
Proof. intros H. cbn. rewrite H. reflexivity. Qed.

(** While waiting, the loop reaches the next call of [connect], which
    happens [5000 * (k + 1)] ms after the [k]-th failure; until then it
    keeps waiting. *)
Lemma waiting_next (k t : Z) (ts : list Z) (w : World) :
  waiting k t ts w ->
  exists n,
    (0 < n)%nat /\
    (forall m, (m < n)%nat -> waiting k t ts (run h m w)) /\
    waiting (k + 1) (t + 5000 * (k + 1)) (ts ++ [t + 5000 * (k + 1)]) (run h n w) /\
    now (run h n w) = t + 5000 * (k + 1).
Proof.
  remember (length (timers w)) as len eqn:Hlen. revert w Hlen.
  induction len as [len IH] using lt_wf_ind. intros w Hlen Hw.
  destruct (waiting_step k t ts w Hw) as (w' & Hfire & [[Hw' Hlt] | [Hw' Hnow]]).
  - destruct (IH (length (timers w')) ltac:(lia) w' eq_refl Hw')
      as (n & _ & Hbefore & Hn).
    exists (S n). split; [lia|]. rewrite (run_S n w w' Hfire).
    split; [|exact Hn].
    intros [|m] Hm; [exact Hw|]. rewrite (run_S m w w' Hfire).
    apply Hbefore. lia.
  - exists 1%nat. split; [lia|]. rewrite (run_S 0 w w' Hfire). cbn [run].
    split; [|split; assumption].
    intros m Hm. replace m with 0%nat by lia. exact Hw.
Qed.

Lemma run_add (n m : nat) (w : World) :
  run h (n + m) w = run h m (run h n w).
Proof.
  revert w. induction n as [|n IH]; intros w; [reflexivity|].
  cbn [Nat.add run]. destruct (fire h w) as [w'|] eqn:E; [apply IH|].
  destruct m as [|m]; [reflexivity|]. cbn [run]. rewrite E. reflexivity.
Qed.

Lemma cold_start_waiting (relay : NDKRelay) (ndk0 : option NDK)
    (T : option Z) (t0 : Z) :
  waiting 1 t0 [t0] (cold_start h relay ndk0 T t0) /\
  now (cold_start h relay ndk0 T t0) = t0.
Proof.
  unfold cold_start, connect, fresh_world, new_connectivity.
  destruct (Hthrow (url relay)) as [e He].
  assert (HT : T = None \/ (exists z, T = Some z /\ truthy_num T = true) \/
               (T = Some 0)).
  { destruct T as [z|]; [|auto]. cbn. destruct (Z.eqb_spec z 0) as [->|]; eauto. }
  destruct HT as [-> | [(z & -> & Hz) | ->]];
    cbn -[handleReconnection Z.mul Z.add truthy_num]; rewrite ?Hz;
    cbn -[handleReconnection Z.mul Z.add];
    (destruct (decide (DISCONNECTED = DISCONNECTED)) as [_|Hx]; [|contradiction]);
    cbn -[handleReconnection Z.mul Z.add].
  all:
    rewrite He; unfold handleReconnection;
    cbn -[isFlapping reconnectDelay Z.mul Z.add truthy_num];
    rewrite isFlapping_nil; unfold reconnectDelay; cbn -[Z.mul Z.add].
  all: split; [|reflexivity].
  all: constructor; cbn -[Z.mul Z.add]; try reflexivity; try lia.
  all: try (exists 2%positive; split; [reflexivity|]; split;
            [right; left; reflexivity|];
            intros u [<- | [<- | []]];
            [right; split; [discriminate | reflexivity] | left; reflexivity]).
  all: intros u [<- | [<- | []]]; cbn; lia.
Qed.

(** The [j]-th reconnect attempt has been made, [5000 * (j + 1)] ms after
    the failure before it; and at every turn before, the calls made are the
    schedule up to some earlier attempt. *)
Lemma cold_failure_calls (relay : NDKRelay) (ndk0 : option NDK)
    (T : option Z) (t0 : Z) (j : nat) :
  exists n,
    (j <= n)%nat /\
    waiting (Z.of_nat j + 1) (List.last (schedule t0 j) t0) (schedule t0 j)
      (run h n (cold_start h relay ndk0 T t0)) /\
    now (run h n (cold_start h relay ndk0 T t0)) = List.last (schedule t0 j) t0 /\
    forall m, (m <= n)%nat ->
      exists j', (j' <= j)%nat /\
        attempt_times (run h m (cold_start h relay ndk0 T t0)) = schedule t0 j'.
Proof.
  induction j as [|j (n & Hjn & IH & Hnow & Hpre)].
  - destruct (cold_start_waiting relay ndk0 T t0) as [Hw Hnow].
    exists 0%nat. split; [lia|]. split; [exact Hw|]. split; [exact Hnow|].
    intros m Hm. replace m with 0%nat by lia. exists 0%nat. split; [lia|].
    apply (wt_attempt_times _ _ _ _ Hw).
  - destruct (waiting_next _ _ _ _ IH) as (m & Hpos & Hbefore & Hm & Hnow').
    exists (n + m)%nat. rewrite !run_add. cbn [schedule].
    rewrite List.last_last.
    replace (Z.of_nat (S j) + 1) with (Z.of_nat j + 1 + 1) by lia.
    replace (Z.of_nat j + 2) with (Z.of_nat j + 1 + 1) by lia.
    split; [lia|]. split; [exact Hm|]. split; [exact Hnow'|].
    intros i Hi. destruct (Nat.le_gt_cases i n) as [Hle|Hgt].
    + destruct (Hpre i Hle) as (j' & Hj' & Hat). exists j'. split; [lia | exact Hat].
    + replace i with (n + (i - n))%nat by lia. rewrite run_add.
      destruct (Nat.eq_dec (i - n)%nat m) as [->|Hne].
      * exists (S j). split; [lia|]. cbn [schedule].
        replace (Z.of_nat j + 2) with (Z.of_nat j + 1 + 1) by lia.
        apply (wt_attempt_times _ _ _ _ Hm).
      * exists j. split; [lia|].
        apply (wt_attempt_times _ _ _ _ (Hbefore (i - n)%nat ltac:(lia))).
Qed.

End ColdFailure.

(** C5, as the code has it.  For a new connection whose socket constructor
    always throws, the call of [connect] at [t0] fails, and reconnect
    attempts 1 to 5 follow the previous failure by 10000, 15000, 20000,
    25000 and 30000 ms: [5000 * (attempts + 1)], the counter having been
    advanced by the failed call.  At every earlier turn of the timer loop
    the calls made so far are an initial part of this schedule. *)
Theorem cold_failure_delays (h : Host) (relay : NDKRelay) (ndk0 : option NDK)
    (T : option Z) (t0 : Z)
    (Hthrow : forall u, exists e, new_WebSocket h u = Throw e) :
  let calls := [t0; t0 + 10000; t0 + 25000; t0 + 45000; t0 + 70000; t0 + 100000] in
  exists n,
    let w := run h n (cold_start h relay ndk0 T t0) in
    attempt_times w = calls /\
    failure_times w = calls /\
    gaps (attempt_times w) = [10000; 15000; 20000; 25000; 30000] /\
    now w = t0 + 100000 /\
    forall m, (m <= n)%nat ->
      exists j, attempt_times (run h m (cold_start h relay ndk0 T t0)) = firstn j calls.
Proof.
  intros calls.
  assert (Hs : schedule t0 5 = calls).
  { subst calls. cbn -[Z.add Z.mul].
    repeat (apply (f_equal2 cons); [lia|]). reflexivity. }
  destruct (cold_failure_calls h Hthrow relay ndk0 T t0 5)
    as (n & _ & Hw & Hnow & Hpre).
  exists n. cbv zeta.
  rewrite (wt_failure_times _ _ _ _ Hw), (wt_attempt_times _ _ _ _ Hw), Hnow, Hs.
  split; [reflexivity|]. split; [reflexivity|]. split; [|split].
  - subst calls. cbn -[Z.add Z.sub].
    repeat (apply (f_equal2 cons); [lia|]). reflexivity.
  - subst calls. cbn -[Z.add]. reflexivity.
  - intros m Hm. destruct (Hpre m Hm) as (j & Hj & Hat).
    exists (S j). rewrite Hat, <- Hs.
    do 6 (destruct j as [|j]; [reflexivity|]). lia.
Qed.

Lemma failing_host_throws (u : string) :
  exists e, new_WebSocket failing_host u = Throw e.
Proof. eexists. reflexivity. Qed.

Lemma cold_failure_delays_witness :
  exists n,
    gaps (attempt_times
            (run failing_host n (cold_start failing_host sample_relay None None 0)))
    = [10000; 15000; 20000; 25000; 30000].
Proof.
  destruct (cold_failure_delays failing_host sample_relay None None 0
              failing_host_throws) as (n & _ & _ & Hg & _).
  exists n. exact Hg.
Defined.

(** C5 as stated fails on the code.  With the socket constructor always
    throwing and a connection created at instant 0: the first reconnect
    attempt comes 10000 ms after the first failure, not 5000; the timer set
    after a failed reconnect attempt has delay 1004 ms ([1000 xor 4]) and
    runs [handleReconnection], not [connect]; and a sixth reconnect attempt
    is made, 35000 ms after the fifth. *)
Lemma cold_failure_counterexample :
  let w0 := cold_start failing_host sample_relay None None 0 in
  attempt_times (run failing_host 17 w0)
    = [0; 10000; 25000; 45000; 70000; 100000; 135000] /\
  gaps (attempt_times (run failing_host 17 w0))
    = [10000; 15000; 20000; 25000; 30000; 35000] /\
  firstn 5 (gaps (attempt_times (run failing_host 17 w0)))
    <> [5000; 10000; 15000; 20000; 25000] /\
  In {| tid := 5%positive; setAt := 10000; delay := Some 1004;
        callback := CbRetry 0 |}
     (timers (run failing_host 2 w0)).
Proof.
  cbv zeta. split; [vm_compute; reflexivity|].
  split; [vm_compute; reflexivity|].
  split; [vm_compute; discriminate|].
  vm_compute. right. right. left. reflexivity.
Qed.

(** ** The field [connectedAt] of the connection *)

Lemma handleReconnection_connectedAt (a : Z) (w : World) :
  connectedAt (conn (handleReconnection a w)) = connectedAt (conn w).
Proof.
  unfold handleReconnection.
  destruct (reconnectTimeout (conn w)); [reflexivity|].
  destruct (isFlapping _); reflexivity.
Qed.

Lemma clear_connectedAt (o : option TimerId) (f : Conn -> Conn) (w : World) :
  (forall c, connectedAt (f c) = connectedAt c) ->
  connectedAt (conn (match o with
                     | Some i => with_conn f (clearTimeout i w)
                     | None => w
                     end)) = connectedAt (conn w).
Proof. intros Hf. destruct o; cbn; [apply Hf | reflexivity]. Qed.

Lemma connect_connectedAt (h : Host) (T : option Z) (r : bool) (w : World) :
  connectedAt (conn (snd (connect h T r w))) = connectedAt (conn w).
Proof.
  unfold connect.
  set (w1 := match reconnectTimeout (conn w) with Some i => _ | None => w end).
  assert (H1 : connectedAt (conn w1) = connectedAt (conn w)).
  { subst w1. destruct (reconnectTimeout (conn w)); reflexivity. }
  set (w2 := match connectTimeout (conn w1) with Some i => _ | None => w1 end).
  assert (H2 : connectedAt (conn w2) = connectedAt (conn w)).
  { subst w2. destruct (connectTimeout (conn w1)); cbn; exact H1. }
  clearbody w2. clear w1 H1.
  set (w3 := if _ && _ then _ else w2).
  assert (H3 : connectedAt (conn w3) = connectedAt (conn w)).
  { subst w3. destruct (_ && _); cbn; exact H2. }
  clearbody w3. clear H2.
  cbn -[handleReconnection].
  destruct (decide _); cbn -[handleReconnection];
    destruct (new_WebSocket h _); cbn -[handleReconnection]; try exact H3;
    destruct r; cbn -[handleReconnection];
    rewrite ?handleReconnection_connectedAt; exact H3.
Qed.

Lemma disconnect_connectedAt (h : Host) (w : World) :
  connectedAt (conn (disconnect h w)) = connectedAt (conn w).
Proof.
  unfold disconnect. cbn. destruct (ws (conn w)) as [sock|]; [|reflexivity].
  destruct (WebSocket_close h sock); reflexivity.
Qed.

Lemma onConnect_connectedAt (w : World) :
  connectedAt (conn (onConnect w)) = connectedAt (conn w).
Proof.
  unfold onConnect.
  destruct (reconnectTimeout (conn w)); cbn;
    destruct (connectTimeout (conn w)); reflexivity.
Qed.

Lemma onDisconnect_connectedAt (w : World) :
  connectedAt (conn (onDisconnect w)) = connectedAt (conn w).
Proof.
  unfold onDisconnect. cbn -[handleReconnection].
  destruct (decide _); cbn -[handleReconnection];
    rewrite ?handleReconnection_connectedAt; reflexivity.
Qed.

Lemma onNotice_connectedAt (h : Host) (v : Value) (w : World) :
  connectedAt (conn (detached (onNotice h v w))) = connectedAt (conn w).
Proof.
  unfold onNotice.
  destruct (match includes v "oo many" with
            | Ok true => Ok true
            | Ok false => includes v "aximum"
            | Throw e => Throw e
            end) as [[|]|err]; cbn -[disconnect]; try reflexivity.
  apply disconnect_connectedAt.
Qed.

Lemma onAuthRequested_connectedAt (v : Value) (w : World) :
  connectedAt (conn (onAuthRequested v w)) = connectedAt (conn w).
Proof.
  unfold onAuthRequested. cbn.
  destruct (_ || _); [destruct (decide _)|]; reflexivity.
Qed.

Lemma dispatch_connectedAt (h : Host) (d : Value) (w : World) :
  connectedAt (conn (snd (dispatch h d w))) = connectedAt (conn w).
Proof.
  unfold dispatch, mbind, lift, read, act, deref, mret.
  destruct (get_index d 0) as [v|err]; [|reflexivity].
  destruct (verb_of v) as [[]|]; [| | | | | | |reflexivity].
  all: destruct (get_index d 1) as [d1|err1]; [|reflexivity].
  - destruct (get_index d 2) as [ev|err2]; [|reflexivity].
    destruct (registry_get (openSubs (conn w)) d1) as [so|]; [|reflexivity].
    cbn. destruct (matchFilters h (filters so) ev) as [[|]|err3]; reflexivity.
  - destruct (get_index d 2) as [payload|err2]; [|reflexivity].
    destruct (registry_get (openCountRequests (conn w)) d1) as [p|]; [|reflexivity].
    destruct (get_field payload "count") as [n|err3]; reflexivity.
  - destruct (registry_get (openSubs (conn w)) d1) as [so|]; reflexivity.
  - destruct (get_index d 2) as [ok|err2]; [|reflexivity].
    destruct (get_index d 3) as [reason|err3]; [|reflexivity].
    destruct (registry_get (openEventPublishes (conn w)) d1) as [p|]; reflexivity.
  - destruct (registry_get (openSubs (conn w)) d1) as [so|]; [|reflexivity].
    cbn. destruct (get_index d 2) as [reason|err2]; [|reflexivity].
      cbn. destruct (sub_close h _ _ _); reflexivity.
  - apply onNotice_connectedAt.
  - apply onAuthRequested_connectedAt.
Qed.

Lemma onMessage_connectedAt (h : Host) (e : MessageEvent) (w : World) :
  connectedAt (conn (snd (onMessage h e w))) = connectedAt (conn w).
Proof.
  unfold onMessage, mbind at 1 2, lift at 1, act at 1.
  destruct (JSON_parse h (data e)) as [d|err]; [|reflexivity].
  pose proof (dispatch_connectedAt h d
                (debug "Parsed message" (debug "Message received" w))) as Hd.
  destruct (dispatch h d _) as [[u|err] w']; exact Hd.
Qed.

Lemma publish_connectedAt (s : NostrEvent -> string) (ev : NostrEvent) (w : World) :
  connectedAt (conn (snd (publish s ev w))) = connectedAt (conn w).
Proof.
  unfold publish, new_Promise, send. cbn -[String.append].
  destruct (_ && _); reflexivity.
Qed.

Lemma run_callback_connectedAt (h : Host) (cb : Callback) (w : World) :
  connectedAt (conn (run_callback h cb w)) = connectedAt (conn w).
Proof.
  destruct cb as [b|a|a|]; cbn [run_callback].
  - unfold onConnectionError. destruct b;
      rewrite ?handleReconnection_connectedAt; reflexivity.
  - unfold reconnect_fire.
    pose proof (connect_connectedAt h None true
                  (with_conn (set_status RECONNECTING)
                     (with_conn (set_reconnectTimeout None) w))) as Hc.
    destruct (connect h None true _) as [[u|err] w']; cbn in Hc |- *;
      [exact Hc|]. destruct (a <? MAX_RECONNECT_ATTEMPTS); exact Hc.
  - apply handleReconnection_connectedAt.
  - pose proof (connect_connectedAt h None true w) as Hc.
    destruct (connect h None true w) as [[u|err] w']; exact Hc.
Qed.

Lemma fire_connectedAt (h : Host) (w w' : World) :
  fire h w = Some w' -> connectedAt (conn w') = connectedAt (conn w).
Proof.
  unfold fire. destruct (next_timer (timers w)) as [t|]; [|discriminate].
  intros H. injection H as <-. rewrite run_callback_connectedAt. reflexivity.
Qed.

(** X1.  No method assigns [this.connectedAt]: the field that the reconnect
    delay tests is undefined in every reachable world, so the delay is always
    [5000 * (attempts + 1)], also for a connection that has been up. *)
Theorem reachable_reconnectDelay (h : Host) (w : World) :
  reachable h w ->
  connectedAt (conn w) = None /\
  reconnectDelay w = 5000 * (Stats.attempts (_connectionStats (conn w)) + 1).
Proof.
  intros Hr.
  assert (Hc : connectedAt (conn w) = None).
  { induction Hr as [relay ndk0 t0 | w T r _ IH | w _ IH | w _ IH | w _ IH
                    | w e _ IH | w s ev _ IH | w fs i _ IH | w w' _ IH Hf
                    | w dt _ IH].
    - reflexivity.
    - rewrite connect_connectedAt. exact IH.
    - rewrite disconnect_connectedAt. exact IH.
    - unfold socket_open. rewrite onConnect_connectedAt. exact IH.
    - unfold socket_close. rewrite onDisconnect_connectedAt. exact IH.
    - rewrite onMessage_connectedAt. exact IH.
    - rewrite publish_connectedAt. exact IH.
    - exact IH.
    - rewrite (fire_connectedAt h w w' Hf). exact IH.
    - exact IH. }
  split; [exact Hc|]. unfold reconnectDelay. rewrite Hc. reflexivity.
Qed.

Lemma reachable_reconnectDelay_witness :
  reconnectDelay (socket_close connected_world) = 10000.
Proof.
  exact (proj2 (reachable_reconnectDelay sample_host (socket_close connected_world)
    (reach_close _ _ (reach_open _ _ (reach_connect _ _ None true (reach_new _ sample_relay None 0)))))).
Defined.

(** ** Reconnecting without end *)

Lemma schedule_length (t0 : Z) (j : nat) : length (schedule t0 j) = S j.
Proof.
  induction j as [|j IH]; [reflexivity|].
  cbn [schedule]. rewrite length_app, IH. cbn. lia.
Qed.

(** X2.  With the socket constructor always throwing, the calls of [connect] go
    on without end: for every [j] the loop makes its [j]-th reconnect
    attempt, at the instant the schedule gives. *)
Theorem cold_failure_never_stops (h : Host) (relay : NDKRelay)
    (ndk0 : option NDK) (T : option Z) (t0 : Z) (j : nat)
    (Hthrow : forall u, exists e, new_WebSocket h u = Throw e) :
  exists n,
    attempt_times (run h n (cold_start h relay ndk0 T t0)) = schedule t0 j /\
    length (attempt_times (run h n (cold_start h relay ndk0 T t0))) = S j.
Proof.
  destruct (cold_failure_calls h Hthrow relay ndk0 T t0 j) as (n & _ & Hw & _).
  exists n. rewrite (wt_attempt_times _ _ _ _ Hw).
  split; [reflexivity | apply schedule_length].
Qed.

Lemma cold_failure_never_stops_witness :
  exists n,
    length (attempt_times
              (run failing_host n (cold_start failing_host sample_relay None None 0)))
    = 11%nat.
Proof.
  destruct (cold_failure_never_stops failing_host sample_relay None None 0 10
              failing_host_throws) as (n & _ & Hn).
  exists n. exact Hn.
Defined.

(** ** Promise handles in reachable worlds *)

Lemma calm_refl (w : World) : calm w w.
Proof. split; [apply quiet_refl | reflexivity]. Qed.

Lemma calm_trans (w1 w2 w3 : World) : calm w1 w2 -> calm w2 w3 -> calm w1 w3.
Proof.
  intros [Q1 N1] [Q2 N2]. split; [eapply quiet_trans; eassumption | congruence].
Qed.

Ltac calm_step :=
  split; [|reflexivity]; unfold quiet; cbn -[settlements];
  (split; [reflexivity|]; split; [reflexivity|]); intros ?;
  rewrite ?settlements_snoc, ?app_nil_r; reflexivity.

Lemma calm_handleReconnection (a : Z) (w : World) :
  calm w (handleReconnection a w).
Proof.
  unfold handleReconnection.
  destruct (reconnectTimeout (conn w)); [apply calm_refl|].
  destruct (isFlapping _); calm_step.
Qed.

Lemma calm_clear (o : option TimerId) (f : Conn -> Conn) (w : World) :
  (forall c, openEventPublishes (f c) = openEventPublishes c /\
             openCountRequests (f c) = openCountRequests c) ->
  calm w (match o with
          | Some i => with_conn f (clearTimeout i w)
          | None => w
          end).
Proof.
  intros Hf. destruct o as [i|]; [|apply calm_refl].
  destruct (Hf (conn w)) as [Hp Hc].
  split; [|reflexivity]. unfold quiet. cbn -[settlements].
  split; [exact Hp|]. split; [exact Hc|]. reflexivity.
Qed.

Lemma calm_connect (h : Host) (T : option Z) (r : bool) (w : World) :
  calm w (snd (connect h T r w)).
Proof.
  unfold connect.
  set (w1 := match reconnectTimeout (conn w) with Some i => _ | None => w end).
  assert (H1 : calm w w1).
  { subst w1. apply calm_clear. intros c. split; reflexivity. }
  set (w2 := match connectTimeout (conn w1) with Some i => _ | None => w1 end).
  assert (H2 : calm w w2).
  { eapply calm_trans; [exact H1|]. subst w2. apply calm_clear.
    intros c. split; reflexivity. }
  clearbody w2. clear w1 H1.
  set (w3 := if _ && _ then _ else w2).
  assert (H3 : calm w w3).
  { subst w3. destruct (_ && _); [|exact H2].
    eapply calm_trans; [exact H2|]. calm_step. }
  clearbody w3. clear H2.
  cbn -[handleReconnection].
  destruct (decide _); cbn -[handleReconnection];
    destruct (new_WebSocket h _); cbn -[handleReconnection];
    try (eapply calm_trans; [exact H3|]; calm_step);
    destruct r; cbn -[handleReconnection];
    try (eapply calm_trans; [exact H3|]; calm_step);
    (eapply calm_trans; [exact H3|]);
    (eapply calm_trans; [|apply calm_handleReconnection]); calm_step.
Qed.

Lemma calm_disconnect (h : Host) (w : World) : calm w (disconnect h w).
Proof.
  split; [apply quiet_disconnect|].
  unfold disconnect. cbn. destruct (ws (conn w)) as [sock|]; [|reflexivity].
  destruct (WebSocket_close h sock); reflexivity.
Qed.

Lemma calm_onConnect (w : World) : calm w (onConnect w).
Proof.
  unfold onConnect.
  set (w1 := match reconnectTimeout (conn w) with Some i => _ | None => w end).
  assert (H1 : calm w w1).
  { subst w1. apply calm_clear. intros c. split; reflexivity. }
  set (w2 := match connectTimeout (conn w1) with Some i => _ | None => w1 end).
  assert (H2 : calm w w2).
  { eapply calm_trans; [exact H1|]. subst w2. apply calm_clear.
    intros c. split; reflexivity. }
  clearbody w2. clear w1 H1.
  eapply calm_trans; [exact H2|]. calm_step.
Qed.

Lemma calm_onDisconnect (w : World) : calm w (onDisconnect w).
Proof.
  unfold onDisconnect. cbv zeta.
  set (w1 := stats_disconnected w).
  assert (H1 : calm w w1) by calm_step.
  clearbody w1.
  destruct (decide (_status (conn w1) = CONNECTED)) as [_|_].
  - set (w2 := handleReconnection 0 (with_conn (set_status DISCONNECTED) w1)).
    assert (H2 : calm w w2).
    { eapply calm_trans; [exact H1|].
      eapply calm_trans; [|apply calm_handleReconnection]. calm_step. }
    clearbody w2. eapply calm_trans; [exact H2|]. calm_step.
  - eapply calm_trans; [exact H1|]. calm_step.
Qed.

Lemma calm_run_callback (h : Host) (cb : Callback) (w : World) :
  calm w (run_callback h cb w).
Proof.
  destruct cb as [b|a|a|]; cbn [run_callback].
  - unfold onConnectionError. cbv zeta. destruct b; [|calm_step].
    eapply calm_trans; [|apply calm_handleReconnection]. calm_step.
  - unfold reconnect_fire. cbv zeta.
    set (w0 := with_conn (set_status RECONNECTING)
                 (with_conn (set_reconnectTimeout None) w)).
    assert (H0 : calm w w0) by calm_step.
    pose proof (calm_connect h None true w0) as Hc. clearbody w0.
    destruct (connect h None true w0) as [[u|err] w']; cbn [snd] in Hc;
      (eapply calm_trans; [exact H0|]); (eapply calm_trans; [exact Hc|]);
      [calm_step|]. destruct (a <? MAX_RECONNECT_ATTEMPTS); calm_step.
  - apply calm_handleReconnection.
  - pose proof (calm_connect h None true w) as Hc.
    destruct (connect h None true w) as [[u|err] w']; cbn [snd] in Hc;
      [exact Hc|]. eapply calm_trans; [exact Hc|]. calm_step.
Qed.

Lemma calm_fire (h : Host) (w w' : World) : fire h w = Some w' -> calm w w'.
Proof.
  unfold fire. destruct (next_timer (timers w)) as [t|]; [|discriminate].
  intros H. injection H as <-.
  eapply calm_trans; [|apply calm_run_callback]. calm_step.
Qed.

Lemma promises_below_calm (w w' : World) :
  calm w w' -> promises_below w -> promises_below w'.
Proof.
  intros [(Hp & Hc & Hs) Hn] (Bp & Bc & Bs). unfold promises_below.
  rewrite Hp, Hc, Hn. split; [exact Bp|]. split; [exact Bc|].
  intros p. rewrite Hs. apply Bs.
Qed.

Lemma onMessage_nextPromise (h : Host) (e : MessageEvent) (w : World) :
  nextPromise (snd (onMessage h e w)) = nextPromise w.
Proof.
  unfold onMessage, mbind at 1 2, lift at 1, act at 1.
  destruct (JSON_parse h (data e)) as [d|err]; [|reflexivity].
  assert (Hd : forall w0, nextPromise (snd (dispatch h d w0)) = nextPromise w0).
  { intros w0. unfold dispatch, mbind, lift, read, act, deref, mret.
    destruct (get_index d 0) as [v|err]; [|reflexivity].
    destruct (verb_of v) as [[]|]; [| | | | | | |reflexivity].
    all: destruct (get_index d 1) as [d1|err1]; [|reflexivity].
    - destruct (get_index d 2) as [ev|err2]; [|reflexivity].
      destruct (registry_get (openSubs (conn w0)) d1) as [so|]; [|reflexivity].
      cbn. destruct (matchFilters h (filters so) ev) as [[|]|err3]; reflexivity.
    - destruct (get_index d 2) as [payload|err2]; [|reflexivity].
      destruct (registry_get (openCountRequests (conn w0)) d1) as [p|]; [|reflexivity].
      destruct (get_field payload "count") as [n|err3]; reflexivity.
    - destruct (registry_get (openSubs (conn w0)) d1) as [so|]; reflexivity.
    - destruct (get_index d 2) as [ok|err2]; [|reflexivity].
      destruct (get_index d 3) as [reason|err3]; [|reflexivity].
      destruct (registry_get (openEventPublishes (conn w0)) d1) as [p|]; reflexivity.
    - destruct (registry_get (openSubs (conn w0)) d1) as [so|]; [|reflexivity].
      cbn. destruct (get_index d 2) as [reason|err2]; [|reflexivity].
      cbn. destruct (sub_close h _ _ _); reflexivity.
    - cbn [snd]. unfold onNotice.
      destruct (match includes d1 "oo many" with
                | Ok true => Ok true
                | Ok false => includes d1 "aximum"
                | Throw e => Throw e
                end) as [[|]|err]; cbn -[disconnect]; try reflexivity.
      apply (proj2 (calm_disconnect h w0)).
    - cbn [snd]. unfold onAuthRequested. cbn.
      destruct (_ || _); [destruct (decide _)|]; reflexivity. }
  specialize (Hd (debug "Parsed message" (debug "Message received" w))).
  destruct (dispatch h d _) as [[u|err] w']; exact Hd.
Qed.

Lemma promises_below_onMessage (h : Host) (e : MessageEvent) (w : World) :
  promises_below w -> promises_below (snd (onMessage h e w)).
Proof.
  intros (Bp & Bc & Bs). pose proof (onMessage_nextPromise h e w) as Hn.
  unfold promises_below. rewrite Hn.
  destruct (onMessage_cases h e w) as
    [(A & B & C) | [(i & q & v & Hi & Hc & Hp & Ht)
                   | (i & q & ok & reason & Hok & Hi & Hp & Hc & Ht)]].
  - rewrite A, B. split; [exact Bp|]. split; [exact Bc|].
    intros p. rewrite C. apply Bs.
  - rewrite Hp, Hc, Ht. split; [exact Bp|]. split.
    + intros k p Hk. destruct (decide (k = i)) as [->|Hne].
      * rewrite lookup_delete_eq in Hk. discriminate.
      * rewrite lookup_delete_ne in Hk by congruence. exact (Bc k p Hk).
    + intros p. rewrite settlements_snoc. cbn [settles].
      destruct (Nat.eqb_spec p q) as [Heq|Hne].
      * intros _. rewrite Heq. exact (Bc i q Hi).
      * rewrite app_nil_r. apply Bs.
  - rewrite Hp, Hc, Ht. split; [|split; [exact Bc|]].
    + intros k p Hk. destruct (decide (k = i)) as [->|Hne].
      * rewrite lookup_delete_eq in Hk. discriminate.
      * rewrite lookup_delete_ne in Hk by congruence. exact (Bp k p Hk).
    + intros p. rewrite settlements_snoc.
      assert (Hs : settles p (if truthy ok then Resolve q reason
                              else Reject q (Error reason)) = Nat.eqb p q)
        by (destruct (truthy ok); reflexivity).
      rewrite Hs. clear Hs. destruct (Nat.eqb_spec p q) as [Heq|Hne].
      * intros _. rewrite Heq. exact (Bp i q Hi).
      * rewrite app_nil_r. apply Bs.
Qed.

Lemma promises_below_publish (s : NostrEvent -> string) (ev : NostrEvent)
    (w : World) :
  promises_below w -> promises_below (snd (publish s ev w)).
Proof.
  intros (Bp & Bc & Bs). unfold publish, new_Promise, send.
  cbn -[settlements String.append].
  destruct (_ && _); unfold promises_below; cbn -[settlements String.append].
  all: split; [|split].
  all: try (intros k p Hk; specialize (Bc k p Hk); lia).
  all: try (intros k p Hk; destruct (decide (k = id ev)) as [->|Hne];
            [rewrite lookup_insert_eq in Hk; injection Hk as <-; lia
            |rewrite lookup_insert_ne in Hk by congruence;
             specialize (Bp k p Hk); lia]).
  all: intros p; rewrite settlements_snoc; cbn [settles]; rewrite app_nil_r;
    intros Hp; specialize (Bs p Hp); lia.
Qed.

Lemma promises_below_fresh (w : World) : promises_below w -> promises_fresh w.
Proof.
  intros (Bp & Bc & Bs). split; [split|].
  - intros k Hk. specialize (Bp k _ Hk). lia.
  - intros k Hk. specialize (Bc k _ Hk). lia.
  - destruct (settlements (nextPromise w) (trace w)) eqn:E; [reflexivity|].
    assert (H : (nextPromise w < nextPromise w)%nat)
      by (apply Bs; rewrite E; discriminate).
    lia.
Qed.

(** In every reachable world the next promise handle is unused: what the
    statement about [publish] asks of the world it starts from. *)
Lemma reachable_promises_fresh (h : Host) (w : World) :
  reachable h w -> promises_fresh w.
Proof.
  intros Hr. apply promises_below_fresh.
  induction Hr as [relay ndk0 t0 | w T r _ IH | w _ IH | w _ IH | w _ IH
                  | w e _ IH | w s ev _ IH | w fs i _ IH | w w' _ IH Hf
                  | w dt _ IH].
  - unfold promises_below. cbn.
    split; [|split]; try (intros k p Hk; rewrite lookup_empty in Hk; discriminate).
    intros p Hp. contradiction Hp. reflexivity.
  - exact (promises_below_calm _ _ (calm_connect h T r w) IH).
  - exact (promises_below_calm _ _ (calm_disconnect h w) IH).
  - unfold socket_open. eapply promises_below_calm; [|exact IH].
    eapply calm_trans; [|apply calm_onConnect]. calm_step.
  - unfold socket_close. eapply promises_below_calm; [|exact IH].
    eapply calm_trans; [|apply calm_onDisconnect]. calm_step.
  - exact (promises_below_onMessage h e w IH).
  - exact (promises_below_publish s ev w IH).
  - eapply promises_below_calm; [|exact IH]. unfold prepareSubscription.
    cbn -[settlements]. calm_step.
  - exact (promises_below_calm _ _ (calm_fire h w w' Hf) IH).
  - eapply promises_below_calm; [|exact IH]. calm_step.
Qed.

(** * Properties of the operations beyond the claims *)

(** ** What the operations leave alone *)

Lemma setTimeout_eq (cb : Callback) (d : option Z) (w : World) :
  setTimeout cb d w = (nextTimer w, timer_set cb d w).
Proof. reflexivity. Qed.

Lemma new_Promise_eq (w : World) :
  new_Promise w = (nextPromise w, promise_made w).
Proof. reflexivity. Qed.

(** A property of worlds that the elementary updates respect is kept by
    the operations built from them.  Which updates have to respect it is
    read off each lemma's hypotheses. *)
Section Frame.

Variable P : World -> Prop.

Hypothesis P_debug : forall l w, P w -> P (debug l w).
Hypothesis P_effect : forall e w, is_send e = false -> P w -> P (effect e w).
Hypothesis P_send : forall m w, P w -> P (detached (send m w)).
Hypothesis P_setTimeout : forall cb d w, P w -> P (timer_set cb d w).
Hypothesis P_notice_timer :
  forall w, P w -> P (timer_set CbNoticeConnect (Some 2000) w).
Hypothesis P_clearTimeout : forall i w, P w -> P (clearTimeout i w).
Hypothesis P_new_Promise : forall w, P w -> P (promise_made w).
Hypothesis P_tick :
  forall t ts w, P w ->
    P {| conn := conn w; now := t; timers := ts; nextTimer := nextTimer w;
         nextPromise := nextPromise w; trace := trace w; log := log w |}.
Hypothesis P_ws : forall x w, P w -> P (with_conn (set_ws x) w).
Hypothesis P_status :
  forall x w, x <> CONNECTED -> P w -> P (with_conn (set_status x) w).
Hypothesis P_CONNECTED : forall w, P w -> P (with_conn (set_status CONNECTED) w).
Hypothesis P_timeoutMs :
  forall x w, truthy_num (timeoutMs (conn w)) = false ->
    P w -> P (with_conn (set_timeoutMs x) w).
Hypothesis P_attempt : forall w, P w -> P (stats_attempt w).
Hypothesis P_nextReconnectAt : forall x w, P w -> P (set_nextReconnectAt x w).
Hypothesis P_connected : forall w, P w -> P (stats_connected w).
Hypothesis P_disconnected : forall w, P w -> P (stats_disconnected w).
Hypothesis P_connectTimeout :
  forall x w, P w -> P (with_conn (set_connectTimeout x) w).
Hypothesis P_reconnectTimeout :
  forall x w, P w -> P (with_conn (set_reconnectTimeout x) w).
Hypothesis P_openSubs :
  forall f w, P w -> P (with_conn (fun c => set_openSubs (f c) c) w).
Hypothesis P_openCountRequests :
  forall f w, P w -> P (with_conn (fun c => set_openCountRequests (f c) c) w).
Hypothesis P_openEventPublishes :
  forall f w, P w -> P (with_conn (fun c => set_openEventPublishes (f c) c) w).
Hypothesis P_serial :
  forall w, P w -> P (with_conn (fun c => set_serial (serial c + 1) c) w).

Ltac norm :=
  rewrite ?setTimeout_eq, ?new_Promise_eq;
  cbn -[with_conn debug effect timer_set clearTimeout promise_made
        stats_attempt stats_connected stats_disconnected set_nextReconnectAt
        handleReconnection connect disconnect onNotice onAuthRequested
        dispatch auth send detached isFlapping reconnectDelay String.append
        Z.add Z.mul Z.sub Z.lxor Z.ltb truthy_num truthy_str pretty].

Ltac frame1 :=
  lazymatch goal with
  | H : P ?x |- P ?x => exact H
  | |- P (debug _ _) => apply P_debug
  | |- P (effect _ _) => apply P_effect; [reflexivity|]
  | |- P (detached (send _ _)) => apply P_send
  | |- P (timer_set CbNoticeConnect _ _) => apply P_notice_timer
  | |- P (timer_set _ _ _) => apply P_setTimeout
  | |- P (clearTimeout _ _) => apply P_clearTimeout
  | |- P (promise_made _) => apply P_new_Promise
  | |- P (with_conn (set_ws _) _) => apply P_ws
  | |- P (with_conn (set_status _) _) => apply P_status; [discriminate|]
  | |- P (stats_attempt _) => apply P_attempt
  | |- P (set_nextReconnectAt _ _) => apply P_nextReconnectAt
  | |- P (with_conn (set_connectTimeout _) _) => apply P_connectTimeout
  | |- P (with_conn (set_reconnectTimeout _) _) => apply P_reconnectTimeout
  | |- P (with_conn (fun c => set_openSubs (@?f c) c) _) =>
      apply (P_openSubs f)
  | |- P (with_conn (fun c => set_openCountRequests (@?f c) c) _) =>
      apply (P_openCountRequests f)
  | |- P (with_conn (fun c => set_openEventPublishes (@?f c) c) _) =>
      apply (P_openEventPublishes f)
  end.

Ltac frame := repeat frame1.

Lemma frame_handleReconnection (a : Z) (w : World) :
  P w -> P (handleReconnection a w).
Proof.
  intros H. unfold handleReconnection.
  destruct (reconnectTimeout (conn w)); [exact H|].
  destruct (isFlapping _); norm; unfold emit; frame.
Qed.

Lemma frame_connect (h : Host) (T : option Z) (r : bool) (w : World) :
  P w -> P (snd (connect h T r w)).
Proof.
  intros H. unfold connect.
  set (w1 := match reconnectTimeout (conn w) with Some i => _ | None => w end).
  assert (H1 : P w1).
  { subst w1. destruct (reconnectTimeout (conn w)); frame. }
  clearbody w1.
  set (w2 := match connectTimeout (conn w1) with Some i => _ | None => w1 end).
  assert (H2 : P w2).
  { subst w2. destruct (connectTimeout (conn w1)); frame. }
  clearbody w2. clear H1.
  set (w3 := if _ && _ then _ else w2).
  assert (H3 : P w3).
  { subst w3. destruct (_ && _) eqn:E; [|exact H2].
    apply andb_prop in E as [E _]. apply negb_true_iff in E.
    apply P_timeoutMs; assumption. }
  clearbody w3. clear H2.
  norm.
  destruct (decide _); norm;
    destruct (new_WebSocket h _); norm; frame;
    (destruct r; norm; [apply frame_handleReconnection|unfold emit]; frame).
Qed.

Lemma frame_disconnect (h : Host) (w : World) : P w -> P (disconnect h w).
Proof.
  intros H. unfold disconnect. norm.
  destruct (ws _) as [sock|]; norm; [|frame].
  destruct (WebSocket_close h sock); norm; frame.
Qed.

Lemma frame_onDisconnect (w : World) : P w -> P (onDisconnect w).
Proof.
  intros H. unfold onDisconnect, emit. norm.
  destruct (decide _); norm; frame; [apply frame_handleReconnection; frame|];
    apply P_disconnected; exact H.
Qed.

Lemma frame_onConnect (w : World) : P w -> P (onConnect w).
Proof.
  intros H. unfold onConnect.
  set (w1 := match reconnectTimeout (conn w) with Some i => _ | None => w end).
  assert (H1 : P w1).
  { subst w1. destruct (reconnectTimeout (conn w)); frame. }
  clearbody w1.
  set (w2 := match connectTimeout (conn w1) with Some i => _ | None => w1 end).
  assert (H2 : P w2).
  { subst w2. destruct (connectTimeout (conn w1)); frame. }
  clearbody w2. clear H1.
  norm. unfold emit. frame. apply P_CONNECTED, P_connected, H2.
Qed.

Lemma frame_onNotice (h : Host) (v : Value) (w : World) :
  P w -> P (detached (onNotice h v w)).
Proof.
  intros H. unfold onNotice.
  destruct (match includes v "oo many" with
            | Ok true => Ok true
            | Ok false => includes v "aximum"
            | Throw e => Throw e
            end) as [[|]|err]; cbn [detached]; unfold emit; norm; frame.
  apply frame_disconnect, H.
Qed.

Lemma frame_onAuthRequested (v : Value) (w : World) :
  P w -> P (onAuthRequested v w).
Proof.
  intros H. unfold onAuthRequested, emit. norm.
  destruct (_ || _); [destruct (decide _)|]; norm; frame.
Qed.

Lemma frame_dispatch (h : Host) (d : Value) (w : World) :
  P w -> P (snd (dispatch h d w)).
Proof.
  intros H. unfold dispatch, mbind, lift, read, act, deref, mret.
  destruct (get_index d 0) as [v|err]; [|exact H].
  destruct (verb_of v) as [[]|]; [| | | | | | |exact H].
  all: destruct (get_index d 1) as [d1|err1]; [|exact H].
  - destruct (get_index d 2) as [ev|err2]; [|exact H].
    destruct (registry_get (openSubs (conn w)) d1) as [so|]; [|exact H].
    norm. destruct (matchFilters h (filters so) ev) as [[|]|err3];
      norm; frame.
  - destruct (get_index d 2) as [payload|err2]; [|exact H].
    destruct (registry_get (openCountRequests (conn w)) d1) as [p|]; [|exact H].
    destruct (get_field payload "count") as [n|err3]; norm; frame.
  - destruct (registry_get (openSubs (conn w)) d1) as [so|]; norm; frame.
  - destruct (get_index d 2) as [ok|err2]; [|exact H].
    destruct (get_index d 3) as [reason|err3]; [|exact H].
    destruct (registry_get (openEventPublishes (conn w)) d1) as [p|];
      norm; frame.
    apply P_effect; [destruct (truthy ok); reflexivity|exact H].
  - destruct (registry_get (openSubs (conn w)) d1) as [so|]; [|exact H].
    norm. destruct (get_index d 2) as [reason|err2]; norm; [|frame].
    destruct (sub_close h _ _ _) as [r subs]. norm.
    apply (P_openSubs (fun _ => subs)). frame.
  - apply frame_onNotice, H.
  - apply frame_onAuthRequested, H.
Qed.

Lemma frame_onMessage (h : Host) (e : MessageEvent) (w : World) :
  P w -> P (snd (onMessage h e w)).
Proof.
  intros H. unfold onMessage, mbind at 1 2, lift at 1, act at 1.
  destruct (JSON_parse h (data e)) as [d|err]; [|norm; frame].
  assert (H0 : P (debug "Parsed message" (debug "Message received" w)))
    by frame.
  pose proof (frame_dispatch h d _ H0) as Hd.
  destruct (dispatch h d _) as [[u|err] w']; norm; frame.
Qed.

Lemma frame_publish (s : NostrEvent -> string) (ev : NostrEvent) (w : World) :
  P w -> P (snd (publish s ev w)).
Proof. intros H. unfold publish. norm. frame. Qed.

Lemma frame_auth (s : NostrEvent -> string) (ev : NostrEvent) (w : World) :
  P w -> P (snd (auth s ev w)).
Proof. intros H. unfold auth. norm. frame. Qed.

Lemma frame_prepareSubscription (fs : list Value) (i : option string)
    (w : World) :
  P w -> P (snd (prepareSubscription fs i w)).
Proof.
  intros H. unfold prepareSubscription. norm.
  apply (P_openSubs (fun c => <[_ := _]> (openSubs c))), P_serial, H.
Qed.

Lemma frame_count (s : list Value -> string) (fs : list Value)
    (i : option string) (w : World) :
  P w -> P (snd (count s fs i w)).
Proof.
  intros H. unfold count. norm. frame. apply P_serial, H.
Qed.

Lemma frame_signed (s : NostrEvent -> string) (r : Result NostrEvent)
    (w : World) :
  P w -> P (snd (signed s r w)).
Proof.
  intros H. destruct r as [ev|e]; [|exact H]. unfold signed.
  pose proof (frame_auth s ev w H) as Ha.
  destruct (auth s ev w) as [p w']. exact Ha.
Qed.

Lemma frame_run_callback (h : Host) (cb : Callback) (w : World) :
  P w -> P (run_callback h cb w).
Proof.
  intros H. destruct cb as [b|a|a|]; cbn [run_callback].
  - unfold onConnectionError. destruct b; [apply frame_handleReconnection|];
      frame.
  - unfold reconnect_fire.
    assert (H0 : P (with_conn (set_status RECONNECTING)
                      (with_conn (set_reconnectTimeout None) w))) by frame.
    pose proof (frame_connect h None true _ H0) as Hc.
    destruct (connect h None true _) as [[u|err] w']; cbn [snd] in Hc;
      [frame|]. destruct (a <? MAX_RECONNECT_ATTEMPTS); norm; frame.
  - apply frame_handleReconnection, H.
  - pose proof (frame_connect h None true w H) as Hc.
    destruct (connect h None true w) as [[u|err] w']; cbn [snd detached] in *;
      frame.
Qed.

Lemma frame_fire (h : Host) (w : World) : P w -> P (default w (fire h w)).
Proof.
  intros H. unfold fire. destruct (next_timer (timers w)) as [t|]; [|exact H].
  cbn [default]. apply frame_run_callback, P_tick, H.
Qed.

Lemma frame_policy_returned (s : NostrEvent -> string) (k : Z) (c : Value)
    (res : PolicyResult) (w : World) :
  P w -> P (snd (policy_returned s k c res w)).
Proof.
  intros H. unfold policy_returned. destruct res as [ev| |]; [| |norm; frame].
  - assert (H0 : P (debug "Authentication policy returned" w)) by frame.
    pose proof (frame_auth s ev _ H0) as Ha.
    destruct (auth s ev _) as [p w']. exact Ha.
  - destruct (negb _); [norm; frame|]. destruct (decide _); norm; frame.
    unfold authed, emit. frame. apply P_CONNECTED. frame.
Qed.

Lemma frame_auth_settled (r : Result Value) (w : World) :
  P w -> P (snd (auth_settled r w)).
Proof.
  intros H. destruct r as [v|e]; [|exact H]. norm. unfold authed, emit.
  frame. apply P_CONNECTED, H.
Qed.

Lemma frame_plain_op (h : Host) (o : Op) (w : World) :
  plain_op o = true -> P w -> P (apply_op h o w).
Proof.
  intros Ho H. destruct o; try discriminate Ho; cbn [apply_op].
  - apply frame_connect, H.
  - apply frame_disconnect, H.
  - apply P_debug, H.
  - apply frame_onMessage, H.
  - apply frame_publish, H.
  - apply frame_signed, H.
  - apply frame_fire, H.
  - apply (P_tick (now w + Z.of_nat dt) (timers w)), H.
Qed.

Lemma frame_apply_op (h : Host) (o : Op) (w : World) :
  P w -> P (apply_op h o w).
Proof.
  intros H. destruct (plain_op o) eqn:Hp; [apply frame_plain_op; assumption|].
  destruct o; try discriminate Hp; cbn [apply_op].
  - unfold socket_open. apply frame_onConnect. frame.
  - unfold socket_close. apply frame_onDisconnect. frame.
  - apply frame_prepareSubscription, H.
  - apply frame_count, H.
  - apply frame_policy_returned, H.
  - apply frame_auth_settled, H.
Qed.

Lemma frame_run_ops (h : Host) (ops : list Op) (w : World) :
  P w -> P (run_ops h ops w).
Proof.
  revert w. induction ops as [|o ops IH]; intros w H; [exact H|].
  cbn [run_ops fold_left]. apply IH, frame_apply_op, H.
Qed.

End Frame.

(** ** Recorded session durations *)

Lemma conn_detached_send (m : string) (w : World) :
  conn (detached (send m w)) = conn w.
Proof. unfold send. destruct (_ && _); reflexivity. Qed.

Ltac by_conn :=
  intros; unfold durations_of, opened_at in *;
  rewrite ?conn_detached_send; assumption.

Lemma sessions_apply_op (h : Host) (o : Op) (w : World) :
  socket_op o = false ->
  durations_of (apply_op h o w) = durations_of w /\
  opened_at (apply_op h o w) = opened_at w.
Proof.
  intros Ho.
  pose (P := fun w' : World =>
    durations_of w' = durations_of w /\ opened_at w' = opened_at w).
  assert (H0 : P w) by (split; reflexivity).
  change (P (apply_op h o w)).
  destruct (plain_op o) eqn:Hp.
  - apply frame_plain_op; try assumption; subst P; by_conn.
  - destruct o; try discriminate; cbn [apply_op].
    + apply frame_prepareSubscription; try assumption; subst P; by_conn.
    + apply frame_count; try assumption; subst P; by_conn.
    + apply frame_policy_returned; try assumption; subst P; by_conn.
    + apply frame_auth_settled; try assumption; subst P; by_conn.
Qed.

Lemma sessions_run_ops (h : Host) (ops : list Op) (w : World) :
  no_socket_event ops = true ->
  durations_of (run_ops h ops w) = durations_of w /\
  opened_at (run_ops h ops w) = opened_at w.
Proof.
  revert w. induction ops as [|o ops IH]; intros w Hops; [split; reflexivity|].
  cbn in Hops. apply andb_prop in Hops as [Ho Hops].
  apply negb_true_iff in Ho. cbn [run_ops fold_left].
  destruct (IH (apply_op h o w) Hops) as [H1 H2].
  destruct (sessions_apply_op h o w Ho) as [H3 H4].
  unfold run_ops in *. split; congruence.
Qed.

Lemma socket_open_sessions (w : World) :
  durations_of (socket_open w) = durations_of w /\
  opened_at (socket_open w) = Some (now w).
Proof.
  unfold socket_open, onConnect, durations_of, opened_at.
  destruct (reconnectTimeout _); cbn; destruct (connectTimeout _);
    split; reflexivity.
Qed.

Lemma handleReconnection_sessions (a : Z) (w : World) :
  durations_of (handleReconnection a w) = durations_of w /\
  opened_at (handleReconnection a w) = opened_at w.
Proof.
  pose (P := fun w' : World =>
    durations_of w' = durations_of w /\ opened_at w' = opened_at w).
  change (P (handleReconnection a w)).
  apply frame_handleReconnection; try (split; reflexivity); subst P; by_conn.
Qed.

Lemma socket_close_sessions (w : World) :
  durations_of (socket_close w)
    = match opened_at w with
      | Some t => if truthy_num (Some t)
                  then push_duration (now w - t) (durations_of w)
                  else durations_of w
      | None => durations_of w
      end /\
  opened_at (socket_close w) = None.
Proof.
  unfold socket_close, onDisconnect, durations_of, opened_at.
  destruct (decide _); cbn -[handleReconnection truthy_num push_duration];
    [|split; reflexivity].
  match goal with
  | |- context [handleReconnection 0 ?x] =>
      destruct (handleReconnection_sessions 0 x) as [H1 H2]
  end.
  unfold durations_of, opened_at in *. rewrite H1, H2.
  split; reflexivity.
Qed.

Lemma push_duration_length (d : Z) (ds : list Z) :
  (length ds <= 100)%nat ->
  (length (push_duration d ds) <= 100)%nat /\
  (length ds <= length (push_duration d ds))%nat.
Proof.
  intros H. unfold push_duration.
  destruct (100 <? Z.of_nat (length (ds ++ [d]))) eqn:E.
  - apply Z.ltb_lt in E. rewrite length_app in E. cbn in E.
    destruct ds as [|x ds]; cbn in *; [lia|].
    rewrite length_app. cbn. lia.
  - apply Z.ltb_ge in E. rewrite length_app in *. cbn in *. lia.
Qed.

Lemma durations_apply_op (h : Host) (o : Op) (w : World) :
  (length (durations_of w) <= 100)%nat ->
  (length (durations_of (apply_op h o w)) <= 100)%nat /\
  (length (durations_of w) <= length (durations_of (apply_op h o w)))%nat.
Proof.
  intros H. destruct (socket_op o) eqn:Ho.
  - destruct o; try discriminate Ho; cbn [apply_op].
    + destruct (socket_open_sessions w) as [-> _]. lia.
    + destruct (socket_close_sessions w) as [-> _].
      destruct (opened_at w) as [t|]; [|lia].
      destruct (truthy_num (Some t)); [|lia].
      apply push_duration_length, H.
  - destruct (sessions_apply_op h o w Ho) as [-> _]. lia.
Qed.

Lemma durations_run_ops (h : Host) (ops : list Op) (w : World) :
  (length (durations_of w) <= 100)%nat ->
  (length (durations_of (run_ops h ops w)) <= 100)%nat /\
  (length (durations_of w) <= length (durations_of (run_ops h ops w)))%nat.
Proof.
  revert w. induction ops as [|o ops IH]; intros w H;
    [cbn [run_ops fold_left]; lia|].
  cbn [run_ops fold_left].
  destruct (durations_apply_op h o w H) as [H1 H2].
  destruct (IH _ H1) as [H3 H4]. unfold run_ops in *. lia.
Qed.

(** X3.  The list of session durations never holds more than 100 entries,
    whatever a new connection goes through: method calls, socket events,
    inbound messages, authentication, timers. *)
Theorem durations_bounded (h : Host) (relay : NDKRelay) (ndk0 : option NDK)
    (t0 : Z) (ops : list Op) :
  (length (durations_of (run_ops h ops (fresh_world relay ndk0 t0))) <= 100)%nat.
Proof.
  apply (durations_run_ops h ops (fresh_world relay ndk0 t0)). cbn. lia.
Qed.

(** X4.  Once 100 session durations are recorded the list stays at 100
    entries, and as 100 is no multiple of 3 the flap detector answers
    [false] from then on: flapping is never reported again. *)
Theorem isFlapping_off_after_100 (h : Host) (ops : list Op) (w : World) :
  length (durations_of w) = 100%nat ->
  length (durations_of (run_ops h ops w)) = 100%nat /\
  isFlapping (durations_of (run_ops h ops w)) = false.
Proof.
  intros H.
  assert (H1 : length (durations_of (run_ops h ops w)) = 100%nat).
  { destruct (durations_run_ops h ops w) as [H1 H2]; lia. }
  split; [exact H1|]. unfold isFlapping. rewrite H1. reflexivity.
Qed.

Lemma isFlapping_off_after_100_witness :
  length (durations_of hundred_sessions) = 100%nat /\
  isFlapping
    (durations_of
       (run_ops sample_host [OpConnect None true; OpOpen; OpWait 7; OpClose]
          hundred_sessions)) = false.
Proof.
  split; [reflexivity|].
  apply (isFlapping_off_after_100 sample_host
           [OpConnect None true; OpOpen; OpWait 7; OpClose] hundred_sessions).
  reflexivity.
Defined.

(** X5.  A session's length is what gets recorded: when the socket opens at
    an instant other than 0 and closes after any steps that are not socket
    events, the time between the two events is appended to the durations
    (dropping the oldest beyond 100), and the session is over. *)
Theorem session_duration_recorded (h : Host) (ops : list Op) (w : World) :
  now w <> 0 ->
  no_socket_event ops = true ->
  let w1 := run_ops h ops (socket_open w) in
  durations_of (socket_close w1)
    = push_duration (now w1 - now w) (durations_of w) /\
  opened_at (socket_close w1) = None.
Proof.
  intros Hnow Hops w1.
  destruct (sessions_run_ops h ops (socket_open w) Hops) as [H1 H2].
  destruct (socket_open_sessions w) as [H3 H4].
  destruct (socket_close_sessions w1) as [H5 H6].
  split; [|exact H6]. rewrite H5. subst w1. rewrite H2, H4, H1, H3.
  unfold truthy_num. destruct (Z.eqb_spec (now w) 0); [contradiction|].
  reflexivity.
Qed.

Lemma session_duration_recorded_witness :
  durations_of
    (socket_close
       (run_ops sample_host [OpWait 700; OpError]
          (socket_open
             (snd (connect sample_host None true
                     (fresh_world sample_relay None 5))))))
    = [700].
Proof.
  refine (proj1 (session_duration_recorded sample_host [OpWait 700; OpError]
            (snd (connect sample_host None true
                    (fresh_world sample_relay None 5))) _ _));
    [vm_compute; discriminate | reflexivity].
Defined.

(** ** Who makes the connection available *)

Lemma sent_snoc (tr : list Effect) (e : Effect) :
  is_send e = false -> sent (tr ++ [e]) = sent tr.
Proof.
  intros H. unfold sent. rewrite List.filter_app. cbn. rewrite H.
  apply app_nil_r.
Qed.

Lemma send_not_connected (m : string) (w : World) :
  _status (conn w) <> CONNECTED ->
  send m w = (Throw closed_relay, debug "Not connected, not sending message" w).
Proof.
  intros H. unfold send.
  destruct (bool_decide_reflect (_status (conn w) = CONNECTED)) as [E|_];
    [contradiction|reflexivity].
Qed.

Ltac by_silent :=
  unfold silent;
  first
    [ intros m w' [Hs Ht]; rewrite (send_not_connected m w' Hs); cbn; split;
        [exact Hs | rewrite sent_snoc; [exact Ht | reflexivity]]
    | intros e w' He [Hs Ht]; cbn; split;
        [exact Hs | rewrite sent_snoc; [exact Ht | exact He]]
    | intros x w' Hx [Hs Ht]; cbn; split; [exact Hx | exact Ht]
    | intros; assumption ].

Lemma silent_apply_op (h : Host) (l : list Effect) (o : Op) (w : World) :
  connecting_op o = false -> silent l w -> silent l (apply_op h o w).
Proof.
  intros Ho H0.
  destruct (plain_op o) eqn:Hp.
  - apply frame_plain_op; try assumption; by_silent.
  - destruct o; try discriminate; cbn [apply_op].
    + unfold socket_close.
      apply frame_onDisconnect; first [exact H0 | by_silent].
    + apply frame_prepareSubscription; try assumption; by_silent.
    + apply frame_count; try assumption; by_silent.
Qed.

Lemma silent_run_ops (h : Host) (l : list Effect) (ops : list Op) (w : World) :
  never_connecting ops = true -> silent l w -> silent l (run_ops h ops w).
Proof.
  revert w. induction ops as [|o ops IH]; intros w Hops H; [exact H|].
  cbn in Hops. apply andb_prop in Hops as [Ho Hops].
  apply negb_true_iff in Ho. cbn [run_ops fold_left].
  apply IH; [exact Hops|]. apply silent_apply_op; assumption.
Qed.

(** X6.  Only the socket's [open] event (or the end of an authentication)
    makes the connection available: from a status other than [CONNECTED],
    no sequence of method calls, [close] events, inbound messages, timers
    or waiting gets it to [CONNECTED]; all along nothing is handed to the
    socket, and [send] throws. *)
Theorem available_only_after_open (h : Host) (ops : list Op) (w : World) :
  never_connecting ops = true ->
  _status (conn w) <> CONNECTED ->
  let w' := run_ops h ops w in
  isAvailable w' = false /\
  sent (trace w') = sent (trace w) /\
  forall m, fst (send m w') = Throw closed_relay.
Proof.
  intros Hops Hs w'.
  destruct (silent_run_ops h (sent (trace w)) ops w Hops) as [H1 H2];
    [split; [exact Hs|reflexivity]|].
  fold w' in H1, H2. split; [|split; [exact H2|]].
  - unfold isAvailable. apply bool_decide_eq_false. exact H1.
  - intros m. rewrite (send_not_connected m w' H1). reflexivity.
Qed.

Lemma available_only_after_open_witness :
  isAvailable
    (run_ops sample_host
       [OpConnect (Some 3000) true; OpPublish (fun _ => "{}") event_E;
        OpFire; OpClose; OpFire]
       (fresh_world sample_relay None 0)) = false.
Proof.
  refine (proj1 (available_only_after_open sample_host
            [OpConnect (Some 3000) true; OpPublish (fun _ => "{}") event_E;
             OpFire; OpClose; OpFire]
            (fresh_world sample_relay None 0) _ _));
    [reflexivity | discriminate].
Defined.

(** ** Answering an [AUTH] challenge *)


Lemma silent_auth (s : NostrEvent -> string) (ev : NostrEvent)
    (l : list Effect) (w : World) :
  silent l w -> silent l (snd (auth s ev w)).
Proof. intros H. apply frame_auth; try assumption; by_silent. Qed.

Lemma silent_signed (s : NostrEvent -> string) (r : Result NostrEvent)
    (l : list Effect) (w : World) :
  silent l w -> silent l (snd (signed s r w)).
Proof. intros H. apply frame_signed; try assumption; by_silent. Qed.

(** X7.  The reply to an [AUTH] challenge never reaches the relay.  Once
    [onAuthRequested] has called the policy (status [AUTHENTICATING]),
    whatever the policy resolves with, however [event.sign()] settles, and
    whatever happens in between short of a socket [open] event or another
    authentication, [auth] finds a status other than [CONNECTED], so [send]
    throws: nothing is handed to the socket. *)
Theorem auth_reply_never_sent (h : Host) (s : NostrEvent -> string) (k : Z)
    (c : Value) (res : PolicyResult) (r : Result NostrEvent)
    (ops1 ops2 : list Op) (w : World) :
  _status (conn w) = AUTHENTICATING ->
  never_connecting ops1 = true ->
  never_connecting ops2 = true ->
  sent (trace (snd (auth_flow h s k c res r ops1 ops2 w))) = sent (trace w).
Proof.
  intros Hs H1 H2.
  assert (H0 : silent (sent (trace w)) w).
  { split; [rewrite Hs; discriminate|reflexivity]. }
  apply (silent_run_ops h _ ops1 w H1) in H0.
  unfold auth_flow, policy_returned.
  set (w1 := run_ops h ops1 w) in *. clearbody w1.
  assert (H3 : silent (sent (trace w)) (debug "Authentication policy returned" w1)).
  { exact H0. }
  assert (H4 : silent (sent (trace w))
                 (debug "Authentication policy finished"
                    (debug "Authentication policy returned" w1))).
  { exact H0. }
  destruct res as [ev| |].
  - pose proof (silent_auth s ev _ _ H3) as Ha.
    destruct (auth s ev _) as [p w']. exact (proj2 Ha).
  - destruct (negb _); [exact (proj2 H3)|].
    destruct (decide _).
    + cbn [fst snd].
      apply (proj2 (silent_signed s r _ _
                      (silent_run_ops h _ ops2 _ H2 H4))).
    + cbn. rewrite sent_snoc; [exact (proj2 H3)|reflexivity].
  - exact (proj2 H3).
Qed.

Lemma challenged_world_status : _status (conn challenged_world) = AUTHENTICATING.
Proof. reflexivity. Qed.

Lemma auth_reply_never_sent_witness :
  connected_open policy_world /\
  sent (trace (snd (auth_flow sample_host (fun _ => "{}") 22242 (VStr "c7")
                      (PolicyEvent auth_event) (Ok auth_event) [] []
                      challenged_world))) = [].
Proof.
  split; [split; [reflexivity | eexists; split; reflexivity]|].
  exact (auth_reply_never_sent sample_host (fun _ => "{}") 22242 (VStr "c7")
           (PolicyEvent auth_event) (Ok auth_event) [] [] challenged_world
           challenged_world_status eq_refl eq_refl).
Defined.



(** ** Counting *)

Lemma Value_eqb_VStr (v : Value) (k : string) :
  Value_eqb v (VStr k) = true <-> v = VStr k.
Proof.
  destruct v; cbn; try (split; [discriminate|discriminate]).
  rewrite String.eqb_eq. split; [intros ->; reflexivity|congruence].
Qed.

(** [count] registers a new promise under its id, and invokes no resolver. *)
Lemma count_registers (s : list Value -> string) (fs : list Value)
    (i : option string) (w : World) :
  promises_fresh w ->
  fst (count s fs i w) = nextPromise w /\
  pending_count (nextPromise w) (count_id i w) (snd (count s fs i w)) /\
  settlements (nextPromise w) (trace (snd (count s fs i w))) = [] /\
  serial (conn (snd (count s fs i w))) = serial (conn w) + 1.
Proof.
  intros ((Hpub & Hcount) & Htrace).
  unfold count, count_id, new_Promise, send.
  cbn -[settlements String.append pretty truthy_str Z.add].
  destruct (_ && _); cbn -[settlements String.append pretty truthy_str Z.add].
  all: split; [reflexivity|]; split; [|split; [|reflexivity]].
  all: try (rewrite settlements_snoc, Htrace; reflexivity).
  all: unfold pending_count; cbn -[String.append pretty truthy_str Z.add];
    (split; [apply lookup_insert_eq|]); (split; [|exact Hpub]);
    intros k' Hk'; rewrite lookup_insert_ne by congruence; apply Hcount.
Qed.

(** A frame that is not a [COUNT] for [k] leaves the entry under [k] of the
    registry of counts as it is. *)
Lemma dispatch_count_key (h : Host) (d : Value) (k : string) (w : World) :
  count_data_for d k = false ->
  openCountRequests (conn (snd (dispatch h d w))) !! k
    = openCountRequests (conn w) !! k.
Proof.
  intros Hk.
  pose (P := fun w' : World =>
    openCountRequests (conn w') !! k = openCountRequests (conn w) !! k).
  change (P (snd (dispatch h d w))).
  unfold dispatch, mbind, lift, read, act, deref, mret.
  unfold count_data_for in Hk.
  destruct (get_index d 0) as [v|err]; [|reflexivity].
  destruct (verb_of v) as [[]|]; try reflexivity.
  all: destruct (get_index d 1) as [d1|err1]; [|reflexivity].
  - destruct (get_index d 2) as [ev|err2]; [|reflexivity].
    destruct (registry_get (openSubs (conn w)) d1) as [so|]; [|reflexivity].
    cbn. destruct (matchFilters h (filters so) ev) as [[|]|err3];
      reflexivity.
  - destruct (get_index d 2) as [payload|err2]; [|reflexivity].
    destruct (registry_get (openCountRequests (conn w)) d1) as [p|];
      [|reflexivity].
    destruct (get_field payload "count") as [n|err3]; [|reflexivity].
    subst P. cbn. destruct d1; try reflexivity. cbn in Hk |- *.
    apply lookup_delete_ne. intros ->. rewrite String.eqb_refl in Hk.
    discriminate.
  - destruct (registry_get (openSubs (conn w)) d1) as [so|]; reflexivity.
  - destruct (get_index d 2) as [ok|err2]; [|reflexivity].
    destruct (get_index d 3) as [reason|err3]; [|reflexivity].
    destruct (registry_get (openEventPublishes (conn w)) d1) as [p|];
      reflexivity.
  - destruct (registry_get (openSubs (conn w)) d1) as [so|]; [|reflexivity].
    cbn. destruct (get_index d 2) as [reason|err2]; [|reflexivity].
      cbn. destruct (sub_close h _ _ _); reflexivity.
  - apply (frame_onNotice P); subst P; try reflexivity; intros; assumption.
  - apply (frame_onAuthRequested P); subst P; try reflexivity; intros;
      assumption.
Qed.

Lemma onMessage_count_key (h : Host) (e : MessageEvent) (k : string)
    (w : World) :
  count_frame_for h k e = false ->
  openCountRequests (conn (snd (onMessage h e w))) !! k
    = openCountRequests (conn w) !! k.
Proof.
  unfold count_frame_for, onMessage, mbind at 1 2, lift at 1, act at 1.
  destruct (JSON_parse h (data e)) as [d|err]; [|reflexivity].
  intros Hk.
  pose proof (dispatch_count_key h d k
                (debug "Parsed message" (debug "Message received" w)) Hk) as Hd.
  destruct (dispatch h d _) as [[u|err] w']; exact Hd.
Qed.

(** A frame that is not a [COUNT] for [k] leaves the promise pending under
    [k] pending, and its resolver alone. *)
Lemma onMessage_pending_count (h : Host) (e : MessageEvent) (p : PromiseId)
    (k : string) (w : World) :
  pending_count p k w ->
  count_frame_for h k e = false ->
  pending_count p k (snd (onMessage h e w)) /\
  settlements p (trace (snd (onMessage h e w))) = settlements p (trace w).
Proof.
  intros (Hk & Hother & Hpub) Hf.
  pose proof (onMessage_count_key h e k w Hf) as Hkey.
  destruct (onMessage_cases h e w)
    as [(Hp & Hc & Ht) | [(i & q & v & Hi & Hc & Hp & Ht)
                         | (i & q & ok & reason & _ & Hi & Hp & Hc & Ht)]].
  - split; [|apply Ht]. unfold pending_count. rewrite Hp, Hc.
    split; [exact Hk|]. split; assumption.
  - assert (Hik : i <> k).
    { intros ->. rewrite Hc, lookup_delete_eq, Hk in Hkey. discriminate. }
    assert (Hq : p <> q).
    { intros ->. apply (Hother i Hik). exact Hi. }
    split.
    + unfold pending_count. rewrite Hp, Hc.
      split; [rewrite lookup_delete_ne by exact Hik; exact Hk|].
      split; [|exact Hpub]. intros k' Hk'.
      destruct (decide (k' = i)) as [->|Hne].
      * rewrite lookup_delete_eq. discriminate.
      * rewrite lookup_delete_ne by congruence. apply Hother, Hk'.
    + rewrite Ht, settlements_snoc. cbn.
      destruct (Nat.eqb_spec p q); [contradiction|]. apply app_nil_r.
  - assert (Hq : p <> q).
    { intros ->. apply (Hpub i). exact Hi. }
    split.
    + unfold pending_count. rewrite Hp, Hc.
      split; [exact Hk|]. split; [exact Hother|]. intros k'.
      destruct (decide (k' = i)) as [->|Hne].
      * rewrite lookup_delete_eq. discriminate.
      * rewrite lookup_delete_ne by congruence. apply Hpub.
    + rewrite Ht. apply settlements_other. exact Hq.
Qed.

Lemma onMessages_pending_count (h : Host) (es : list MessageEvent)
    (p : PromiseId) (k : string) (w : World) :
  pending_count p k w ->
  forallb (fun e => negb (count_frame_for h k e)) es = true ->
  pending_count p k (onMessages h es w) /\
  settlements p (trace (onMessages h es w)) = settlements p (trace w).
Proof.
  revert w. induction es as [|e es IH]; intros w Hp Hes;
    [split; [exact Hp | reflexivity]|].
  cbn in Hes. apply andb_prop in Hes as [He Hes]. apply negb_true_iff in He.
  destruct (onMessage_pending_count h e p k w Hp He) as [Hp' Hs'].
  destruct (IH _ Hp' Hes) as [Hp'' Hs''].
  unfold onMessages in *. cbn [fold_left]. split; [exact Hp''|]. congruence.
Qed.

(** What a [COUNT] frame for a pending count does, by its payload. *)
Lemma onMessage_COUNT_pending (h : Host) (e : MessageEvent) (p : PromiseId)
    (k : string) (l : list Value) (w : World) :
  pending_count p k w ->
  JSON_parse h (data e) = Ok (VArr (VStr "COUNT" :: VStr k :: l)) ->
  match get_field (default VUndefined (l !! 0%nat)) "count" with
  | Ok n =>
      trace (snd (onMessage h e w)) = trace w ++ [Resolve p n] /\
      openCountRequests (conn (snd (onMessage h e w))) !! k = None /\
      unregistered p (snd (onMessage h e w))
  | Throw _ =>
      snd (onMessage h e w) =
        debug "Error parsing message"
          (debug "Parsed message" (debug "Message received" w))
  end.
Proof.
  intros (Hk & Hother & Hpub) Hparse.
  unfold onMessage, mbind at 1 2, lift at 1, act at 1. rewrite Hparse.
  unfold dispatch, mbind, lift, read, act, deref, mret. cbn [get_index].
  change (default VUndefined ((VStr "COUNT" :: VStr k :: l) !! 0%nat))
    with (VStr "COUNT").
  change (verb_of (VStr "COUNT")) with (Some V_COUNT). cbn iota.
  change (default VUndefined ((VStr "COUNT" :: VStr k :: l) !! 1%nat))
    with (VStr k).
  change ((VStr "COUNT" :: VStr k :: l) !! 2%nat) with (l !! 0%nat).
  cbn [registry_get conn debug]. rewrite Hk.
  destruct (get_field _ "count") as [n|err]; [|reflexivity].
  unfold unregistered. cbn -[settlements].
  split; [reflexivity|]. split; [apply lookup_delete_eq|].
  split; [exact Hpub|].
  intros k'. destruct (decide (k' = k)) as [->|Hne].
  - rewrite lookup_delete_eq. discriminate.
  - rewrite lookup_delete_ne by congruence. apply Hother. exact Hne.
Qed.

(** X9.  [count(filters, params)] registers a promise under its id (the
    one given, or ["count:" + serial]).  Frames that are not a [COUNT] for
    that id leave it pending.  The first [COUNT] frame for the id whose
    payload can be read resolves the promise once with the payload's [count]
    field and removes the entry; whatever frames follow, and so also a second
    [COUNT] for the same id, resolve it no more. *)
Theorem count_reply_resolves_once (h : Host) (s : list Value -> string)
    (fs : list Value) (i : option string) (w : World)
    (before after : list MessageEvent) (e_count : MessageEvent)
    (payload n : Value) (rest : list Value)
    (Hfresh : promises_fresh w)
    (Hbefore : forallb (fun e => negb (count_frame_for h (count_id i w) e))
                 before = true)
    (Hparse : JSON_parse h (data e_count) =
              Ok (VArr (VStr "COUNT" :: VStr (count_id i w) :: payload :: rest)))
    (Hn : get_field payload "count" = Ok n) :
  let p := fst (count s fs i w) in
  let w1 := snd (count s fs i w) in
  let w2 := onMessages h before w1 in
  let w3 := snd (onMessage h e_count w2) in
  openCountRequests (conn w1) !! count_id i w = Some p /\
  openCountRequests (conn w2) !! count_id i w = Some p /\
  settlements p (trace w2) = [] /\
  settlements p (trace w3) = [Resolve p n] /\
  openCountRequests (conn w3) !! count_id i w = None /\
  settlements p (trace (onMessages h after w3)) = [Resolve p n].
Proof.
  intros p w1 w2 w3.
  destruct (count_registers s fs i w Hfresh) as (Hp & Hpend & Hnone & _).
  fold p in Hp. fold w1 in Hpend, Hnone. rewrite <- Hp in Hpend, Hnone.
  destruct (onMessages_pending_count h before p _ w1 Hpend Hbefore)
    as [Hpend2 Hs2].
  fold w2 in Hpend2, Hs2.
  pose proof (onMessage_COUNT_pending h e_count p _ (payload :: rest) w2
                Hpend2 Hparse) as H3.
  change (get_field (default VUndefined ((payload :: rest) !! 0%nat)) "count")
    with (get_field payload "count") in H3.
  rewrite Hn in H3.
  fold w3 in H3. destruct H3 as (Ht3 & Hgone & Hunreg).
  destruct (onMessages_unregistered h after p w3 Hunreg) as [_ Hafter].
  assert (Hs3 : settlements p (trace w3) = [Resolve p n]).
  { rewrite Ht3, settlements_snoc, Hs2, Hnone. cbn.
    rewrite Nat.eqb_refl. reflexivity. }
  split; [apply Hpend|]. split; [apply Hpend2|].
  split; [congruence|]. split; [exact Hs3|]. split; [exact Hgone|].
  rewrite Hafter. exact Hs3.
Qed.

Lemma count_reply_resolves_once_witness :
  let p := fst (count (fun _ => "[{}]") [VObj []] None connected_world) in
  let w1 := snd (count (fun _ => "[{}]") [VObj []] None connected_world) in
  let w3 := snd (onMessage count_host {| data := "count" |}
                   (onMessages count_host [] w1)) in
  sent (trace w1)
    = [WsSend ("[" +:+ dq +:+ "COUNT" +:+ dq +:+ "," +:+
               dq +:+ "count:1" +:+ dq +:+ ",{}]")] /\
  settlements p
    (trace (onMessages count_host
              [{| data := "eose" |}; {| data := "count" |}] w3))
    = [Resolve p (VNum 42)].
Proof.
  split; [reflexivity|].
  exact (proj2 (proj2 (proj2 (proj2 (proj2
    (count_reply_resolves_once count_host (fun _ => "[{}]") [VObj []]
       None connected_world []
       [{| data := "eose" |}; {| data := "count" |}]
       {| data := "count" |} (VObj [("count", VNum 42)]) (VNum 42) []
       connected_world_fresh eq_refl eq_refl eq_refl)))))).
Defined.

(** X10.  A [COUNT] frame for a pending count whose payload is missing or
    [null] settles nothing: reading [payload.count] throws inside the [try],
    so only the debug log grows, and the request stays registered under its
    id, waiting. *)
Theorem count_reply_without_payload (h : Host) (e : MessageEvent)
    (p : PromiseId) (k : string) (l : list Value) (w : World) :
  pending_count p k w ->
  JSON_parse h (data e) = Ok (VArr (VStr "COUNT" :: VStr k :: l)) ->
  (l = [] \/ exists rest, l = VNull :: rest \/ l = VUndefined :: rest) ->
  let w' := snd (onMessage h e w) in
  same_but_log w w' /\
  pending_count p k w' /\
  log w' = log w ++ [(now w, "Message received"); (now w, "Parsed message");
                     (now w, "Error parsing message")].
Proof.
  intros Hpend Hparse Hl w'.
  pose proof (onMessage_COUNT_pending h e p k l w Hpend Hparse) as H.
  assert (Hthrow : exists err,
             get_field (default VUndefined (l !! 0%nat)) "count" = Throw err).
  { destruct Hl as [->|[rest [->| ->]]]; eexists; reflexivity. }
  destruct Hthrow as [err Herr]. rewrite Herr in H. fold w' in H.
  rewrite H. split; [repeat split; reflexivity|]. split; [exact Hpend|].
  cbn. rewrite <- !app_assoc. reflexivity.
Qed.

Lemma count_reply_without_payload_witness :
  let w1 := snd (count (fun _ => "[{}]") [VObj []] None connected_world) in
  let w2 := snd (onMessage count_host {| data := "bare" |} w1) in
  pending_count 0%nat "count:1" w2 /\
  settlements 0%nat
    (trace (snd (onMessage count_host {| data := "count" |} w2)))
    = [Resolve 0%nat (VNum 42)].
Proof.
  split; [|reflexivity].
  exact (proj1 (proj2
    (count_reply_without_payload count_host {| data := "bare" |} 0%nat
       "count:1" [] _
       (proj1 (proj2 (count_registers (fun _ => "[{}]") [VObj []] None
                        connected_world connected_world_fresh)))
       eq_refl (or_introl eq_refl)))).
Defined.

(** ** Identifiers minted from the serial *)

Lemma serial_apply_op (h : Host) (o : Op) (w : World) :
  serial (conn w) <= serial (conn (apply_op h o w)).
Proof.
  pose (P := fun w' : World => serial (conn w') = serial (conn w)).
  assert (H0 : P w) by reflexivity.
  assert (Hs : forall m w', P w' -> P (detached (send m w'))).
  { intros m w' H. unfold P. rewrite conn_detached_send. exact H. }
  destruct (plain_op o) eqn:Hp.
  - enough (H : P (apply_op h o w)) by (unfold P in H; lia).
    apply frame_plain_op; try assumption; subst P; intros; assumption.
  - destruct o; try discriminate; cbn [apply_op].
    + enough (H : P (socket_open w)) by (unfold P in H; lia).
      unfold socket_open. apply frame_onConnect; try assumption; subst P;
        intros; assumption.
    + enough (H : P (socket_close w)) by (unfold P in H; lia).
      unfold socket_close. apply frame_onDisconnect; try assumption; subst P;
        intros; assumption.
    + cbn. lia.
    + unfold count. rewrite new_Promise_eq. cbn -[send String.append Z.add].
      rewrite conn_detached_send. cbn. lia.
    + enough (H : P (snd (policy_returned stringify ClientAuth challenge res w)))
        by (unfold P in H; lia).
      apply frame_policy_returned; try assumption; subst P; intros; assumption.
    + enough (H : P (snd (auth_settled r w))) by (unfold P in H; lia).
      apply frame_auth_settled; try assumption; subst P; intros; assumption.
Qed.

Lemma serial_run_ops (h : Host) (ops : list Op) (w : World) :
  serial (conn w) <= serial (conn (run_ops h ops w)).
Proof.
  revert w. induction ops as [|o ops IH]; intros w; [cbn; lia|].
  cbn [run_ops fold_left]. pose proof (serial_apply_op h o w).
  pose proof (IH (apply_op h o w)). unfold run_ops in *. lia.
Qed.

Lemma minted_inj (prefix : string) (a b : Z) :
  prefix +:+ pretty a = prefix +:+ pretty b -> a = b.
Proof.
  intros H. apply (inj (String.app prefix)) in H. apply (inj pretty) in H.
  exact H.
Qed.

(** X11.  The identifiers the connection mints are never reused: a
    subscription prepared without an id of its own gets an id that differs
    from that of every such subscription prepared earlier, whatever happened
    in between, and likewise for the ids of count requests. *)
Theorem minted_ids_unique (h : Host) (s : list Value -> string)
    (fs fs' : list Value) (ops : list Op) (w : World) :
  sub_id (fst (prepareSubscription fs None w))
    <> sub_id (fst (prepareSubscription fs' None
                      (run_ops h ops (snd (prepareSubscription fs None w))))) /\
  count_id None w
    <> count_id None (run_ops h ops (snd (count s fs None w))).
Proof.
  split.
  - pose proof (serial_run_ops h ops (snd (prepareSubscription fs None w))) as H.
    cbn -[pretty String.append Z.add run_ops] in *.
    intros E. apply minted_inj in E. lia.
  - pose proof (serial_run_ops h ops (snd (count s fs None w))) as H.
    assert (Hc : serial (conn (snd (count s fs None w))) = serial (conn w) + 1).
    { unfold count. rewrite new_Promise_eq. cbn -[send String.append Z.add].
      rewrite conn_detached_send. reflexivity. }
    unfold count_id. cbn -[pretty String.append Z.add run_ops count].
    intros E. apply minted_inj in E. lia.
Qed.

(** ** Subscriptions and their frames *)

(** X13.  A frame that names an id under which nothing is registered has no
    effect, whatever its verb; it is reported in the debug log as a parsing
    error when the verb is [EVENT] or [OK], and passes without a word when
    the verb is [EOSE], [CLOSED] or [COUNT]. *)
Theorem orphan_frames (h : Host) (e : MessageEvent) (v : string) (i : Value)
    (rest : list Value) (w : World) :
  In v ["EVENT"; "COUNT"; "EOSE"; "OK"; "CLOSED"] ->
  JSON_parse h (data e) = Ok (VArr (VStr v :: i :: rest)) ->
  orphan v i w ->
  let w0 := debug "Parsed message" (debug "Message received" w) in
  snd (onMessage h e w)
    = if lenient_verb v then w0 else debug "Error parsing message" w0.
Proof.
  intros Hv Hparse Ho w0.
  unfold onMessage, mbind at 1 2, lift at 1, act at 1. rewrite Hparse.
  unfold dispatch, mbind, lift, read, act, deref, mret. cbn [get_index].
  change (default VUndefined ((VStr v :: i :: rest) !! 0%nat)) with (VStr v).
  change (default VUndefined ((VStr v :: i :: rest) !! 1%nat)) with i.
  cbn [conn debug]. unfold orphan in Ho.
  destruct Hv as [<-|[<-|[<-|[<-|[<-|[]]]]]]; cbn in Ho |- *; rewrite Ho;
    reflexivity.
Qed.

Lemma orphan_frames_witness :
  snd (onMessage orphan_host {| data := "eose" |} connected_world)
    = debug "Parsed message" (debug "Message received" connected_world) /\
  snd (onMessage orphan_host {| data := "ok" |} connected_world)
    = debug "Error parsing message"
        (debug "Parsed message" (debug "Message received" connected_world)).
Proof.
  split.
  - exact (orphan_frames orphan_host {| data := "eose" |} "EOSE" (VStr "s9") []
             connected_world (or_intror (or_intror (or_introl eq_refl)))
             eq_refl eq_refl).
  - exact (orphan_frames orphan_host {| data := "ok" |} "OK" (VStr "E9")
             [VBool true; VStr ""] connected_world
             (or_intror (or_intror (or_intror (or_introl eq_refl))))
             eq_refl eq_refl).
Defined.

(** ** Publishing on a connection that cannot send *)

(** X14.  [publish] does not fail on a connection that cannot send: it
    registers its resolver and returns the promise all the same; the error
    of [send] rejects a promise nobody holds, and nothing is handed to the
    socket.  The returned promise then stays pending through every frame
    that is not an [OK] for the event's id. *)
Theorem publish_while_closed (h : Host) (s : NostrEvent -> string)
    (ev : NostrEvent) (es : list MessageEvent) (w : World) :
  ~ connected_open w ->
  promises_fresh w ->
  forallb (fun e => negb (ok_frame_for h (id ev) e)) es = true ->
  let p := fst (publish s ev w) in
  let w' := snd (publish s ev w) in
  openEventPublishes (conn w') !! id ev = Some p /\
  trace w' = trace w ++ [UnhandledRejection closed_relay] /\
  settlements p (trace (onMessages h es w')) = [].
Proof.
  intros Hc Hfresh Hes p w'.
  destruct (publish_registers s ev w Hfresh) as (Hp & Hpend & Hnone).
  fold p in Hp. fold w' in Hpend, Hnone. rewrite <- Hp in Hpend, Hnone.
  destruct (onMessages_pending h es p (id ev) w' Hpend Hes) as [_ Hs].
  split; [apply Hpend|]. split; [|congruence].
  subst w'. unfold publish, send. rewrite new_Promise_eq.
  cbn -[String.append].
  destruct (_ && _) eqn:E; [|reflexivity].
  exfalso. apply Hc. apply connected_open_test. exact E.
Qed.

Lemma publish_while_closed_witness :
  let w := fresh_world sample_relay None 0 in
  trace (snd (publish (fun _ => "{}") event_E w))
    = [UnhandledRejection closed_relay].
Proof.
  refine (proj1 (proj2 (publish_while_closed ok_host (fun _ => "{}") event_E
            [{| data := "eose" |}] (fresh_world sample_relay None 0) _ _ _))).
  - intros [H _]. discriminate H.
  - split; [split; intros k H; cbn in H; rewrite lookup_empty in H;
            discriminate H|reflexivity].
  - reflexivity.
Defined.

(** ** The connect timeout *)

Lemma connect_arms (h : Host) (T : option Z) (r : bool) (w : World) :
  let w' := snd (connect h T r w) in
  timeoutMs (conn w') = connect_delay T w /\
  connectTimeout (conn w') = Some (nextTimer w) /\
  In (connect_timer r (connect_delay T w) w) (timers w').
Proof.
  intros w'. subst w'. unfold connect.
  set (w1 := match reconnectTimeout (conn w) with Some i => _ | None => w end).
  assert (H1 : nextTimer w1 = nextTimer w /\ now w1 = now w /\
               timeoutMs (conn w1) = timeoutMs (conn w)).
  { subst w1. destruct (reconnectTimeout (conn w)); repeat split. }
  clearbody w1.
  set (w2 := match connectTimeout (conn w1) with Some i => _ | None => w1 end).
  assert (H2 : nextTimer w2 = nextTimer w /\ now w2 = now w /\
               timeoutMs (conn w2) = timeoutMs (conn w)).
  { subst w2. destruct (connectTimeout (conn w1)); exact H1. }
  clearbody w2. clear H1.
  set (T' := match T with Some t => Some t | None => timeoutMs (conn w2) end).
  set (w3 := if _ && _ then _ else w2).
  assert (H3 : nextTimer w3 = nextTimer w /\ now w3 = now w /\
               timeoutMs (conn w3) = connect_delay T w).
  { destruct H2 as (Hn & Ht & Hm). subst w3 T'. unfold connect_delay.
    rewrite <- Hm.
    destruct (truthy_num (timeoutMs (conn w2))) eqn:E; cbn [negb andb];
      [repeat split; assumption|].
    destruct T as [t|]; [|rewrite E; repeat split; assumption].
    destruct (truthy_num (Some t)); repeat split; assumption. }
  clearbody w3. clear H2. destruct H3 as (Hn & Ht & Hm).
  pose (P := fun w0 : World =>
    timeoutMs (conn w0) = connect_delay T w /\
    connectTimeout (conn w0) = Some (nextTimer w) /\
    In (connect_timer r (connect_delay T w) w) (timers w0)).
  change (P (snd (let '(id0, w0) := setTimeout (CbConnectTimeout r)
                                      (timeoutMs (conn w3)) w3 in
                  let w4 := with_conn (set_connectTimeout (Some id0)) w0 in
                  let w5 := stats_attempt w4 in
                  let w6 := if decide (_status (conn w5) = DISCONNECTED)
                            then with_conn (set_status CONNECTING) w5
                            else with_conn (set_status RECONNECTING) w5 in
                  let w7 := debug "Connecting to" w6 in
                  match new_WebSocket h (url (ndkRelay (conn w7))) with
                  | Ok sock => (Ok tt, with_conn (set_ws (Some sock)) w7)
                  | Throw e =>
                      let w8 := debug "Failed to connect to" w7 in
                      let w9 := with_conn (set_status DISCONNECTED) w8 in
                      let w10 := if r then handleReconnection 0 w9
                                 else emit (EvDelayedConnect
                                              (2 * 24 * 60 * 60 * 1000)) w9 in
                      (Throw e, w10)
                  end))).
  assert (H4 : P (with_conn (set_connectTimeout (Some (nextTimer w3)))
                    (timer_set (CbConnectTimeout r) (timeoutMs (conn w3)) w3))).
  { unfold P, connect_timer. cbn. rewrite Hn, Ht, Hm.
    split; [reflexivity|]. split; [reflexivity|].
    apply in_or_app. right. left. reflexivity. }
  rewrite setTimeout_eq.
  cbn -[with_conn timer_set handleReconnection stats_attempt debug emit].
  destruct (decide _);
    destruct (new_WebSocket h _);
    cbn -[with_conn timer_set handleReconnection stats_attempt debug emit].
  1, 3: exact H4.
  all: destruct r; [|exact H4].
  all: apply frame_handleReconnection; try exact H4; try (intros; assumption).
  all: intros cb d0 w0 (Ha & Hb & Hc); repeat split; try assumption; cbn;
    apply in_or_app; left; exact Hc.
Qed.

Lemma timeoutMs_run_ops (h : Host) (ops : list Op) (T : Z) (w : World) :
  T <> 0 ->
  timeoutMs (conn w) = Some T ->
  timeoutMs (conn (run_ops h ops w)) = Some T.
Proof.
  intros HT H.
  apply (frame_run_ops (fun w' => timeoutMs (conn w') = Some T));
    try exact H; intros;
    first [ assumption
          | rewrite conn_detached_send; assumption
          | exfalso;
            match goal with
            | H1 : truthy_num (timeoutMs (conn ?x)) = false,
              H2 : timeoutMs (conn ?x) = Some T |- _ =>
                rewrite H2 in H1; cbn in H1;
                destruct (Z.eqb_spec T 0); [contradiction|discriminate]
            end ].
Qed.

(** X15.  The first timeout handed to [connect] is kept for good: once
    [this.timeoutMs] holds a number, every later call of [connect] arms its
    timeout with that number, whatever it is called with and whatever
    happened in between. *)
Theorem first_timeout_sticks (h : Host) (T1 : Z) (r1 : bool) (ops : list Op)
    (T2 : option Z) (r2 : bool) (w : World) :
  truthy_num (timeoutMs (conn w)) = false ->
  T1 <> 0 ->
  let w1 := run_ops h ops (snd (connect h (Some T1) r1 w)) in
  let w2 := snd (connect h T2 r2 w1) in
  timeoutMs (conn w2) = Some T1 /\
  connectTimeout (conn w2) = Some (nextTimer w1) /\
  In (connect_timer r2 (Some T1) w1) (timers w2).
Proof.
  intros Hw HT w1 w2.
  assert (Ht : truthy_num (Some T1) = true).
  { cbn. destruct (Z.eqb_spec T1 0); [contradiction|reflexivity]. }
  destruct (connect_arms h (Some T1) r1 w) as (H1 & _ & _).
  unfold connect_delay in H1. rewrite Hw, Ht in H1.
  pose proof (timeoutMs_run_ops h ops T1 _ HT H1) as H2. fold w1 in H2.
  destruct (connect_arms h T2 r2 w1) as (H3 & H4 & H5). fold w2 in H3, H4, H5.
  unfold connect_delay in H3, H5. rewrite H2, Ht in H3, H5.
  split; [exact H3|]. split; [exact H4|exact H5].
Qed.

Lemma first_timeout_sticks_witness :
  let w1 := run_ops sample_host [OpOpen; OpClose]
              (snd (connect sample_host (Some 3000) true
                      (fresh_world sample_relay None 0))) in
  In (connect_timer false (Some 3000) w1)
     (timers (snd (connect sample_host (Some 9000) false w1))).
Proof.
  refine (proj2 (proj2 (first_timeout_sticks sample_host 3000 true
            [OpOpen; OpClose] (Some 9000) false
            (fresh_world sample_relay None 0) _ _)));
    [reflexivity | discriminate].
Defined.

(** X17.  A [disconnect()] issued while the auth policy is deciding is
    overruled when the policy answers [true] and a signer is configured: the
    status is no longer [AUTHENTICATING], so nothing is signed or sent, yet
    the function goes on to set the status to [CONNECTED] and to emit
    [authed], on a socket that is closing.  When that socket's [close]
    event arrives the connection takes it for a lost link and runs its
    reconnection logic. *)
Theorem authed_although_disconnecting (h : Host) (s : NostrEvent -> string)
    (k : Z) (c : Value) (w : World) (sock sock' : WebSocket) :
  _status (conn w) = AUTHENTICATING ->
  haveSigner w = true ->
  ws (conn w) = Some sock ->
  WebSocket_close h sock = Ok sock' ->
  reconnectTimeout (conn w) = None ->
  let w1 := disconnect h w in
  let w2 := snd (policy_returned s k c PolicyTrue w1) in
  _status (conn w1) = DISCONNECTING /\
  fst (policy_returned s k c PolicyTrue w1) = AuthReturned /\
  isAvailable w2 = true /\
  ws (conn w2) = Some sock' /\
  trace w2 = trace w ++ [WsClose; Emit EvAuthed] /\
  In (now w2, "Attempting to reconnect") (log (socket_close w2)).
Proof.
  intros Hs Hg Hw Hc Hr w1 w2.
  assert (E1 : w1 = with_conn (set_ws (Some sock'))
                 (effect WsClose (with_conn (set_status DISCONNECTING) w))).
  { subst w1. unfold disconnect. cbn [conn with_conn ws set_status].
    rewrite Hw, Hc. reflexivity. }
  assert (E2 : policy_returned s k c PolicyTrue w1
               = (AuthReturned,
                  authed (debug "Authentication policy returned" w1))).
  { unfold policy_returned. rewrite E1. cbn [conn with_conn debug effect ndk
      set_ws set_status _status]. unfold haveSigner in Hg. rewrite Hg.
    reflexivity. }
  subst w2. rewrite E2. cbn [fst snd].
  split; [rewrite E1; reflexivity|]. split; [reflexivity|].
  split; [reflexivity|]. split; [rewrite E1; reflexivity|].
  split; [rewrite E1; cbn; rewrite <- app_assoc; reflexivity|].
  unfold socket_close, onDisconnect, handleReconnection.
  rewrite E1. cbn -[isFlapping reconnectDelay push_duration truthy_num].
  rewrite Hr.
  destruct (decide (CONNECTED = CONNECTED)) as [_|Hx];
    [|exfalso; apply Hx; reflexivity].
  destruct (isFlapping _);
    cbn -[isFlapping reconnectDelay push_duration truthy_num];
    rewrite !in_app_iff; cbn; tauto.
Qed.

Lemma authed_although_disconnecting_witness :
  let w2 := snd (policy_returned (fun _ => "{}") 22242 (VStr "c7") PolicyTrue
                   (disconnect sample_host challenged_world)) in
  isAvailable w2 = true /\
  readyState <$> ws (conn w2) = Some WS_CLOSING /\
  fst (send "[]" w2) = Throw closed_relay.
Proof.
  pose proof (authed_although_disconnecting sample_host (fun _ => "{}") 22242
                (VStr "c7") challenged_world {| readyState := WS_OPEN |}
                {| readyState := WS_CLOSING |}
                eq_refl eq_refl eq_refl eq_refl eq_refl) as (_ & _ & H3 & H4 & _).
  split; [exact H3|]. split; [|reflexivity].
  cbv zeta. rewrite H4. reflexivity.
Defined.

(** ** Flapping *)

(** X18.  When the session that just ended makes the recorded durations a
    flapping pattern, a lost connection is not re-established: the status
    becomes [FLAPPING], [flapping] is emitted with the statistics, and no
    reconnect timer is armed. *)
Theorem flapping_stops_reconnecting (w : World) :
  _status (conn w) = CONNECTED ->
  reconnectTimeout (conn w) = None ->
  isFlapping (durations_of (socket_close w)) = true ->
  let w' := socket_close w in
  _status (conn w') = FLAPPING /\
  timers w' = timers w /\
  reconnectTimeout (conn w') = None /\
  trace w' = trace w ++ [Emit (EvFlapping (_connectionStats (conn w')));
                         Emit EvDisconnect].
Proof.
  intros Hs Hr Hf w'. subst w'.
  pose (X := with_conn (set_status DISCONNECTED)
               (stats_disconnected
                  (with_conn (set_ws (Some {| readyState := WS_CLOSED |})) w))).
  assert (E : socket_close w
              = emit EvDisconnect
                  (debug "Disconnected from" (handleReconnection 0 X))).
  { unfold socket_close, onDisconnect.
    cbn [conn with_conn stats_disconnected set_ws set_stats _status].
    rewrite Hs. reflexivity. }
  assert (Hd : durations_of (socket_close w) = durations_of X).
  { rewrite E. apply (handleReconnection_sessions 0 X). }
  rewrite Hd in Hf.
  assert (E2 : handleReconnection 0 X
               = with_conn (set_status FLAPPING)
                   (emit (EvFlapping (_connectionStats (conn X)))
                      (debug "Attempting to reconnect" X))).
  { unfold handleReconnection.
    change (reconnectTimeout (conn X)) with (reconnectTimeout (conn w)).
    rewrite Hr. cbn zeta.
    change (Stats.durations (_connectionStats
              (conn (debug "Attempting to reconnect" X))))
      with (durations_of X).
    rewrite Hf. reflexivity. }
  rewrite E, E2. cbn -[push_duration truthy_num].
  split; [reflexivity|]. split; [reflexivity|]. split; [exact Hr|].
  rewrite <- app_assoc. reflexivity.
Qed.

Lemma flapping_stops_reconnecting_witness :
  durations_of (socket_close third_session) = [500; 600; 550] /\
  _status (conn (socket_close third_session)) = FLAPPING /\
  fire sample_host (socket_close third_session) = None.
Proof.
  split; [reflexivity|]. split; [|reflexivity].
  exact (proj1 (flapping_stops_reconnecting third_session eq_refl eq_refl
                  eq_refl)).
Defined.

(** ** Timers that an open socket leaves pending *)

Lemma world_detached_send (m : string) (w : World) :
  conn (detached (send m w)) = conn w /\
  timers (detached (send m w)) = timers w.
Proof. unfold send. destruct (_ && _); split; reflexivity. Qed.

Lemma tidy_same (w w' : World) :
  timers w' = timers w ->
  connectTimeout (conn w') = connectTimeout (conn w) ->
  reconnectTimeout (conn w') = reconnectTimeout (conn w) ->
  tidy w -> tidy w'.
Proof.
  intros Ht Hc Hr H t Hin. rewrite Ht in Hin. rewrite Hc, Hr.
  apply H, Hin.
Qed.

Ltac tidy_frame :=
  intros;
  first
    [ assumption
    | match goal with
      | H : tidy ?x |- tidy (detached (send ?m ?x)) =>
          destruct (world_detached_send m x) as [Hsc Hst];
          apply (tidy_same x); [exact Hst | rewrite Hsc .. | exact H];
          reflexivity
      | H : tidy ?x |- tidy (timer_set ?cb ?d ?x) =>
          let u := fresh "u" in
          let Hu := fresh "Hu" in
          intros u Hu; cbn in Hu; apply in_app_or in Hu as [Hu|[<-|[]]];
          [exact (H u Hu) | exact I]
      | H : tidy ?x |- tidy _ =>
          apply (tidy_same x); [reflexivity | reflexivity | reflexivity | exact H]
      end ].

Lemma tidy_clear_reconnect (w : World) :
  tidy w ->
  let w1 := match reconnectTimeout (conn w) with
            | Some i => with_conn (set_reconnectTimeout None) (clearTimeout i w)
            | None => w
            end in
  tidy w1 /\ reconnectTimeout (conn w1) = None /\
  connectTimeout (conn w1) = connectTimeout (conn w).
Proof.
  intros H. destruct (reconnectTimeout (conn w)) as [i|] eqn:E; cbn zeta;
    [|repeat split; assumption].
  split; [|split; reflexivity].
  intros t Hin. cbn in Hin. apply in_filter_tid in Hin as [Hin Hne].
  specialize (H t Hin). cbn.
  destruct (callback t); try exact H.
  rewrite E in H. injection H as ->. contradiction.
Qed.

Lemma tidy_clear_connect (w : World) :
  tidy w ->
  let w1 := match connectTimeout (conn w) with
            | Some i => with_conn (set_connectTimeout None) (clearTimeout i w)
            | None => w
            end in
  tidy w1 /\ connectTimeout (conn w1) = None /\
  reconnectTimeout (conn w1) = reconnectTimeout (conn w).
Proof.
  intros H. destruct (connectTimeout (conn w)) as [i|] eqn:E; cbn zeta;
    [|repeat split; assumption].
  split; [|split; reflexivity].
  intros t Hin. cbn in Hin. apply in_filter_tid in Hin as [Hin Hne].
  specialize (H t Hin). cbn.
  destruct (callback t); try exact H.
  rewrite E in H. injection H as ->. contradiction.
Qed.

Lemma tidy_handleReconnection (a : Z) (w : World) :
  tidy w -> tidy (handleReconnection a w).
Proof.
  intros H. unfold handleReconnection.
  destruct (reconnectTimeout (conn w)) eqn:E; [exact H|].
  destruct (isFlapping _).
  - apply (tidy_same w); try reflexivity; exact H.
  - intros t Hin. cbn in Hin |- *.
    apply in_app_or in Hin as [Hin|[<-|[]]]; [|reflexivity].
    specialize (H t Hin). destruct (callback t); try exact H.
    rewrite E in H. discriminate H.
Qed.

Lemma tidy_connect (h : Host) (T : option Z) (r : bool) (w : World) :
  tidy w -> tidy (snd (connect h T r w)).
Proof.
  intros H. unfold connect.
  destruct (tidy_clear_reconnect w H) as (H1 & Hr1 & _).
  set (w1 := match reconnectTimeout (conn w) with Some i => _ | None => w end)
    in *.
  clearbody w1.
  destruct (tidy_clear_connect w1 H1) as (H2 & Hc2 & Hr2).
  set (w2 := match connectTimeout (conn w1) with Some i => _ | None => w1 end)
    in *.
  clearbody w2. rewrite Hr1 in Hr2. clear H1 Hr1.
  set (T' := match T with Some t => Some t | None => timeoutMs (conn w2) end).
  set (w3 := if _ && _ then _ else w2).
  assert (H3 : tidy w3 /\ connectTimeout (conn w3) = None /\
               reconnectTimeout (conn w3) = None).
  { subst w3. destruct (_ && _); repeat split; assumption. }
  clearbody w3. clear H2 Hc2 Hr2. destruct H3 as (H3 & Hc3 & Hr3).
  assert (H4 : tidy (with_conn (set_connectTimeout (Some (nextTimer w3)))
                       (timer_set (CbConnectTimeout r) (timeoutMs (conn w3)) w3))).
  { intros t Hin. cbn in Hin |- *.
    apply in_app_or in Hin as [Hin|[<-|[]]]; [|reflexivity].
    specialize (H3 t Hin). rewrite Hc3 in H3.
    destruct (callback t); try exact H3. discriminate H3. }
  rewrite setTimeout_eq.
  cbn -[with_conn timer_set handleReconnection stats_attempt debug emit].
  destruct (decide _);
    destruct (new_WebSocket h _);
    cbn -[with_conn timer_set handleReconnection stats_attempt debug emit].
  all: try (destruct r; [apply tidy_handleReconnection|]).
  all: refine (tidy_same _ _ eq_refl eq_refl eq_refl H4).
Qed.

Lemma tidy_onConnect (w : World) :
  tidy w ->
  tidy (onConnect w) /\
  connectTimeout (conn (onConnect w)) = None /\
  reconnectTimeout (conn (onConnect w)) = None.
Proof.
  intros H. unfold onConnect.
  destruct (tidy_clear_reconnect w H) as (H1 & Hr1 & _).
  set (w1 := match reconnectTimeout (conn w) with Some i => _ | None => w end)
    in *.
  clearbody w1.
  destruct (tidy_clear_connect w1 H1) as (H2 & Hc2 & Hr2).
  set (w2 := match connectTimeout (conn w1) with Some i => _ | None => w1 end)
    in *.
  clearbody w2. rewrite Hr1 in Hr2.
  split; [|split; assumption].
  refine (tidy_same _ _ eq_refl eq_refl eq_refl H2).
Qed.

Lemma tidy_onDisconnect (w : World) : tidy w -> tidy (onDisconnect w).
Proof.
  intros H. unfold onDisconnect.
  assert (H0 : tidy (stats_disconnected w))
    by exact (tidy_same _ _ eq_refl eq_refl eq_refl H).
  destruct (decide _).
  - assert (H1 : tidy (handleReconnection 0
                         (with_conn (set_status DISCONNECTED)
                            (stats_disconnected w)))).
    { apply tidy_handleReconnection.
      exact (tidy_same _ _ eq_refl eq_refl eq_refl H). }
    exact (tidy_same _ _ eq_refl eq_refl eq_refl H1).
  - exact (tidy_same _ _ eq_refl eq_refl eq_refl H).
Qed.

Lemma tidy_fire (h : Host) (w : World) : tidy w -> tidy (default w (fire h w)).
Proof.
  intros H. unfold fire.
  destruct (next_timer (timers w)) as [t|] eqn:E; [|exact H].
  destruct (next_timer_spec _ _ E) as [Hin _]. cbn [default].
  set (w0 := {| conn := conn w; now := Z.max (now w) (fireAt t);
                timers := filter (fun u => tid u ≠ tid t) (timers w);
                nextTimer := nextTimer w; nextPromise := nextPromise w;
                trace := trace w; log := log w |}).
  assert (H0 : tidy w0).
  { intros u Hu. cbn in Hu. apply in_filter_tid in Hu as [Hu _].
    exact (H u Hu). }
  destruct (callback t) as [b|a|a|] eqn:Ecb; cbn [run_callback].
  - unfold onConnectionError.
    destruct b; [apply tidy_handleReconnection|];
      exact (tidy_same _ _ eq_refl eq_refl eq_refl H0).
  - unfold reconnect_fire.
    assert (H1 : tidy (with_conn (set_status RECONNECTING)
                         (with_conn (set_reconnectTimeout None) w0))).
    { intros u Hu. cbn in Hu |- *. apply in_filter_tid in Hu as [Hu Hne].
      pose proof (H u Hu) as Hcb. pose proof (H t Hin) as Ht.
      rewrite Ecb in Ht.
      destruct (callback u); try exact Hcb.
      rewrite Ht in Hcb. injection Hcb as Hx. symmetry in Hx. contradiction. }
    pose proof (tidy_connect h None true _ H1) as Hc.
    destruct (connect h None true _) as [[u|err] w']; cbn [snd] in Hc.
    + exact (tidy_same _ _ eq_refl eq_refl eq_refl Hc).
    + destruct (a <? MAX_RECONNECT_ATTEMPTS).
      * intros u Hu. cbn in Hu |- *.
        apply in_app_or in Hu as [Hu|[<-|[]]]; [exact (Hc u Hu)|exact I].
      * exact (tidy_same _ _ eq_refl eq_refl eq_refl Hc).
  - apply tidy_handleReconnection, H0.
  - pose proof (tidy_connect h None true w0 H0) as Hc.
    destruct (connect h None true w0) as [[u|err] w']; cbn [snd detached] in *;
      [exact Hc|exact (tidy_same _ _ eq_refl eq_refl eq_refl Hc)].
Qed.

Lemma tidy_apply_op (h : Host) (o : Op) (w : World) :
  tidy w -> tidy (apply_op h o w).
Proof.
  intros H. destruct o; cbn [apply_op].
  - apply tidy_connect, H.
  - apply frame_disconnect; try exact H; tidy_frame.
  - apply tidy_onConnect. exact (tidy_same _ _ eq_refl eq_refl eq_refl H).
  - apply tidy_onDisconnect. exact (tidy_same _ _ eq_refl eq_refl eq_refl H).
  - exact (tidy_same _ _ eq_refl eq_refl eq_refl H).
  - apply frame_onMessage; try exact H; tidy_frame.
  - apply frame_publish; try exact H; tidy_frame.
  - apply frame_prepareSubscription; try exact H; tidy_frame.
  - apply frame_count; try exact H; tidy_frame.
  - apply frame_policy_returned; try exact H; tidy_frame.
  - apply frame_signed; try exact H; tidy_frame.
  - apply frame_auth_settled; try exact H; tidy_frame.
  - apply tidy_fire, H.
  - exact (tidy_same _ _ eq_refl eq_refl eq_refl H).
Qed.

Lemma tidy_run_ops (h : Host) (ops : list Op) (w : World) :
  tidy w -> tidy (run_ops h ops w).
Proof.
  revert w. induction ops as [|o ops IH]; intros w H; [exact H|].
  cbn [run_ops fold_left]. apply IH, tidy_apply_op, H.
Qed.

Lemma connect_never_CONNECTED (h : Host) (T : option Z) (r : bool)
    (w : World) :
  _status (conn (snd (connect h T r w))) <> CONNECTED.
Proof.
  unfold connect.
  set (w1 := match reconnectTimeout (conn w) with Some i => _ | None => w end).
  clearbody w1.
  set (w2 := match connectTimeout (conn w1) with Some i => _ | None => w1 end).
  clearbody w2.
  set (T' := match T with Some t => Some t | None => timeoutMs (conn w2) end).
  clearbody T'.
  set (w3 := if _ && _ then _ else w2). clearbody w3.
  cbn -[handleReconnection].
  destruct (decide _); destruct (new_WebSocket h _);
    cbn -[handleReconnection]; try discriminate.
  all: destruct r; [|cbn; discriminate].
  all: apply (frame_handleReconnection
                (fun u => _status (conn u) <> CONNECTED));
    try (intros; assumption); try discriminate.
  all: intros x u Hx _; exact Hx.
Qed.

(** X19.  The socket's [open] event cancels the timers the connection keeps
    a handle of, and no others.  Whatever the connection went through
    before, after the event [connectTimeout] and [reconnectTimeout] hold
    nothing and no connect timeout and no scheduled reconnect is pending;
    a timer that neither handle named is still pending.  So the
    [connect()] that a notice scheduled survives the event, and an open
    connection is not safe from it: whenever it runs, the status it leaves
    is not [CONNECTED]. *)
Theorem open_cancels_timeouts (h : Host) (relay : NDKRelay)
    (ndk0 : option NDK) (t0 : Z) (ops : list Op) (t : Timer) :
  let w0 := run_ops h ops (fresh_world relay ndk0 t0) in
  let w := socket_open w0 in
  connectTimeout (conn w) = None /\
  reconnectTimeout (conn w) = None /\
  (In t (timers w) -> has_handle (callback t) = false) /\
  (In t (timers w0) ->
   connectTimeout (conn w0) <> Some (tid t) ->
   reconnectTimeout (conn w0) <> Some (tid t) ->
   In t (timers w)) /\
  (forall u, _status (conn (run_callback h CbNoticeConnect u)) <> CONNECTED).
Proof.
  intros w0 w.
  assert (H0 : tidy (fresh_world relay ndk0 t0)) by (intros u []).
  pose proof (tidy_run_ops h ops _ H0) as H1. fold w0 in H1.
  destruct (tidy_onConnect
              (with_conn (set_ws (Some {| readyState := WS_OPEN |})) w0))
    as (H2 & Hc & Hr).
  { exact (tidy_same _ _ eq_refl eq_refl eq_refl H1). }
  fold (socket_open w0) in H2, Hc, Hr. fold w in H2, Hc, Hr.
  split; [exact Hc|]. split; [exact Hr|]. split; [|split].
  - intros Hin. specialize (H2 t Hin). rewrite Hc, Hr in H2.
    destruct (callback t); try reflexivity; discriminate H2.
  - intros Hin Hnc Hnr. subst w. unfold socket_open, onConnect.
    destruct (reconnectTimeout (conn w0)) as [rid|] eqn:Er;
      destruct (connectTimeout (conn w0)) as [cid|] eqn:Ec;
      cbn; rewrite ?Er; cbn; rewrite ?Ec; cbn.
    all: rewrite ?in_filter_tid; repeat split; try exact Hin; congruence.
  - intros u. cbn [run_callback].
    pose proof (connect_never_CONNECTED h None true u) as Hs.
    destruct (connect h None true u) as [[x|err] u']; exact Hs.
Qed.

Lemma open_cancels_timeouts_witness :
  let w := socket_open
             (run_ops notice_host stale_script (fresh_world sample_relay None 0)) in
  _status (conn w) = CONNECTED /\
  In stale_timer (timers w) /\
  _status (conn (default w (fire notice_host w))) = RECONNECTING.
Proof.
  cbv zeta. split; [reflexivity|]. split; [|reflexivity].
  apply (proj1 (proj2 (proj2 (proj2
           (open_cancels_timeouts notice_host sample_relay None 0 stale_script
              stale_timer))))).
  - vm_compute. tauto.
  - vm_compute. discriminate.
  - vm_compute. discriminate.
Defined.

(** ** Tokens of the remote signer *)

Lemma includes_hash_cons (c : ascii) (s : string) :
  String_includes "#" (String c s) = Ascii.eqb c "#" || String_includes "#" s.
Proof.
  cbn [String_includes String.prefix].
  destruct (ascii_dec "#" c) as [<-|Hne].
  - destruct s; reflexivity.
  - destruct (Ascii.eqb_spec c "#") as [->|_]; [contradiction|reflexivity].
Qed.

Lemma split_hash (a s : string) :
  hashfree a = true ->
  Nip46.split "#" (a +:+ "#" +:+ s) = a :: Nip46.split "#" s /\
  String_includes "#" (a +:+ "#" +:+ s) = true.
Proof.
  unfold hashfree. induction a as [|c a IH]; intros H.
  - split; [reflexivity|].
    change ("" +:+ "#" +:+ s) with (String "#" s).
    rewrite includes_hash_cons. reflexivity.
  - apply negb_true_iff in H. rewrite includes_hash_cons in H.
    apply orb_false_elim in H as [Hc Ha].
    destruct (IH (proj2 (negb_true_iff _) Ha)) as [IH1 IH2].
    change (String c a +:+ "#" +:+ s) with (String c (a +:+ "#" +:+ s)).
    split.
    + cbn [Nip46.split]. rewrite Hc, IH1. reflexivity.
    + rewrite includes_hash_cons, IH2. apply orb_true_r.
Qed.

Lemma split_hashfree (b : string) :
  hashfree b = true -> Nip46.split "#" b = [b].
Proof.
  unfold hashfree. induction b as [|c b IH]; intros H; [reflexivity|].
  apply negb_true_iff in H. rewrite includes_hash_cons in H.
  apply orb_false_elim in H as [Hc Hb].
  cbn [Nip46.split]. rewrite Hc, (IH (proj2 (negb_true_iff _) Hb)).
  reflexivity.
Qed.

(** X20.  A connection token [<npub>#<secret>] is taken apart as it was put
    together.  When what precedes the first ['#'] decodes as an npub, the
    constructor returns a signer whose remote key is the decoded one and
    whose secret is what lies between the first ['#'] and the next one (or
    the end), and the [connect] request of the handshake carries that
    secret after the local key.  When it does not decode, the constructor
    throws what the decoding throws. *)
Theorem token_round_trip (npub_decode : string -> Result string)
    (generated : Nip46.NDKUser) (ls : option Nip46.NDKUser)
    (a b more : string) (t0 : Z) :
  hashfree a = true ->
  hashfree b = true ->
  more = "" \/ (exists rest, more = "#" +:+ rest) ->
  let tok := a +:+ "#" +:+ b +:+ more in
  (forall pk, npub_decode a = Ok pk ->
     exists g,
       Nip46.new_NDKNip46Signer npub_decode generated tok ls = Ok g /\
       Nip46.token g = Some b /\
       Nip46.remotePubkey g = (if String.eqb pk "" then None else Some pk) /\
       Nip46.nip05 g = None /\
       Nip46.calls (Nip46.connect_request (Nip46.new_session g t0))
         = [(t0, Nip46.RpcSendRequest (Nip46.remotePubkey g) "connect"
                   (Nip46.pubkey (Nip46.localSigner g)
                      :: (if String.eqb b "" then [] else [Some b]))
                   24133)]) /\
  (forall e, npub_decode a = Throw e ->
     Nip46.new_NDKNip46Signer npub_decode generated tok ls = Throw e).
Proof.
  intros Ha Hb Hmore tok. subst tok.
  destruct (split_hash a (b +:+ more) Ha) as [Hsplit Hinc].
  assert (Hparts : exists l, Nip46.split "#" (b +:+ more) = b :: l).
  { destruct Hmore as [->|[rest ->]].
    - exists []. replace (b +:+ "") with b; [apply split_hashfree, Hb|].
      clear. induction b as [|c b IH]; [reflexivity|].
      change (String c b +:+ "") with (String c (b +:+ "")).
      rewrite <- IH. reflexivity.
    - eexists. apply (split_hash b rest Hb). }
  destruct Hparts as [l Hl].
  assert (Hnew : Nip46.new_NDKNip46Signer npub_decode generated
                   (a +:+ "#" +:+ b +:+ more) ls
                 = match npub_decode a with
                   | Ok pk =>
                       Ok {| Nip46.remoteUser := {| Nip46.pubkey := Some pk |};
                             Nip46.remotePubkey :=
                               if truthy_str (Some pk) then Some pk else None;
                             Nip46.token := Some b;
                             Nip46.localSigner := default generated ls;
                             Nip46.nip05 := None |}
                   | Throw e => Throw e
                   end).
  { unfold Nip46.new_NDKNip46Signer. rewrite Hinc, Hsplit, Hl.
    cbn [lookup list_lookup default from_option Datatypes.id].
    destruct (npub_decode a); reflexivity. }
  rewrite Hnew. split.
  - intros pk Hpk. rewrite Hpk. eexists. split; [reflexivity|].
    cbn -[String.eqb].
    split; [reflexivity|].
    split; [destruct (String.eqb pk ""); reflexivity|].
    split; [reflexivity|].
    unfold Nip46.connect_request. cbn -[String.eqb].
    destruct (String.eqb b ""); reflexivity.
  - intros e He. rewrite He. reflexivity.
Qed.

Lemma token_round_trip_witness :
  exists g,
    Nip46.new_NDKNip46Signer sample_decode {| Nip46.pubkey := Some "10ca1" |}
      (sample_npub +:+ "#" +:+ "otp42" +:+ "") None = Ok g /\
    Nip46.token g = Some "otp42" /\
    Nip46.remotePubkey g = Some sample_pubkey /\
    Nip46.calls (Nip46.connect_request (Nip46.new_session g 0))
      = [(0, Nip46.RpcSendRequest (Nip46.remotePubkey g) "connect"
               [Some "10ca1"; Some "otp42"] 24133)].
Proof.
  destruct (proj1 (token_round_trip sample_decode
                     {| Nip46.pubkey := Some "10ca1" |} None sample_npub
                     "otp42" "" 0 eq_refl eq_refl (or_introl eq_refl))
              sample_pubkey eq_refl)
    as (g & Hg & H1 & H2 & _ & H4).
  pose proof Hg as Hc. vm_compute in Hc. injection Hc as Hc. subst g.
  eexists. split; [exact Hg|]. split; [exact H1|].
  split; [exact H2|]. exact H4.
Defined.

(** X21.  A signer built from a human-readable identifier gets ready at
    the second attempt: the constructor returns without decoding anything;
    the first [blockUntilReady] starts the lookup and throws; once the
    lookup has delivered a user with a key, a further [blockUntilReady]
    starts no second lookup and goes on to subscribe, for the user that was
    looked up. *)
Theorem blockUntilReady_after_lookup (npub_decode : string -> Result string)
    (generated : Nip46.NDKUser) (ls : option Nip46.NDKUser) (tok pk : string)
    (t0 : Z) :
  identifier tok = true ->
  pk <> "" ->
  exists g,
    Nip46.new_NDKNip46Signer npub_decode generated tok ls = Ok g /\
    let s1 := snd (Nip46.blockUntilReady (Nip46.new_session g t0)) in
    let s2 := Nip46.fromNip05_then (Some {| Nip46.pubkey := Some pk |}) s1 in
    fst (Nip46.blockUntilReady (Nip46.new_session g t0))
      = Throw (Error (VStr "Remote pubkey not set")) /\
    fst (Nip46.blockUntilReady s2) = Ok {| Nip46.pubkey := Some pk |} /\
    Nip46.calls (snd (Nip46.blockUntilReady s2))
      = [(t0, Nip46.Nip05Lookup tok);
         (t0, Nip46.RpcSubscribe [24133]
                [Nip46.pubkey (Nip46.localSigner g)])].
Proof.
  intros Hid Hpk. unfold identifier, hashfree in Hid.
  apply andb_prop in Hid as [Hid Hdot]. apply andb_prop in Hid as [Hh Hn].
  apply negb_true_iff in Hh, Hn.
  assert (Htok : String.eqb tok "" = false).
  { destruct tok; [discriminate Hdot|reflexivity]. }
  exists {| Nip46.remoteUser := {| Nip46.pubkey := None |};
            Nip46.remotePubkey := None;
            Nip46.token := None;
            Nip46.localSigner := default generated ls;
            Nip46.nip05 := Some tok |}.
  split.
  { unfold Nip46.new_NDKNip46Signer. rewrite Hh, Hn, Hdot. reflexivity. }
  assert (Hpk' : String.eqb pk "" = false) by (apply String.eqb_neq, Hpk).
  intros s1 s2. subst s2 s1.
  unfold Nip46.blockUntilReady, Nip46.fromNip05_then.
  do 3 (cbn -[String.eqb]; rewrite ?Htok, ?Hpk').
  cbn. repeat split; reflexivity.
Qed.

Lemma blockUntilReady_after_lookup_witness :
  exists g,
    Nip46.new_NDKNip46Signer sample_decode {| Nip46.pubkey := Some "10ca1" |}
      "bob@example.com" None = Ok g /\
    fst (Nip46.blockUntilReady
           (Nip46.fromNip05_then (Some {| Nip46.pubkey := Some "5f2c" |})
              (snd (Nip46.blockUntilReady (Nip46.new_session g 0)))))
      = Ok {| Nip46.pubkey := Some "5f2c" |}.
Proof.
  destruct (blockUntilReady_after_lookup sample_decode
              {| Nip46.pubkey := Some "10ca1" |} None "bob@example.com"
              "5f2c" 0 eq_refl ltac:(discriminate))
    as (g & Hg & _ & H2 & _).
  exists g. split; [exact Hg | exact H2].
Defined.

(** ** Lost connections and deliberate disconnects *)

(** X22.  The socket's [close] event re-establishes a connection only when
    it comes unasked.  On a connection that is up (and not flapping) it
    arms a reconnect timer, [5000 * (attempts + 1)] ms ahead; had
    [disconnect()] been called first, the same event arms nothing. *)
Theorem close_reconnects_unless_disconnected (h : Host) (w : World) :
  _status (conn w) = CONNECTED ->
  reconnectTimeout (conn w) = None ->
  connectedAt (conn w) = None ->
  isFlapping (durations_of (socket_close w)) = false ->
  _status (conn (socket_close w)) = DISCONNECTED /\
  timers (socket_close w)
    = timers w ++
      [{| tid := nextTimer w; setAt := now w;
          delay := Some (5000 * (Stats.attempts (_connectionStats (conn w)) + 1));
          callback := CbReconnect 0 |}] /\
  reconnectTimeout (conn (socket_close w)) = Some (nextTimer w) /\
  timers (socket_close (disconnect h w)) = timers w /\
  reconnectTimeout (conn (socket_close (disconnect h w))) = None.
Proof.
  intros Hs Hr Hc Hf.
  pose (X := with_conn (set_status DISCONNECTED)
               (stats_disconnected
                  (with_conn (set_ws (Some {| readyState := WS_CLOSED |})) w))).
  assert (E : socket_close w
              = emit EvDisconnect
                  (debug "Disconnected from" (handleReconnection 0 X))).
  { unfold socket_close, onDisconnect.
    cbn [conn with_conn stats_disconnected set_ws set_stats _status].
    rewrite Hs. reflexivity. }
  assert (Hd : durations_of (socket_close w) = durations_of X).
  { rewrite E. apply (handleReconnection_sessions 0 X). }
  rewrite Hd in Hf.
  assert (Hdelay : reconnectDelay (debug "Attempting to reconnect" X)
                   = 5000 * (Stats.attempts (_connectionStats (conn w)) + 1)).
  { unfold reconnectDelay.
    change (connectedAt (conn (debug "Attempting to reconnect" X)))
      with (connectedAt (conn w)).
    rewrite Hc. reflexivity. }
  assert (E2 : handleReconnection 0 X
               = set_nextReconnectAt
                   (Some (now w + 5000 * (Stats.attempts (_connectionStats (conn w)) + 1)))
                   (debug "Reconnecting in"
                      (emit (EvDelayedConnect
                               (5000 * (Stats.attempts (_connectionStats (conn w)) + 1)))
                         (with_conn (set_reconnectTimeout (Some (nextTimer w)))
                            (timer_set (CbReconnect 0)
                               (Some (5000 * (Stats.attempts (_connectionStats (conn w)) + 1)))
                               (debug "Attempting to reconnect" X)))))).
  { unfold handleReconnection.
    change (reconnectTimeout (conn X)) with (reconnectTimeout (conn w)).
    rewrite Hr. cbn zeta.
    change (Stats.durations (_connectionStats
              (conn (debug "Attempting to reconnect" X))))
      with (durations_of X).
    rewrite Hf, Hdelay. reflexivity. }
  destruct (disconnect_then_close h w) as (_ & Ht & Hrt).
  rewrite E, E2, Ht, Hrt.
  repeat split; try reflexivity. exact Hr.
Qed.

Lemma close_reconnects_unless_disconnected_witness :
  timers (socket_close connected_world)
    = [{| tid := 2%positive; setAt := 0; delay := Some 10000;
          callback := CbReconnect 0 |}] /\
  timers (socket_close (disconnect sample_host connected_world)) = [].
Proof.
  pose proof (close_reconnects_unless_disconnected sample_host connected_world
                eq_refl eq_refl eq_refl eq_refl) as (_ & H2 & _ & H4 & _).
  split; [exact H2 | exact H4].
Defined.

(** ** Scripts and reachable worlds *)

(** Every world of [reachable] is the outcome of a script run on a new
    connection, so what holds after every script holds in every reachable
    world. *)
Lemma reachable_run_ops (h : Host) (w : World) :
  reachable h w ->
  exists relay ndk0 t0 ops, w = run_ops h ops (fresh_world relay ndk0 t0).
Proof.
  assert (Hsnoc : forall ops o w0,
            run_ops h (ops ++ [o]) w0 = apply_op h o (run_ops h ops w0)).
  { intros ops o w0. unfold run_ops. rewrite fold_left_app. reflexivity. }
  induction 1 as [relay ndk0 t0 | w T r _ IH | w _ IH | w _ IH | w _ IH
                 | w e _ IH | w s ev _ IH | w fs i _ IH | w w' _ IH Hf
                 | w dt _ IH].
  - exists relay, ndk0, t0, []. reflexivity.
  - destruct IH as (relay & ndk0 & t0 & ops & ->).
    exists relay, ndk0, t0, (ops ++ [OpConnect T r]). rewrite Hsnoc. reflexivity.
  - destruct IH as (relay & ndk0 & t0 & ops & ->).
    exists relay, ndk0, t0, (ops ++ [OpDisconnect]). rewrite Hsnoc. reflexivity.
  - destruct IH as (relay & ndk0 & t0 & ops & ->).
    exists relay, ndk0, t0, (ops ++ [OpOpen]). rewrite Hsnoc. reflexivity.
  - destruct IH as (relay & ndk0 & t0 & ops & ->).
    exists relay, ndk0, t0, (ops ++ [OpClose]). rewrite Hsnoc. reflexivity.
  - destruct IH as (relay & ndk0 & t0 & ops & ->).
    exists relay, ndk0, t0, (ops ++ [OpMessage e]). rewrite Hsnoc. reflexivity.
  - destruct IH as (relay & ndk0 & t0 & ops & ->).
    exists relay, ndk0, t0, (ops ++ [OpPublish s ev]). rewrite Hsnoc.
    reflexivity.
  - destruct IH as (relay & ndk0 & t0 & ops & ->).
    exists relay, ndk0, t0, (ops ++ [OpSubscribe fs i]). rewrite Hsnoc.
    reflexivity.
  - destruct IH as (relay & ndk0 & t0 & ops & ->).
    exists relay, ndk0, t0, (ops ++ [OpFire]). rewrite Hsnoc.
    cbn [apply_op]. rewrite Hf. reflexivity.
  - destruct IH as (relay & ndk0 & t0 & ops & ->).
    exists relay, ndk0, t0, (ops ++ [OpWait dt]). rewrite Hsnoc. reflexivity.
Qed.
